(** * OmniScript Discovery Framework API client

    A shallow embedding of [scripts/python/omniscript_discovery.py]: the
    [SalesforceClient] class, [load_credentials], the three click commands
    ([get], [list], [debug]) and the table rendering, followed by the
    properties of the specification checked against them.

    Python strings are sequences of Unicode code points, dictionaries keep
    their insertion order, and every call that leaves the process (the
    environment, the Salesforce login, HTTP requests, SOQL queries, the file
    system) is answered by a [World]; what the program does to the outside is
    recorded as a trace of [event]s.  What the libraries do is modelled from
    their documentation: simple-salesforce's [restful] and [SalesforceError],
    and the [dumps] and [loads] of the [json] module. *)

From Stdlib Require Import ZArith NArith String Ascii.
From Stdlib Require Import DecimalString DecimalFacts DecimalPos.
From Stdlib Require Import Floats.SpecFloat.
From stdpp Require Import base option list gmap.

Set Warnings "-register-all".
Local Open Scope N_scope.

(** ** Python strings *)

Module PyStr.

(** A [str] is a sequence of code points; [len] and slicing count code
    points, never bytes. *)
Definition pystr : Type := list N.

(** Decoding of the UTF-8 bytes of a literal of this file into the code
    points Python reads from the (UTF-8) source file. *)
Fixpoint utf8_decode (bs : list N) : pystr :=
  match bs with
  | [] => []
  | b :: rest =>
      if b <? 128 then b :: utf8_decode rest
      else if b <? 224 then
        match rest with
        | c1 :: r => ((b - 192) * 64 + (c1 - 128)) :: utf8_decode r
        | _ => []
        end
      else if b <? 240 then
        match rest with
        | c1 :: c2 :: r =>
            ((b - 224) * 4096 + (c1 - 128) * 64 + (c2 - 128)) :: utf8_decode r
        | _ => []
        end
      else
        match rest with
        | c1 :: c2 :: c3 :: r =>
            ((b - 240) * 262144 + (c1 - 128) * 4096 + (c2 - 128) * 64 + (c3 - 128))
              :: utf8_decode r
        | _ => []
        end
  end.

(** The encoding [quote_plus] applies before escaping. *)
Definition utf8_encode_char (c : N) : list N :=
  if c <? 128 then [c]
  else if c <? 2048 then [192 + c / 64; 128 + c mod 64]
  else if c <? 65536 then [224 + c / 4096; 128 + (c / 64) mod 64; 128 + c mod 64]
  else [240 + c / 262144; 128 + (c / 4096) mod 64; 128 + (c / 64) mod 64; 128 + c mod 64].

Definition bytes_of_string (s : string) : list N :=
  map N_of_ascii (list_ascii_of_string s).

(** [u "..."] is the Python literal ["..."]. *)
Definition u (s : string) : pystr := utf8_decode (bytes_of_string s).

(** [str(n)] for an [int]. *)
Definition str_of_Z (n : Z) : pystr :=
  bytes_of_string (NilZero.string_of_int (Z.to_int n)).

(** [sep.join(parts)] *)
Fixpoint join (sep : pystr) (parts : list pystr) : pystr :=
  match parts with
  | [] => []
  | [p] => p
  | p :: rest => p ++ sep ++ join sep rest
  end.

(** [s.startswith(p)] *)
Fixpoint startswith (p s : pystr) : bool :=
  match p, s with
  | [], _ => true
  | a :: p', b :: s' => (a =? b) && startswith p' s'
  | _ :: _, [] => false
  end.

(** [needle in hay] *)
Fixpoint contains (needle hay : pystr) : bool :=
  startswith needle hay ||
  match hay with
  | [] => false
  | _ :: hay' => contains needle hay'
  end.

(** [s[:n]] for a non-negative [n]. *)
Definition slice_to (n : nat) (s : pystr) : pystr := take n s.

End PyStr.
Export PyStr.

Arguments u _%_string_scope.
Arguments u : simpl never.

(** Literals are compared as they stand; only [vm_compute] decodes them. *)
Opaque u.

(** ** Python values *)

Module PyVal.

(** The values [response.json()] and a SOQL record hold ([Any] in the
    source's annotations).  A [dict] keeps its items in insertion order; its
    keys are distinct. *)
Inductive pyval : Type :=
| PyNone
| PyBool (b : bool)
| PyInt (n : Z)
| PyFloat (x : spec_float)
| PyStr (s : pystr)
| PyList (xs : list pyval)
| PyDict (items : list (pystr * pyval)).

Definition pydict : Type := list (pystr * pyval).

(** [bool(v)], the test behind [if v] and [not v]. *)
Definition truthy (v : pyval) : bool :=
  match v with
  | PyNone => false
  | PyBool b => b
  | PyInt n => negb (n =? 0)%Z
  | PyFloat (S754_zero _) => false
  | PyFloat _ => true
  | PyStr s => negb (bool_decide (s = []))
  | PyList xs => negb (bool_decide (xs = []))
  | PyDict items => negb (bool_decide (items = []))
  end.

Definition float_one : spec_float := S754_finite false 4503599627370496 (-52).

(** [v == True]: [True] is the integer 1, equal to [1] and [1.0] as well. *)
Definition eq_True (v : pyval) : bool :=
  match v with
  | PyBool b => b
  | PyInt n => (n =? 1)%Z
  | PyFloat x => SFeqb x float_one
  | _ => false
  end.

(** [d[k]] as an option. *)
Fixpoint dict_lookup (k : pystr) (d : pydict) : option pyval :=
  match d with
  | [] => None
  | (k', v) :: d' => if bool_decide (k = k') then Some v else dict_lookup k d'
  end.

(** [x == n] for a float and an integer: Python compares the exact values. *)
Definition float_eq_Z (x : spec_float) (n : Z) : bool :=
  match x with
  | S754_zero _ => (n =? 0)%Z
  | S754_finite s m e =>
      let v := if s then Z.neg m else Z.pos m in
      if (0 <=? e)%Z then (n =? v * 2 ^ e)%Z else (n * 2 ^ (- e) =? v)%Z
  | _ => false
  end.

(** A number of Python: an integer ([bool] is a subclass of [int]) or a
    float. *)
Definition py_number (v : pyval) : option (Z + spec_float) :=
  match v with
  | PyBool b => Some (inl (if b then 1 else 0)%Z)
  | PyInt n => Some (inl n)
  | PyFloat x => Some (inr x)
  | _ => None
  end.

Definition number_eq (a b : Z + spec_float) : bool :=
  match a, b with
  | inl m, inl n => (m =? n)%Z
  | inl m, inr y => float_eq_Z y m
  | inr x, inl n => float_eq_Z x n
  | inr x, inr y => SFeqb x y
  end.

(** Two lists compared item by item. *)
Definition list_eq {A} (eq : A -> A -> bool) : list A -> list A -> bool :=
  fix go (xs ys : list A) : bool :=
    match xs, ys with
    | [], [] => true
    | x :: xs', y :: ys' => eq x y && go xs' ys'
    | _, _ => false
    end.

(** [a == b]: numbers by value (a NaN is equal to nothing, itself
    included), texts and [None] as they are, lists item by item, dicts key by
    key whatever the order. *)
Fixpoint py_eq (a b : pyval) {struct a} : bool :=
  match a with
  | PyNone => match b with PyNone => true | _ => false end
  | PyStr s => match b with PyStr t => bool_decide (s = t) | _ => false end
  | PyList xs => match b with PyList ys => list_eq py_eq xs ys | _ => false end
  | PyDict d =>
      match b with
      | PyDict d' =>
          (length d =? length d')%nat
          && List.forallb
               (fun kv : pystr * pyval =>
                  match dict_lookup kv.1 d' with
                  | Some v' => py_eq kv.2 v'
                  | None => false
                  end) d
      | _ => false
      end
  | _ =>
      match py_number a, py_number b with
      | Some x, Some y => number_eq x y
      | _, _ => false
      end
  end.

(** [d.get(k, dflt)] *)
Definition dict_get (d : pydict) (k : pystr) (dflt : pyval) : pyval :=
  default dflt (dict_lookup k d).

(** [type(v).__name__] *)
Definition type_name (v : pyval) : pystr :=
  match v with
  | PyNone => u "NoneType"
  | PyBool _ => u "bool"
  | PyInt _ => u "int"
  | PyFloat _ => u "float"
  | PyStr _ => u "str"
  | PyList _ => u "list"
  | PyDict _ => u "dict"
  end.

(** [str(v)].  For a [str] it is the value itself; for [None], a [bool] and an
    [int] the text is fixed; for floats, lists and dicts it is the runtime's
    [repr], taken as [repr]. *)
Definition py_str (repr : pyval -> pystr) (v : pyval) : pystr :=
  match v with
  | PyStr s => s
  | PyNone => u "None"
  | PyBool true => u "True"
  | PyBool false => u "False"
  | PyInt n => str_of_Z n
  | _ => repr v
  end.

End PyVal.
Export PyVal.

(** ** The json module

    [json.dumps] and [json.loads] are no code of the script; they are
    modelled from the library's documentation, on the values of [pyval].
    Characters are given by their code points: 34 is the quote, 92 the
    backslash, 44 the comma, 58 the colon, 91 and 93 the brackets, 123 and
    125 the braces, 32 the space, 10 the newline, 45 the minus sign. *)

Module Json.

(** *** [json.dumps(v, indent=indent, ensure_ascii=False)] *)

Definition hex_lower (n : N) : N := if n <? 10 then 48 + n else 87 + n.

(** One character of a string as the encoder writes it: the quote and the
    backslash behind a backslash, the control characters as their short
    escapes or as [\u00XX], everything else as it is. *)
Definition escape_char (c : N) : pystr :=
  if c =? 34 then [92; 34]
  else if c =? 92 then [92; 92]
  else if c =? 10 then [92; 110]
  else if c =? 13 then [92; 114]
  else if c =? 9 then [92; 116]
  else if c =? 8 then [92; 98]
  else if c =? 12 then [92; 102]
  else if c <? 32 then [92; 117; 48; 48; hex_lower (c / 16); hex_lower (c mod 16)]
  else [c].

Definition encode_string (s : pystr) : pystr :=
  34 :: concat (map escape_char s) ++ [34].

Definition text_null : pystr := [110; 117; 108; 108].
Definition text_true : pystr := [116; 114; 117; 101].
Definition text_false : pystr := [102; 97; 108; 115; 101].
Definition text_NaN : pystr := [78; 97; 78].
Definition text_Infinity : pystr := [73; 110; 102; 105; 110; 105; 116; 121].
Definition text_minus_Infinity : pystr := 45 :: text_Infinity.

(** The items of a list or of a dict, one after the other with [sep] in
    between. *)
Definition encode_seq {A} (enc : A -> pystr) (sep : pystr) : list A -> pystr :=
  fix go (xs : list A) : pystr :=
    match xs with
    | [] => []
    | x :: rest =>
        match rest with
        | [] => enc x
        | _ :: _ => enc x ++ sep ++ go rest
        end
    end.

Section Encoder.

(** [float.__repr__], the text of a finite float. *)
Variable float_repr : spec_float -> pystr.
Variable indent : option nat.

Definition float_text (x : spec_float) : pystr :=
  match x with
  | S754_nan => text_NaN
  | S754_infinity false => text_Infinity
  | S754_infinity true => text_minus_Infinity
  | _ => float_repr x
  end.

(** With an indent every item starts on a line of its own. *)
Definition newline_indent (level : nat) : pystr :=
  match indent with
  | None => []
  | Some n => 10 :: replicate (n * level) 32
  end.

Definition item_separator : pystr :=
  match indent with
  | None => [44; 32]
  | Some _ => [44]
  end.

Definition key_separator : pystr := [58; 32].

Fixpoint encode (level : nat) (v : pyval) : pystr :=
  match v with
  | PyNone => text_null
  | PyBool true => text_true
  | PyBool false => text_false
  | PyInt n => str_of_Z n
  | PyFloat x => float_text x
  | PyStr s => encode_string s
  | PyList [] => [91; 93]
  | PyList xs =>
      [91] ++ newline_indent (S level)
        ++ encode_seq (encode (S level))
             (item_separator ++ newline_indent (S level)) xs
        ++ newline_indent level ++ [93]
  | PyDict [] => [123; 125]
  | PyDict items =>
      [123] ++ newline_indent (S level)
        ++ encode_seq
             (fun kv : pystr * pyval =>
                encode_string kv.1 ++ key_separator ++ encode (S level) kv.2)
             (item_separator ++ newline_indent (S level)) items
        ++ newline_indent level ++ [125]
  end.

Definition dumps (v : pyval) : pystr := encode 0 v.

End Encoder.

(** *** [json.loads(s)] *)

Definition is_ws (c : N) : bool :=
  (c =? 32) || (c =? 9) || (c =? 10) || (c =? 13).

Fixpoint skip_ws (s : pystr) : pystr :=
  match s with
  | c :: r => if is_ws c then skip_ws r else s
  | [] => []
  end.

Definition is_digit (c : N) : bool := (48 <=? c) && (c <=? 57).

(** The longest run of digits at the head of [s], and what follows it. *)
Fixpoint digits (s : pystr) : pystr * pystr :=
  match s with
  | c :: r =>
      if is_digit c then let '(ds, rest) := digits r in (c :: ds, rest)
      else ([], s)
  | [] => ([], [])
  end.

Definition digits_value (ds : pystr) : N :=
  fold_left (fun acc c => acc * 10 + (c - 48)) ds 0.

(** [int(text)] for an optional minus sign and digits. *)
Definition int_of_text (t : pystr) : Z :=
  match t with
  | c :: ds =>
      if c =? 45 then (- Z.of_N (digits_value ds))%Z else Z.of_N (digits_value t)
  | [] => 0%Z
  end.

(** The three groups of [NUMBER_RE]: the integer part (an optional minus
    sign, then a lone zero or a digit other than zero and any digits), the
    fraction (a dot and one digit or more) and the exponent ([e] or [E], an
    optional sign, one digit or more); the last two are optional. *)
Definition scan_integer (s : pystr) : option (pystr * pystr) :=
  let '(sign, r) := match s with
                    | c :: r => if c =? 45 then ([45], r) else ([], s)
                    | [] => ([], s)
                    end in
  match r with
  | [] => None
  | c :: r' =>
      if c =? 48 then Some (sign ++ [48], r')
      else if is_digit c then
        let '(ds, rest) := digits r' in Some (sign ++ c :: ds, rest)
      else None
  end.

Definition scan_frac (s : pystr) : option (pystr * pystr) :=
  match s with
  | c :: r =>
      if c =? 46 then
        match digits r with
        | ([], _) => None
        | (ds, rest) => Some (46 :: ds, rest)
        end
      else None
  | [] => None
  end.

Definition scan_exp (s : pystr) : option (pystr * pystr) :=
  match s with
  | c :: r =>
      if (c =? 101) || (c =? 69) then
        let '(sign, r1) := match r with
                           | c' :: r' =>
                               if (c' =? 45) || (c' =? 43) then ([c'], r')
                               else ([], r)
                           | [] => ([], r)
                           end in
        match digits r1 with
        | ([], _) => None
        | (ds, rest) => Some (c :: sign ++ ds, rest)
        end
      else None
  | [] => None
  end.

Definition hex_value (c : N) : option N :=
  if is_digit c then Some (c - 48)
  else if (97 <=? c) && (c <=? 102) then Some (c - 87)
  else if (65 <=? c) && (c <=? 70) then Some (c - 55)
  else None.

Definition hex4 (a b c d : N) : option N :=
  match hex_value a, hex_value b, hex_value c, hex_value d with
  | Some x, Some y, Some z, Some t => Some (((x * 16 + y) * 16 + z) * 16 + t)
  | _, _, _, _ => None
  end.

(** The character a backslash and [c] stand for. *)
Definition unescape (c : N) : option N :=
  if c =? 34 then Some 34
  else if c =? 92 then Some 92
  else if c =? 47 then Some 47
  else if c =? 98 then Some 8
  else if c =? 102 then Some 12
  else if c =? 110 then Some 10
  else if c =? 114 then Some 13
  else if c =? 116 then Some 9
  else None.

Definition prepend (c : N) (r : option (pystr * pystr)) : option (pystr * pystr) :=
  match r with
  | Some (str, rest) => Some (c :: str, rest)
  | None => None
  end.

(** The string that starts behind an opening quote, up to its closing
    quote, and what follows: a raw control character is refused, a [\uXXXX]
    pair of surrogates becomes one character. *)
Fixpoint scanstring (s : pystr) : option (pystr * pystr) :=
  match s with
  | [] => None
  | c :: r =>
      if c =? 34 then Some ([], r)
      else if c =? 92 then
        match r with
        | [] => None
        | e :: r1 =>
            if e =? 117 then
              match r1 with
              | h1 :: h2 :: h3 :: h4 :: r2 =>
                  match hex4 h1 h2 h3 h4 with
                  | None => None
                  | Some uni =>
                      let plain := prepend uni (scanstring r2) in
                      if (55296 <=? uni) && (uni <=? 56319) then
                        match r2 with
                        | 92 :: 117 :: r3 =>
                            match r3 with
                            | g1 :: g2 :: g3 :: g4 :: r4 =>
                                match hex4 g1 g2 g3 g4 with
                                | None => None
                                | Some uni2 =>
                                    if (56320 <=? uni2) && (uni2 <=? 57343) then
                                      prepend
                                        (65536 + ((uni - 55296) * 1024
                                                  + (uni2 - 56320)))
                                        (scanstring r4)
                                    else plain
                                end
                            | _ => None
                            end
                        | _ => plain
                        end
                      else plain
                  end
              | _ => None
              end
            else
              match unescape e with
              | Some ch => prepend ch (scanstring r1)
              | None => None
              end
        end
      else if c <? 32 then None
      else prepend c (scanstring r)
  end.

(** [dict(pairs)]: a key that comes again keeps its place and takes the
    later value. *)
Fixpoint dict_set (k : pystr) (v : pyval) (d : pydict) : pydict :=
  match d with
  | [] => [(k, v)]
  | (k', v') :: d' =>
      if bool_decide (k = k') then (k, v) :: d' else (k', v') :: dict_set k v d'
  end.

Definition dict_of_pairs (pairs : list (pystr * pyval)) : pydict :=
  fold_left (fun d kv => dict_set kv.1 kv.2 d) pairs [].

Section Decoder.

(** [float(text)] for a text that [NUMBER_RE] matched. *)
Variable float_parse : pystr -> spec_float.

Definition scan_number (s : pystr) : option (pyval * pystr) :=
  match scan_integer s with
  | None => None
  | Some (integer, r) =>
      let '(frac, r1) := match scan_frac r with
                         | Some (frac, r1) => (frac, r1)
                         | None => ([], r)
                         end in
      let '(exp, r2) := match scan_exp r1 with
                        | Some (exp, r2) => (exp, r2)
                        | None => ([], r1)
                        end in
      match frac, exp with
      | [], [] => Some (PyInt (int_of_text integer), r2)
      | _, _ => Some (PyFloat (float_parse (integer ++ frac ++ exp)), r2)
      end
  end.

(** What follows the literal [lit] at the head of [s]. *)
Fixpoint after (lit s : pystr) : option pystr :=
  match lit, s with
  | [], _ => Some s
  | a :: lit', b :: s' => if a =? b then after lit' s' else None
  | _ :: _, [] => None
  end.

(** [s[:1] == c] *)
Definition head_is (c : N) (s : pystr) : bool :=
  match s with
  | c' :: _ => c' =? c
  | [] => false
  end.

(** The scanner: one value at the head of [s] and what follows it.  The
    three functions call each other as [scan_once], [JSONArray] and
    [JSONObject] do; [fuel] bounds the calls. *)
Fixpoint scan_once (fuel : nat) (s : pystr) : option (pyval * pystr) :=
  match fuel with
  | O => None
  | S fuel' =>
      match s with
      | [] => None
      | c :: r =>
          if c =? 34 then
            match scanstring r with
            | Some (str, rest) => Some (PyStr str, rest)
            | None => None
            end
          else if c =? 123 then
            let r1 := skip_ws r in
            if head_is 125 r1 then Some (PyDict [], tail r1)
            else
              match scan_members fuel' r1 with
              | Some (pairs, rest) => Some (PyDict (dict_of_pairs pairs), rest)
              | None => None
              end
          else if c =? 91 then
            let r1 := skip_ws r in
            if head_is 93 r1 then Some (PyList [], tail r1)
            else
              match scan_items fuel' r1 with
              | Some (values, rest) => Some (PyList values, rest)
              | None => None
              end
          else
            match after text_null s, after text_true s, after text_false s with
            | Some rest, _, _ => Some (PyNone, rest)
            | None, Some rest, _ => Some (PyBool true, rest)
            | None, None, Some rest => Some (PyBool false, rest)
            | None, None, None =>
                match scan_number s with
                | Some number => Some number
                | None =>
                    match after text_NaN s, after text_Infinity s,
                          after text_minus_Infinity s with
                    | Some rest, _, _ => Some (PyFloat S754_nan, rest)
                    | None, Some rest, _ => Some (PyFloat (S754_infinity false), rest)
                    | None, None, Some rest => Some (PyFloat (S754_infinity true), rest)
                    | None, None, None => None
                    end
                end
            end
      end
  end
with scan_items (fuel : nat) (s : pystr) : option (list pyval * pystr) :=
  match fuel with
  | O => None
  | S fuel' =>
      match scan_once fuel' s with
      | None => None
      | Some (value, r) =>
          match skip_ws r with
          | 93 :: rest => Some ([value], rest)
          | 44 :: r1 =>
              match scan_items fuel' (skip_ws r1) with
              | Some (values, rest) => Some (value :: values, rest)
              | None => None
              end
          | _ => None
          end
      end
  end
with scan_members (fuel : nat) (s : pystr) : option (list (pystr * pyval) * pystr) :=
  match fuel with
  | O => None
  | S fuel' =>
      match s with
      | 34 :: r =>
          match scanstring r with
          | None => None
          | Some (key, r1) =>
              match skip_ws r1 with
              | 58 :: r2 =>
                  match scan_once fuel' (skip_ws r2) with
                  | None => None
                  | Some (value, r3) =>
                      match skip_ws r3 with
                      | 125 :: rest => Some ([(key, value)], rest)
                      | 44 :: r4 =>
                          match scan_members fuel' (skip_ws r4) with
                          | Some (pairs, rest) => Some ((key, value) :: pairs, rest)
                          | None => None
                          end
                      | _ => None
                      end
                  end
              | _ => None
              end
          end
      | _ => None
      end
  end.

(** [json.loads]: one value, blanks around it allowed and nothing else;
    [None] when the library raises [JSONDecodeError]. *)
Definition loads (s : pystr) : option pyval :=
  match scan_once (2 * length s + 2) (skip_ws s) with
  | Some (v, rest) =>
      match skip_ws rest with
      | [] => Some v
      | _ :: _ => None
      end
  | None => None
  end.

End Decoder.

(** *** What a round trip needs *)

(** The digits of a decimal numeral as characters. *)
Definition digit_chars (d : Decimal.uint) : pystr :=
  bytes_of_string (NilEmpty.string_of_uint d).

(** What may follow a value in a JSON text: the end of the text, a comma,
    a closing bracket or brace, a blank. *)
Definition value_ends (rest : pystr) : bool :=
  match rest with
  | [] => true
  | c :: _ => (c =? 44) || (c =? 93) || (c =? 125) || is_ws c
  end.

(** A text that starts as a value starts: with no blank and no closing
    bracket. *)
Definition starts_value (t : pystr) : bool :=
  match t with
  | c :: _ => negb (is_ws c) && negb (c =? 93)
  | [] => false
  end.

(** One member of a dict as the encoder writes it. *)
Definition encode_member (enc : pyval -> pystr) (kv : pystr * pyval) : pystr :=
  encode_string kv.1 ++ key_separator ++ enc kv.2.

(** The text [enc x] is read back as [x] by [scan_once] with the fuel
    [f], whatever follows it. *)
Definition reads (float_parse : pystr -> spec_float) (f : nat)
    (enc : pyval -> pystr) (x : pyval) : Prop :=
  forall rest, value_ends rest = true ->
               scan_once float_parse f (enc x ++ rest) = Some (x, rest).

(** The float [x] survives its text: it is no NaN and, when it is finite,
    the number scanner reads the whole of [float_repr x] and gives [x] back.
    Python documents [float(repr(x)) == x] for every such float. *)
Definition float_reads_back (float_repr : spec_float -> pystr)
    (float_parse : pystr -> spec_float) (x : spec_float) : Prop :=
  match x with
  | S754_nan => False
  | S754_infinity _ => True
  | _ => scan_number float_parse (float_repr x) = Some (PyFloat x, [])
  end.

(** The floats inside [v]. *)
Fixpoint floats (v : pyval) : list spec_float :=
  match v with
  | PyFloat x => [x]
  | PyList xs => concat (map floats xs)
  | PyDict items => concat (map (fun kv : pystr * pyval => floats kv.2) items)
  | _ => []
  end.

(** Every dict inside [v] has distinct keys, as every [dict] of Python
    has. *)
Fixpoint distinct_keys (v : pyval) : bool :=
  match v with
  | PyList xs => List.forallb distinct_keys xs
  | PyDict items =>
      bool_decide (NoDup (map fst items))
      && List.forallb (fun kv : pystr * pyval => distinct_keys kv.2) items
  | _ => true
  end.

End Json.

(** ** Exceptions, events and the command monad *)

Module Effects.

(** The exceptions the script raises or handles.  [OtherException] stands for
    every other subclass of [Exception] (a [requests] failure, a
    [JSONDecodeError], a [KeyError], an [OSError], ...); [SystemExit] is what
    [sys.exit] raises and is no [Exception].  Each carries [str(e)]. *)
Inductive exn : Type :=
| SalesforceAuthenticationFailed (msg : pystr)
| SalesforceError (msg : pystr)
| RuntimeError (msg : pystr)
| OtherException (msg : pystr)
| SystemExit (code : Z).

(** [str(e)] *)
Definition exn_str (e : exn) : pystr :=
  match e with
  | SalesforceAuthenticationFailed msg
  | SalesforceError msg
  | RuntimeError msg
  | OtherException msg => msg
  | SystemExit code => str_of_Z code
  end.

(** [isinstance(e, Exception)] *)
Definition is_Exception (e : exn) : bool :=
  match e with
  | SystemExit _ => false
  | _ => true
  end.

(** [isinstance(e, SalesforceError)]: the authentication failure is a
    subclass of it. *)
Definition is_SalesforceError (e : exn) : bool :=
  match e with
  | SalesforceError _ | SalesforceAuthenticationFailed _ => true
  | _ => false
  end.

Definition is_SalesforceAuthenticationFailed (e : exn) : bool :=
  match e with
  | SalesforceAuthenticationFailed _ => true
  | _ => false
  end.

(** How [Salesforce(...)] is told where to log in. *)
Inductive login_target : Type :=
| Domain (domain : pystr)
| InstanceUrl (instance_url : pystr).

Record login_request : Type := {
  lr_username : pystr;
  lr_password : pystr;
  lr_security_token : pystr;
  lr_target : login_target
}.

(** One row of the rich table, as handed to [table.add_row]. *)
Record table_row : Type := {
  row_name : pystr;
  row_type : pystr;
  row_subtype : pystr;
  row_language : pystr;
  row_version : pystr;
  row_active : pystr;
  row_unique_name : pystr;
  row_id : pystr
}.

Record table : Type := {
  table_title : pystr;
  table_columns : list (pystr * nat);
  table_rows : list table_row
}.

(** What the process does to the outside, in order. *)
Inductive event : Type :=
| Echo (err : bool) (msg : pystr)
| ConsolePrintText (msg : pystr)
| ConsolePrintTable (t : table)
| Login (req : login_request)
| HttpGet (url : pystr) (headers : list (pystr * pystr)) (timeout : Z)
| Restful (path : pystr) (method : pystr)
| Query (soql : pystr)
| WriteFile (path : pystr) (content : pystr).

(** The events that reach the network. *)
Definition is_network (ev : event) : bool :=
  match ev with
  | Login _ | HttpGet _ _ _ | Restful _ _ | Query _ => true
  | _ => false
  end.

(** A computation: the events it caused and how it ended, with a value or
    with an exception in flight. *)
Definition M (A : Type) : Type := list event * (exn + A).

Definition ret {A} (a : A) : M A := ([], inr a).

Definition bind {A B} (m : M A) (k : A -> M B) : M B :=
  match m with
  | (t, inl e) => (t, inl e)
  | (t, inr a) => let '(t', r) := k a in (t ++ t', r)
  end.

Definition raise {A} (e : exn) : M A := ([], inl e).

Definition emit (ev : event) : M unit := ([ev], inr tt).

(** The answer of an outside call, brought into the computation. *)
Definition answer {A} (r : exn + A) : M A := ([], r).

(** [try: body  except ...: handler]: [handler e] is the first clause that
    matches [e], if any. *)
Definition try_except {A} (body : M A) (handler : exn -> option (M A)) : M A :=
  match body with
  | (t, inl e) =>
      match handler e with
      | Some (t', r) => (t ++ t', r)
      | None => (t, inl e)
      end
  | (t, inr a) => (t, inr a)
  end.

Definition trace {A} (m : M A) : list event := m.1.
Definition outcome {A} (m : M A) : exn + A := m.2.

(** [click.echo(msg)] and [click.echo(msg, err=True)] *)
Definition echo (msg : pystr) : M unit := emit (Echo false msg).
Definition echo_err (msg : pystr) : M unit := emit (Echo true msg).

(** [sys.exit(code)] *)
Definition sys_exit {A} (code : Z) : M A := raise (SystemExit code).

End Effects.
Export Effects.

Declare Scope prog_scope.
Delimit Scope prog_scope with prog.
Bind Scope prog_scope with M.
Notation "'let*' x := m 'in' k" := (bind m (fun x => k))
  (at level 10, x name, m at level 100, k at level 200) : prog_scope.
Notation "m ;; k" := (bind m (fun _ => k))
  (at level 100, k at level 200, right associativity) : prog_scope.
Local Open Scope prog_scope.

(** ** The outside world *)

Module Outside.

(** A [requests.Response]: [json] is what [response.json()] gives, the
    parsed body or the exception it raises. *)
Record Response : Type := {
  status_code : Z;
  text : pystr;
  json : exn + pyval;
  headers : list (pystr * pystr)
}.

(** The two attributes the script reads off a [Salesforce] session. *)
Record Session : Type := {
  sf_instance : pystr;
  session_id : pystr
}.

(** What [sf.query] returns; the script reads [result['records']]
    ([List[Dict[str, Any]]]). *)
Record QueryResult : Type := {
  totalSize : Z;
  done : bool;
  records : list pydict
}.

(** Everything the script asks of its surroundings and of the libraries it
    imports.  Paths are given as the text [str(path)] shows. *)
Record World : Type := {
  script_dir : pystr;
  env_file : pystr;
  env_example : pystr;
  env_file_exists : bool;
  (** [os.environ] once [load_dotenv] has read the file *)
  environ : gmap pystr pystr;
  (** [Salesforce(username=..., password=..., security_token=..., ...)] *)
  Salesforce : login_request -> exn + Session;
  (** [requests.get(url, headers=..., timeout=...)] *)
  requests_get : pystr -> list (pystr * pystr) -> Z -> exn + Response;
  (** [sf.restful(path, method=...)]: simple-salesforce hands back the
      parsed JSON body ([None] for an empty one), not the response, and
      raises on a status of 300 or more *)
  sf_restful : Session -> pystr -> pystr -> exn + pyval;
  (** [sf.query(soql)] *)
  sf_query : Session -> pystr -> exn + QueryResult;
  (** [json.dumps(v, indent=..., ensure_ascii=False)] *)
  json_dumps : option nat -> pyval -> pystr;
  (** [repr(v)] *)
  py_repr : pyval -> pystr;
  (** creating the parent directories and writing the file *)
  fs_write : pystr -> pystr -> exn + unit;
  (** [str(Path(p).absolute())] *)
  absolute : pystr -> pystr;
  (** the text [console.capture()] collects for a table *)
  console_capture : table -> pystr;
  (** [str(e)] of the [TypeError] that [SalesforceError(msg)], a call with
      one argument, raises *)
  salesforce_error_arity : pystr;
  (** [str(e)] of the [AttributeError] that reading the attribute [name]
      off [v] raises *)
  attribute_error : pyval -> pystr -> pystr
}.

End Outside.
Export Outside.

(** ** [class SalesforceClient] *)

Module SalesforceClient.

Record t : Type := {
  username : pystr;
  password : pystr;
  security_token : pystr;
  domain : pystr;
  sf : option Session
}.

(** [__init__] *)
Definition init (username password security_token domain : pystr) : t :=
  {| username := username;
     password := password;
     security_token := security_token;
     domain := domain;
     sf := None |}.

Definition with_sf (self : t) (s : Session) : t :=
  {| username := username self;
     password := password self;
     security_token := security_token self;
     domain := domain self;
     sf := Some s |}.

(** [urllib.parse.quote_plus]: letters, digits and [_.-~] stay, a space
    becomes [+], every other byte of the UTF-8 encoding becomes [%XX]. *)
Definition hex_digit (n : N) : N :=
  if n <? 10 then 48 + n else 55 + n.

Definition quote_byte (b : N) : pystr :=
  if ((48 <=? b) && (b <=? 57)) || ((65 <=? b) && (b <=? 90))
     || ((97 <=? b) && (b <=? 122))
     || (b =? 95) || (b =? 46) || (b =? 45) || (b =? 126)
  then [b]
  else if b =? 32 then [43]
  else [37; hex_digit (b / 16); hex_digit (b mod 16)].

Definition quote_plus (s : pystr) : pystr :=
  concat (map quote_byte (concat (map utf8_encode_char s))).

(** The path and the headers of the Discovery Framework call. *)
Definition api_path (omniscript_id : pystr) : pystr :=
  let custom_type := quote_plus (u "Discovery Framework") in
  u "/services/data/v62.0/connect/omniscript/" ++ omniscript_id
    ++ u "?customType=" ++ custom_type.

Definition full_url (s : Session) (omniscript_id : pystr) : pystr :=
  u "https://" ++ sf_instance s ++ api_path omniscript_id.

Definition workbench_headers (s : Session) : list (pystr * pystr) :=
  [ (u "Authorization", u "Bearer " ++ session_id s);
    (u "Accept", u "application/json");
    (u "User-Agent", u "Mozilla/5.0 (compatible; SalesforceWorkbench)");
    (u "X-Requested-With", u "XMLHttpRequest");
    (u "Content-Type", u "application/json") ].

(** The SOQL text of [list_omniscript_processes], a triple-quoted literal. *)
Definition query : pystr := u "
            SELECT Id, Name, UniqueName, Type, SubType, Language, 
                   VersionNumber, DesignerCustomizationType, IsActive,
                   CreatedDate, LastModifiedDate, CreatedBy.Name, LastModifiedBy.Name
            FROM OmniProcess
            ORDER BY Name, VersionNumber DESC
            ".

Section Methods.

Variable w : World.

(** [connect]: on success the client holds the session. *)
Definition connect (self : t) : M t :=
  try_except
    (if contains (u ".lightning.force.com") (domain self) then
       let instance_url := u "https://" ++ domain self in
       let req := {| lr_username := username self;
                     lr_password := password self;
                     lr_security_token := security_token self;
                     lr_target := InstanceUrl instance_url |} in
       emit (Login req) ;;
       let* s := answer (Salesforce w req) in
       echo (u "✅ Successfully connected to Lightning Experience as " ++ username self) ;;
       echo (u "🌩️ Using Lightning domain: " ++ domain self) ;;
       ret (with_sf self s)
     else
       let req := {| lr_username := username self;
                     lr_password := password self;
                     lr_security_token := security_token self;
                     lr_target := Domain (domain self) |} in
       emit (Login req) ;;
       let* s := answer (Salesforce w req) in
       echo (u "✅ Successfully connected to Salesforce as " ++ username self) ;;
       ret (with_sf self s))
    (fun e =>
       if is_SalesforceAuthenticationFailed e then
         Some (echo_err (u "❌ Authentication failed: " ++ exn_str e) ;; sys_exit 1)
       else if is_Exception e then
         Some (echo_err (u "❌ Connection failed: " ++ exn_str e) ;; sys_exit 1)
       else None).

(** [SalesforceError(msg)]: the constructor of simple-salesforce takes
    [url, status, resource_name, content]; called with the one argument
    [msg] it raises a [TypeError] before any [SalesforceError] exists, and
    [msg] is lost. *)
Definition new_SalesforceError (msg : pystr) : exn + exn :=
  inl (OtherException (salesforce_error_arity w)).

(** [raise SalesforceError(msg)] *)
Definition raise_SalesforceError {A} (msg : pystr) : M A :=
  let* e := answer (new_SalesforceError msg) in raise e.

(** The body of the [try] in [get_omniscript_structure], for a connected
    client. *)
Definition get_omniscript_structure_body (s : Session) (omniscript_id : pystr)
  : M pyval :=
  let hdrs := workbench_headers s in
  echo (u "🔍 Calling Discovery Framework API: " ++ api_path omniscript_id) ;;
  emit (HttpGet (full_url s omniscript_id) hdrs 30) ;;
  let* response := answer (requests_get w (full_url s omniscript_id) hdrs 30) in
  if (status_code response =? 200)%Z then
    answer (json response)
  else
    raise_SalesforceError
      (u "API call failed with status " ++ str_of_Z (status_code response)
         ++ u ": " ++ text response).

(** The two [except] clauses shared by both API methods. *)
Definition api_handlers {A} (e : exn) : option (M A) :=
  if is_SalesforceError e then
    Some (echo_err (u "❌ Salesforce API error: " ++ exn_str e) ;; sys_exit 1)
  else if is_Exception e then
    Some (echo_err (u "❌ Unexpected error: " ++ exn_str e) ;; sys_exit 1)
  else None.

Definition get_omniscript_structure (self : t) (omniscript_id : pystr) : M pyval :=
  match sf self with
  | None => raise (RuntimeError (u "Not connected to Salesforce"))
  | Some s => try_except (get_omniscript_structure_body s omniscript_id) api_handlers
  end.

Definition list_omniscript_processes (self : t) : M (list pydict) :=
  match sf self with
  | None => raise (RuntimeError (u "Not connected to Salesforce"))
  | Some s =>
      try_except
        (emit (Query query) ;;
         let* result := answer (sf_query w s query) in
         ret (records result))
        api_handlers
  end.

End Methods.

End SalesforceClient.

(** ** Module-level functions and click commands *)

Definition nl : pystr := [10].

(** [result.keys()]: only a [dict] has the method. *)
Definition py_keys (v : pyval) : exn + list pystr :=
  match v with
  | PyDict items => inr (map fst items)
  | _ => inl (OtherException
                (u "'" ++ type_name v ++ u "' object has no attribute 'keys'"))
  end.

(** The dictionary [load_credentials] returns. *)
Record Credentials : Type := {
  cred_username : pystr;
  cred_password : pystr;
  cred_security_token : pystr;
  cred_domain : pystr
}.

(** [not value] for what [os.getenv] gave: unset, or set to the empty text. *)
Definition not_set (value : option pystr) : bool :=
  match value with
  | None => true
  | Some s => bool_decide (s = [])
  end.

Definition username_key (instance : pystr) : pystr := instance ++ u "_SF_USERNAME".
Definition password_key (instance : pystr) : pystr := instance ++ u "_SF_PASSWORD".
Definition token_key (instance : pystr) : pystr := instance ++ u "_SF_TOKEN".
Definition domain_key (instance : pystr) : pystr := instance ++ u "_SF_DOMAIN".

(** [--format]: click admits the two choices only. *)
Inductive output_format : Type := FormatTable | FormatJson.

(** The truncations of [display_processes_table]. *)
Definition display_name (name : pystr) : pystr :=
  if (23 <? length name)%nat then slice_to 20 name ++ u "..." else name.

Definition display_unique_name (unique_name : pystr) : pystr :=
  if (28 <? length unique_name)%nat then slice_to 25 unique_name ++ u "..."
  else unique_name.

Definition display_id (id : pystr) : pystr := slice_to 18 id.

(** [[p for p in processes if p.get('IsActive', False)]] *)
Definition active_processes (processes : list pydict) : list pydict :=
  List.filter (fun p => truthy (dict_get p (u "IsActive") (PyBool false))) processes.

(** The URL variants of the [debug] command. *)
Record approach : Type := {
  approach_name : pystr;
  approach_url : pystr
}.

Definition approaches (omniscript_id : pystr) : list approach :=
  [ {| approach_name := u "Original URL with Discovery+Framework";
       approach_url := u "/services/data/v62.0/connect/omniscript/" ++ omniscript_id
                         ++ u "?customType=Discovery+Framework" |};
    {| approach_name := u "URL with Discovery%20Framework (percent encoding)";
       approach_url := u "/services/data/v62.0/connect/omniscript/" ++ omniscript_id
                         ++ u "?customType=Discovery%20Framework" |};
    {| approach_name := u "URL without customType parameter";
       approach_url := u "/services/data/v62.0/connect/omniscript/" ++ omniscript_id |};
    {| approach_name := u "URL with different API version (v59.0)";
       approach_url := u "/services/data/v59.0/connect/omniscript/" ++ omniscript_id
                         ++ u "?customType=Discovery+Framework" |} ].

(** The header variants of [try_raw_requests]. *)
Record variation : Type := {
  variation_name : pystr;
  variation_headers : list (pystr * pystr)
}.

Definition headers_variations (s : Session) : list variation :=
  [ {| variation_name := u "Workbench-like headers";
       variation_headers :=
         [ (u "Authorization", u "Bearer " ++ session_id s);
           (u "Accept", u "application/json");
           (u "User-Agent", u "Mozilla/5.0 (compatible; SalesforceWorkbench)");
           (u "X-Requested-With", u "XMLHttpRequest");
           (u "Content-Type", u "application/json") ] |};
    {| variation_name := u "Standard API headers";
       variation_headers :=
         [ (u "Authorization", u "Bearer " ++ session_id s);
           (u "Accept", u "application/json");
           (u "User-Agent", u "Python/simple-salesforce") ] |};
    {| variation_name := u "Minimal headers";
       variation_headers :=
         [ (u "Authorization", u "Bearer " ++ session_id s);
           (u "Accept", u "application/json") ] |} ].

(** [client.sf.<name>]: reading an attribute of [None] raises. *)
Definition attribute_of (sf : option Session) (name : pystr) : exn + Session :=
  match sf with
  | Some s => inr s
  | None => inl (OtherException
                   (u "'NoneType' object has no attribute '" ++ name ++ u "'"))
  end.

Definition headers_value (hs : list (pystr * pystr)) : pyval :=
  PyDict (map (fun kv => (kv.1, PyStr kv.2)) hs).

Section Commands.

Variable w : World.

(** [os.getenv(key)] *)
Definition getenv (key : pystr) : option pystr := environ w !! key.

Definition missing_creds (instance : pystr) : list pystr :=
  (if not_set (getenv (username_key instance)) then [username_key instance] else [])
  ++ (if not_set (getenv (password_key instance)) then [password_key instance] else [])
  ++ (if not_set (getenv (token_key instance)) then [token_key instance] else []).

Definition load_credentials (instance : pystr) : M Credentials :=
  let username := getenv (username_key instance) in
  let password := getenv (password_key instance) in
  let token := getenv (token_key instance) in
  let domain := default (u "login") (getenv (domain_key instance)) in
  if negb (bool_decide (missing_creds instance = [])) then
    echo_err (u "❌ Missing required environment variables: "
                ++ join (u ", ") (missing_creds instance)) ;;
    echo (nl ++ u "📝 Expected .env format:") ;;
    echo (u "   " ++ username_key instance ++ u "=your_username") ;;
    echo (u "   " ++ password_key instance ++ u "=your_password") ;;
    echo (u "   " ++ token_key instance ++ u "=your_security_token") ;;
    echo (u "   " ++ domain_key instance
            ++ u "=login  # Optional: login, test, or custom domain") ;;
    sys_exit 1
  else
    ret {| cred_username := default [] username;
           cred_password := default [] password;
           cred_security_token := default [] token;
           cred_domain := domain |}.

(** The client built from the credentials dictionary. *)
Definition new_client (c : Credentials) : SalesforceClient.t :=
  SalesforceClient.init (cred_username c) (cred_password c)
    (cred_security_token c) (cred_domain c).

(** The check both [get] and [list] start with. *)
Definition require_env_file : M unit :=
  if negb (env_file_exists w) then
    echo_err (u "❌ .env file not found in " ++ script_dir w) ;;
    echo_err (u "Please create a .env file at " ++ env_file w
                ++ u " with your Salesforce credentials") ;;
    echo_err (u "You can copy " ++ env_example w ++ u " to get started") ;;
    sys_exit 1
  else ret tt.

(** [if output_path: try: ... write ... except Exception: ...], the block
    that ends [get], the JSON branch of [list] and the table display;
    [saved] is the message's wording. *)
Definition save_output (saved : pystr) (output_path : option pystr)
    (content : pystr) : M unit :=
  match output_path with
  | None => ret tt
  | Some path =>
      if bool_decide (path = []) then ret tt
      else
        try_except
          (emit (WriteFile path content) ;;
           answer (fs_write w path content) ;;
           echo (nl ++ saved ++ absolute w path))
          (fun e =>
             if is_Exception e then
               Some (echo_err (nl ++ u "❌ Failed to write output file: " ++ exn_str e) ;;
                     sys_exit 1)
             else None)
  end.

(** The [get] command. *)
Definition get_omniscript_structure (omniscript_id instance : pystr)
    (output_path : option pystr) (pretty : bool) : M unit :=
  require_env_file ;;
  echo (u "🔑 Loading credentials for instance: " ++ instance) ;;
  let* credentials := load_credentials instance in
  let* client := SalesforceClient.connect w (new_client credentials) in
  echo (u "📊 Retrieving OmniScript structure for ID: " ++ omniscript_id) ;;
  let* structure := SalesforceClient.get_omniscript_structure w client omniscript_id in
  let json_output :=
    if pretty then json_dumps w (Some 2%nat) structure
    else json_dumps w None structure in
  echo (nl ++ u "📋 OmniScript Structure:") ;;
  echo (concat (replicate 50 (u "="))) ;;
  echo json_output ;;
  save_output (u "💾 Output saved to: ") output_path json_output ;;
  echo (nl ++ u "✅ Successfully retrieved OmniScript structure for " ++ omniscript_id).

(** One row of the table. *)
Definition process_row (process : pydict) : table_row :=
  let active_status :=
    if truthy (dict_get process (u "IsActive") (PyBool false))
    then u "✅ Yes" else u "❌ No" in
  let field k := py_str (py_repr w) (dict_get process k (PyStr (u "N/A"))) in
  {| row_name := display_name (field (u "Name"));
     row_type := field (u "Type");
     row_subtype := field (u "SubType");
     row_language := field (u "Language");
     row_version := field (u "VersionNumber");
     row_active := active_status;
     row_unique_name := display_unique_name (field (u "UniqueName"));
     row_id := display_id (field (u "Id")) |}.

Definition processes_table (processes : list pydict) : table :=
  {| table_title := u "🔧 OmniScript Processes";
     table_columns :=
       [ (u "Name", 25%nat); (u "Type", 12%nat); (u "SubType", 15%nat);
         (u "Language", 8%nat); (u "Version", 8%nat); (u "Active", 8%nat);
         (u "Unique Name", 30%nat); (u "ID", 18%nat) ];
     table_rows := map process_row processes |}.

Definition display_processes_table (processes : list pydict)
    (output_path : option pystr) : M unit :=
  let t := processes_table processes in
  emit (ConsolePrintText nl) ;;
  emit (ConsolePrintTable t) ;;
  save_output (u "💾 Table output saved to: ") output_path (console_capture w t).

(** The [list] command. *)
Definition list_omniscript_processes (instance : pystr)
    (output_path : option pystr) (active_only : bool) (format : output_format)
  : M unit :=
  require_env_file ;;
  echo (u "🔑 Loading credentials for instance: " ++ instance) ;;
  let* credentials := load_credentials instance in
  let* client := SalesforceClient.connect w (new_client credentials) in
  echo (u "📊 Retrieving OmniScript processes...") ;;
  let* processes := SalesforceClient.list_omniscript_processes w client in
  let* processes :=
    if active_only then
      echo (u "🔍 Filtered to "
              ++ str_of_Z (Z.of_nat (length (active_processes processes)))
              ++ u " active processes") ;;
      ret (active_processes processes)
    else ret processes in
  if bool_decide (processes = []) then
    echo (u "📋 No OmniScript processes found.")
  else
    match format with
    | FormatJson =>
        let json_output := json_dumps w (Some 2%nat) (PyList (map PyDict processes)) in
        echo (nl ++ u "📋 OmniScript Processes (JSON):") ;;
        echo (concat (replicate 50 (u "="))) ;;
        echo json_output ;;
        save_output (u "💾 Output saved to: ") output_path json_output
    | FormatTable => display_processes_table processes output_path
    end ;;
    echo (nl ++ u "✅ Successfully retrieved "
            ++ str_of_Z (Z.of_nat (length processes)) ++ u " OmniScript processes").

End Commands.

(** ** The [debug] command *)

Section Debug.

Variable w : World.

(** [response.<name>] for what [sf.restful] returned: the parsed JSON (a
    [dict], a [list], [None]) has none of the attributes of a
    [requests.Response] the loop reads, so the read raises an
    [AttributeError]. *)
Definition response_attribute (response : pyval) (name : pystr) : exn + pyval :=
  inl (OtherException (attribute_error w response name)).

(** One turn of the loop of [debug_api_call]; [true] when the function
    returns from inside the loop. *)
Definition try_approach (sf : option Session) (i : Z) (a : approach) : M bool :=
  echo (nl ++ u "🧪 Approach " ++ str_of_Z i ++ u ": " ++ approach_name a) ;;
  echo (u "   URL: " ++ approach_url a) ;;
  try_except
    (let* s := answer (attribute_of sf (u "restful")) in
     emit (Restful (approach_url a) (u "GET")) ;;
     let* response := answer (sf_restful w s (approach_url a) (u "GET")) in
     let* status := answer (response_attribute response (u "status_code")) in
     if py_eq status (PyInt 200) then
       echo (u "   ✅ SUCCESS! Status: " ++ py_str (py_repr w) status) ;;
       let* result := answer (response_attribute response (u "json")) in
       let* keys := answer (py_keys result) in
       echo (u "   📄 Response keys: " ++ py_repr w (PyList (map PyStr keys))) ;;
       ret true
     else
       echo (u "   ❌ Failed with status: " ++ py_str (py_repr w) status) ;;
       let* body := answer (response_attribute response (u "text")) in
       echo (u "   📄 Response: " ++ slice_to 200 (py_str (py_repr w) body) ++ u "...") ;;
       ret false)
    (fun e =>
       if is_Exception e then
         Some (echo (u "   💥 Exception: " ++ slice_to 200 (exn_str e) ++ u "...") ;;
               ret false)
       else None).

(** [for i, approach in enumerate(approaches, 1)] *)
Fixpoint try_approaches (sf : option Session) (i : Z) (l : list approach) : M bool :=
  match l with
  | [] => ret false
  | a :: rest =>
      let* returned := try_approach sf i a in
      if returned then ret true else try_approaches sf (i + 1)%Z rest
  end.

(** One turn of the loop of [try_raw_requests]. *)
Definition try_variation (url : pystr) (i : Z) (v : variation) : M bool :=
  echo (nl ++ u "🔬 Raw Request " ++ str_of_Z i ++ u ": " ++ variation_name v) ;;
  echo (u "   URL: " ++ url) ;;
  echo (u "   Headers: " ++ py_repr w (headers_value (variation_headers v))) ;;
  try_except
    (emit (HttpGet url (variation_headers v) 30) ;;
     let* response := answer (requests_get w url (variation_headers v) 30) in
     echo (u "   📡 Status: " ++ str_of_Z (status_code response)) ;;
     echo (u "   📋 Response Headers: " ++ py_repr w (headers_value (headers response))) ;;
     if (status_code response =? 200)%Z then
       echo (u "   ✅ SUCCESS with raw request!") ;;
       let* result := answer (json response) in
       let* keys := answer (py_keys result) in
       echo (u "   📄 Response keys: " ++ py_repr w (PyList (map PyStr keys))) ;;
       echo (u "   📊 First few lines of response:") ;;
       echo (u "   " ++ slice_to 300 (py_str (py_repr w) result) ++ u "...") ;;
       ret true
     else
       echo (u "   ❌ Failed: " ++ slice_to 100 (text response) ++ u "...") ;;
       ret false)
    (fun e =>
       if is_Exception e then
         Some (echo (u "   💥 Exception: " ++ slice_to 100 (exn_str e) ++ u "...") ;;
               ret false)
       else None).

Fixpoint try_variations (url : pystr) (i : Z) (l : list variation) : M bool :=
  match l with
  | [] => ret false
  | v :: rest =>
      let* returned := try_variation url i v in
      if returned then ret true else try_variations url (i + 1)%Z rest
  end.

Definition try_raw_requests (client : SalesforceClient.t) (omniscript_id : pystr)
  : M unit :=
  let* s := answer (attribute_of (SalesforceClient.sf client) (u "sf_instance")) in
  let base_url := u "https://" ++ sf_instance s in
  let api_url := u "/services/data/v62.0/connect/omniscript/" ++ omniscript_id
                   ++ u "?customType=Discovery+Framework" in
  let full_url := base_url ++ api_url in
  let* returned := try_variations full_url 1 (headers_variations s) in
  if returned then ret tt
  else echo (nl ++ u "🚨 All raw request approaches also failed.").

Definition debug_api_call (omniscript_id instance : pystr) (raw_request : bool)
  : M unit :=
  (if negb (env_file_exists w) then
     echo_err (u "❌ .env file not found at " ++ env_file w) ;; sys_exit 1
   else ret tt) ;;
  echo (u "🔑 Loading credentials for instance: " ++ instance) ;;
  let* credentials := load_credentials w instance in
  let* client := SalesforceClient.connect w (new_client credentials) in
  echo (nl ++ u "🔍 Testing Discovery Framework API for ID: " ++ omniscript_id) ;;
  let* returned :=
    try_approaches (SalesforceClient.sf client) 1 (approaches omniscript_id) in
  if returned then ret tt
  else
    echo (nl ++ u "🚨 All approaches failed. The Discovery Framework API may not be available in this org.") ;;
    (if raw_request then
       echo (nl ++ u "🧪 Trying raw HTTP requests...") ;;
       try_raw_requests client omniscript_id
     else ret tt) ;;
    echo (u "💡 Try checking:") ;;
    echo (u "   - OmniStudio permissions and licenses") ;;
    echo (u "   - API access permissions") ;;
    echo (u "   - Whether the Discovery Framework feature is enabled").

End Debug.

(** ** Vocabulary of the properties *)

(** [p.get('IsActive', False)] *)
Definition IsActive (p : pydict) : pyval := dict_get p (u "IsActive") (PyBool false).

(** A record whose [IsActive] is absent or a JSON boolean, as a checkbox
    field comes back from a query. *)
Definition boolean_IsActive (p : pydict) : Prop :=
  match dict_lookup (u "IsActive") p with
  | None | Some (PyBool _) => True
  | Some _ => False
  end.

Definition is_echo (ev : event) : bool :=
  match ev with
  | Echo _ _ => true
  | _ => false
  end.

(** The request [connect] logs in with. *)
Definition connect_request (self : SalesforceClient.t) : login_request :=
  {| lr_username := SalesforceClient.username self;
     lr_password := SalesforceClient.password self;
     lr_security_token := SalesforceClient.security_token self;
     lr_target :=
       if contains (u ".lightning.force.com") (SalesforceClient.domain self)
       then InstanceUrl (u "https://" ++ SalesforceClient.domain self)
       else Domain (SalesforceClient.domain self) |}.

(** The answers of the server to one header variant of [try_raw_requests]:
    the variant stops the loop when the answer is a 200 whose body is a JSON
    object; it lets the loop go on when the call raises or the status is not
    200. *)
Definition variation_stops (w : World) (url : pystr) (v : variation) : Prop :=
  exists r items,
    requests_get w url (variation_headers v) 30 = inr r
    /\ status_code r = 200%Z
    /\ json r = inr (PyDict items).

Definition variation_passes (w : World) (url : pystr) (v : variation) : Prop :=
  (exists e, requests_get w url (variation_headers v) 30 = inl e
             /\ is_Exception e = true)
  \/ (exists r, requests_get w url (variation_headers v) 30 = inr r
                /\ status_code r <> 200%Z).

(** The shape both loops of the [debug] command share: the turns are taken
    in order, numbered from [i], until one returns from the function. *)
Fixpoint first_success {X} (turn : Z -> X -> M bool) (i : Z) (l : list X) : M bool :=
  match l with
  | [] => ret false
  | x :: rest =>
      let* returned := turn i x in
      if returned then ret true else first_success turn (i + 1)%Z rest
  end.

(** A turn that makes the one call [call x] and lets the loop go on, and a
    turn that makes it and returns. *)
Definition passes {X} (turn : Z -> X -> M bool) (call : X -> event) (x : X) : Prop :=
  forall i, outcome (turn i x) = inr false
            /\ List.filter is_network (trace (turn i x)) = [call x].

Definition stops {X} (turn : Z -> X -> M bool) (call : X -> event) (x : X) : Prop :=
  forall i, outcome (turn i x) = inr true
            /\ List.filter is_network (trace (turn i x)) = [call x].

Definition is_write (ev : event) : bool :=
  match ev with
  | WriteFile _ _ => true
  | _ => false
  end.

(** The dictionary [load_credentials] returns when nothing is missing. *)
Definition loaded_credentials (w : World) (instance : pystr) : Credentials :=
  {| cred_username := default [] (getenv w (username_key instance));
     cred_password := default [] (getenv w (password_key instance));
     cred_security_token := default [] (getenv w (token_key instance));
     cred_domain := default (u "login") (getenv w (domain_key instance)) |}.

(** What [connect] reports for the exception [e] of the login. *)
Definition connect_message (e : exn) : pystr :=
  if is_SalesforceAuthenticationFailed e
  then u "❌ Authentication failed: " ++ exn_str e
  else u "❌ Connection failed: " ++ exn_str e.

(** A command that ends as an error of the specification ends: [message] is
    reported on stderr, the process exits with status 1, [net] is every call
    that reached the network before the report, and after the report
    nothing happens but further output. *)
Definition terminal {A} (m : M A) (message : pystr) (net : list event) : Prop :=
  outcome m = inl (SystemExit 1)
  /\ exists before after,
       trace m = before ++ Echo true message :: after
       /\ List.filter is_network before = net
       /\ List.forallb is_echo after = true.

(** [m] causes no event of the kind [kind]. *)
Definition silent_on {A} (kind : event -> bool) (m : M A) : Prop :=
  List.filter kind (trace m) = [].

Definition is_table (ev : event) : bool :=
  match ev with
  | ConsolePrintTable _ => true
  | _ => false
  end.

Definition is_stderr (ev : event) : bool :=
  match ev with
  | Echo true _ => true
  | _ => false
  end.

(** The records the [list] command goes on with after its filter. *)
Definition shown_processes (active_only : bool) (rows : list pydict) : list pydict :=
  if active_only then active_processes rows else rows.

(** The one URL [try_raw_requests] asks for. *)
Definition raw_url (s : Session) (omniscript_id : pystr) : pystr :=
  (u "https://" ++ sf_instance s)
    ++ (u "/services/data/v62.0/connect/omniscript/" ++ omniscript_id
          ++ u "?customType=Discovery+Framework").

(** Every exception the server side of [w] answers an attempt of the
    [debug] command with, and every exception of [response.json()] on the
    answers of [requests.get], is an [Exception] (none is a [SystemExit]). *)
Definition exceptions_only (w : World) : Prop :=
  (forall s path method e, sf_restful w s path method = inl e -> is_Exception e = true)
  /\ (forall url hs timeout e,
        requests_get w url hs timeout = inl e -> is_Exception e = true)
  /\ (forall url hs timeout r e,
        requests_get w url hs timeout = inr r -> json r = inl e -> is_Exception e = true).

(** What a successful [connect] prints after the login. *)
Definition connect_greeting (self : SalesforceClient.t) : list event :=
  if contains (u ".lightning.force.com") (SalesforceClient.domain self) then
    [ Echo false (u "✅ Successfully connected to Lightning Experience as "
                    ++ SalesforceClient.username self);
      Echo false (u "🌩️ Using Lightning domain: " ++ SalesforceClient.domain self) ]
  else
    [ Echo false (u "✅ Successfully connected to Salesforce as "
                    ++ SalesforceClient.username self) ].

(** The last part of the [list] command, from the test for an empty list
    on, for the records [shown] it goes on with. *)
Definition list_output (w : World) (output_path : option pystr)
    (format : output_format) (shown : list pydict) : M unit :=
  if bool_decide (shown = []) then
    echo (u "📋 No OmniScript processes found.")
  else
    match format with
    | FormatJson =>
        let json_output := json_dumps w (Some 2%nat) (PyList (map PyDict shown)) in
        echo (nl ++ u "📋 OmniScript Processes (JSON):") ;;
        echo (concat (replicate 50 (u "="))) ;;
        echo json_output ;;
        save_output w (u "💾 Output saved to: ") output_path json_output
    | FormatTable => display_processes_table w shown output_path
    end ;;
    echo (nl ++ u "✅ Successfully retrieved "
            ++ str_of_Z (Z.of_nat (length shown)) ++ u " OmniScript processes").

(** What the [list] command has done when the query has answered. *)
Definition list_preamble (w : World) (instance : pystr) (active_only : bool)
    (rows : list pydict) : list event :=
  let self := new_client (loaded_credentials w instance) in
  [ Echo false (u "🔑 Loading credentials for instance: " ++ instance);
    Login (connect_request self) ]
  ++ connect_greeting self
  ++ [ Echo false (u "📊 Retrieving OmniScript processes...");
       Query SalesforceClient.query ]
  ++ (if active_only then
        [ Echo false (u "🔍 Filtered to "
                        ++ str_of_Z (Z.of_nat (length (active_processes rows)))
                        ++ u " active processes") ]
      else []).

(** The write [save_output] attempts for an output path: none without a
    path or with an empty one. *)
Definition written (output_path : option pystr) (content : pystr) : list event :=
  match output_path with
  | None => []
  | Some path => if bool_decide (path = []) then [] else [WriteFile path content]
  end.

(** The write asked for by [output_path], if any, went through. *)
Definition saved_ok (w : World) (output_path : option pystr) (content : pystr) : Prop :=
  match output_path with
  | None => True
  | Some path => path = [] \/ fs_write w path content = inr tt
  end.

(** The text the [list] command hands to [save_output] for the records
    [shown]. *)
Definition list_content (w : World) (format : output_format) (shown : list pydict)
  : pystr :=
  match format with
  | FormatJson => json_dumps w (Some 2%nat) (PyList (map PyDict shown))
  | FormatTable => console_capture w (processes_table w shown)
  end.

(** [w] after [os.environ[key] = value]. *)
Definition setenv (w : World) (key value : pystr) : World :=
  {| script_dir := script_dir w;
     env_file := env_file w;
     env_example := env_example w;
     env_file_exists := env_file_exists w;
     environ := <[key := value]> (environ w);
     Salesforce := Salesforce w;
     requests_get := requests_get w;
     sf_restful := sf_restful w;
     sf_query := sf_query w;
     json_dumps := json_dumps w;
     py_repr := py_repr w;
     fs_write := fs_write w;
     absolute := absolute w;
     console_capture := console_capture w;
     salesforce_error_arity := salesforce_error_arity w;
     attribute_error := attribute_error w |}.

(** The four variables of an instance. *)
Definition instance_keys (instance : pystr) : list pystr :=
  [ username_key instance; password_key instance;
    token_key instance; domain_key instance ].

(** ** Scenarios

    Concrete surroundings on which the commands are run below. *)

Module Scenario.

Definition session : Session :=
  {| sf_instance := u "acme.my.salesforce.com"; session_id := u "00Dxx!AQ" |}.

Definition environ_complete : gmap pystr pystr :=
  list_to_map
    [ (u "DEFAULT_SF_USERNAME", u "user@example.com");
      (u "DEFAULT_SF_PASSWORD", u "password123");
      (u "DEFAULT_SF_TOKEN", u "tok") ].

(** The password is set but empty, the token is not set at all. *)
Definition environ_incomplete : gmap pystr pystr :=
  list_to_map
    [ (u "DEFAULT_SF_USERNAME", u "user@example.com");
      (u "DEFAULT_SF_PASSWORD", []);
      (u "DEFAULT_SF_DOMAIN", u "test") ].

Definition not_found : Response :=
  {| status_code := 404;
     text := u "[{'errorCode': 'NOT_FOUND'}]";
     json := inr (PyList [PyDict [(u "errorCode", PyStr (u "NOT_FOUND"))]]);
     headers := [] |}.

Definition structure : pyval :=
  PyDict [(u "name", PyStr (u "Intake")); (u "steps", PyList [PyInt 1; PyInt 2])].

Definition ok_structure : Response :=
  {| status_code := 200;
     text := u "{...}";
     json := inr structure;
     headers := [(u "Content-Type", u "application/json")] |}.

(** Status 200 with a body that is no JSON: [response.json()] raises. *)
Definition ok_html : Response :=
  {| status_code := 200;
     text := u "<html>";
     json := inl (OtherException (u "Expecting value: line 1 column 1 (char 0)"));
     headers := [] |}.

(** Status 200 with a JSON array for a body. *)
Definition ok_array : Response :=
  {| status_code := 200;
     text := u "[]";
     json := inr (PyList []);
     headers := [] |}.

Definition process (name : string) (active : pyval) : pydict :=
  [ (u "Id", PyStr (u "0jNxx0000000001EAA"));
    (u "Name", PyStr (u name));
    (u "IsActive", active) ].

(** [len(v) == 0] for a parsed JSON body. *)
Definition empty_body (v : pyval) : bool :=
  match v with
  | PyList [] | PyDict [] | PyStr [] => true
  | _ => false
  end.

(** What [sf.restful] makes of the answer [resp] of the server: an
    exception of the library for a status of 300 or more, the parsed body
    otherwise, [None] when that is empty. *)
Definition restful_of (resp : exn + Response) : exn + pyval :=
  match resp with
  | inl e => inl e
  | inr r =>
      if (300 <=? status_code r)%Z then inl (SalesforceError (text r))
      else
        match json r with
        | inl e => inl e
        | inr v => inr (if empty_body v then PyNone else v)
        end
  end.

(** A world that answers every login with [login], every GET with [resp],
    every [restful] call with what the library makes of [resp], and every
    query with [rows]. *)
Definition world (env : gmap pystr pystr) (login : exn + Session)
    (resp : exn + Response) (rows : exn + list pydict) : World :=
  {| script_dir := u "/opt/scripts/python";
     env_file := u "/opt/scripts/python/.env";
     env_example := u "/opt/scripts/python/env.example";
     env_file_exists := true;
     environ := env;
     Salesforce := fun _ => login;
     requests_get := fun _ _ _ => resp;
     sf_restful := fun _ _ _ => restful_of resp;
     sf_query := fun _ _ =>
       match rows with
       | inl e => inl e
       | inr rs => inr {| totalSize := Z.of_nat (length rs); done := true; records := rs |}
       end;
     json_dumps := fun _ _ => u "<json>";
     py_repr := fun _ => u "<repr>";
     fs_write := fun _ _ => inr tt;
     absolute := fun p => u "/cwd/" ++ p;
     console_capture := fun _ => u "<table>";
     salesforce_error_arity :=
       u "SalesforceError.__init__() missing 3 required positional arguments: 'status', 'resource_name', and 'content'";
     attribute_error := fun v name =>
       u "'" ++ type_name v ++ u "' object has no attribute '" ++ name ++ u "'" |}.

(** [w] with a server that answers the [restful] call for [path] with
    [answers path]. *)
Definition with_restful (w : World) (answers : pystr -> exn + Response) : World :=
  {| script_dir := script_dir w;
     env_file := env_file w;
     env_example := env_example w;
     env_file_exists := env_file_exists w;
     environ := environ w;
     Salesforce := Salesforce w;
     requests_get := requests_get w;
     sf_restful := fun _ path _ => restful_of (answers path);
     sf_query := sf_query w;
     json_dumps := json_dumps w;
     py_repr := py_repr w;
     fs_write := fs_write w;
     absolute := absolute w;
     console_capture := console_capture w;
     salesforce_error_arity := salesforce_error_arity w;
     attribute_error := attribute_error w |}.

(** A server that knows the percent-encoded variant of the URL only. *)
Definition percent_only : World :=
  with_restful
    (world environ_complete (inr session) (inr not_found) (inr []))
    (fun path =>
       if contains (u "%20") path then inr ok_structure else inr not_found).

(** [w] seen from a directory that holds no [.env] file. *)
Definition without_env_file (w : World) : World :=
  {| script_dir := script_dir w;
     env_file := env_file w;
     env_example := env_example w;
     env_file_exists := false;
     environ := environ w;
     Salesforce := Salesforce w;
     requests_get := requests_get w;
     sf_restful := sf_restful w;
     sf_query := sf_query w;
     json_dumps := json_dumps w;
     py_repr := py_repr w;
     fs_write := fs_write w;
     absolute := absolute w;
     console_capture := console_capture w;
     salesforce_error_arity := salesforce_error_arity w;
     attribute_error := attribute_error w |}.

(** [w] on a disk that refuses every write with [error]. *)
Definition with_failing_disk (w : World) (error : exn) : World :=
  {| script_dir := script_dir w;
     env_file := env_file w;
     env_example := env_example w;
     env_file_exists := env_file_exists w;
     environ := environ w;
     Salesforce := Salesforce w;
     requests_get := requests_get w;
     sf_restful := sf_restful w;
     sf_query := sf_query w;
     json_dumps := json_dumps w;
     py_repr := py_repr w;
     fs_write := fun _ _ => inl error;
     absolute := absolute w;
     console_capture := console_capture w;
     salesforce_error_arity := salesforce_error_arity w;
     attribute_error := attribute_error w |}.

(** One and a half, and a runtime that knows the texts of two floats:
    ["1.5"] for one and a half, ["0.0"] for every other one. *)
Definition one_and_a_half : spec_float := S754_finite false 6755399441055744 (-52).

Definition text_of_float (x : spec_float) : pystr :=
  if SFeqb x one_and_a_half then [49; 46; 53] else [48; 46; 48].

Definition float_of_text (t : pystr) : spec_float :=
  if bool_decide (t = [49; 46; 53]) then one_and_a_half else S754_zero false.

(** A structure with every kind of value but a NaN. *)
Definition weighted : pyval :=
  PyDict [ (u "name", PyStr (u "Intake \ step"));
           (u "steps", PyList [PyInt 1; PyInt (-20); PyNone; PyBool true]);
           (u "weight", PyFloat one_and_a_half);
           (u "limit", PyFloat (S754_infinity false));
           (u "children", PyList [PyDict []; PyList []]) ].

Definition lightning_client : SalesforceClient.t :=
  SalesforceClient.init (u "user@example.com") (u "password123") (u "tok")
    (u "acme.lightning.force.com").

Definition client : SalesforceClient.t :=
  SalesforceClient.with_sf
    (SalesforceClient.init (u "user@example.com") (u "password123") (u "tok") (u "login"))
    session.

End Scenario.

(** * Properties *)

(** ** Reading of literals *)

Example u_ascii : u "N/A" = [78; 47; 65].
Proof. vm_compute. reflexivity. Qed.

Example u_cross_mark : u "❌" = [10060].
Proof. vm_compute. reflexivity. Qed.

Example u_magnifier : u "🔍" = [128269].
Proof. vm_compute. reflexivity. Qed.

Example str_of_Z_404 : str_of_Z 404 = u "404".
Proof. vm_compute. reflexivity. Qed.

Example str_of_Z_neg : str_of_Z (-7) = u "-7".
Proof. vm_compute. reflexivity. Qed.

Example join_two : join (u ", ") [u "A"; u "B"] = u "A, B".
Proof. vm_compute. reflexivity. Qed.

Example custom_type_quoted :
  SalesforceClient.quote_plus (u "Discovery Framework") = u "Discovery+Framework".
Proof. vm_compute. reflexivity. Qed.

Example getenv_complete :
  getenv (Scenario.world Scenario.environ_complete (inr Scenario.session)
            (inr Scenario.ok_structure) (inr []))
    (u "DEFAULT_SF_TOKEN") = Some (u "tok").
Proof. vm_compute. reflexivity. Qed.

(** ** The API methods *)

Section MethodFacts.

Variable w : World.

Import SalesforceClient.

(** The request of [get_omniscript_structure] and what its [try] body ends
    with, whatever the server answers. *)
Lemma get_omniscript_structure_body_run (s : Session) (id : pystr) :
  get_omniscript_structure_body w s id =
    ( [ Echo false (u "🔍 Calling Discovery Framework API: " ++ api_path id);
        HttpGet (full_url s id) (workbench_headers s) 30 ],
      match requests_get w (full_url s id) (workbench_headers s) 30 with
      | inl e => inl e
      | inr r =>
          if (status_code r =? 200)%Z then json r
          else inl (OtherException (salesforce_error_arity w))
      end ).
Proof.
  unfold get_omniscript_structure_body, raise_SalesforceError, new_SalesforceError,
    bind, echo, emit, answer, raise; cbv zeta.
  destruct (requests_get w (full_url s id) (workbench_headers s) 30) as [e | r];
    [reflexivity |].
  destruct (status_code r =? 200)%Z; cbn; [| reflexivity].
  destruct (json r); reflexivity.
Qed.

Lemma get_omniscript_structure_connected (self : t) (s : Session) (id : pystr) :
  sf self = Some s ->
  get_omniscript_structure w self id =
    try_except (get_omniscript_structure_body w s id) api_handlers.
Proof. intros Hsf. unfold get_omniscript_structure. now rewrite Hsf. Qed.

Lemma custom_type_literal :
  u "?customType=" ++ quote_plus (u "Discovery Framework")
  = u "?customType=Discovery+Framework".
Proof. vm_compute. reflexivity. Qed.

Lemma api_path_literal (id : pystr) :
  api_path id
  = u "/services/data/v62.0/connect/omniscript/" ++ id
      ++ u "?customType=Discovery+Framework".
Proof. unfold api_path. cbv zeta. now rewrite custom_type_literal. Qed.

(** Whatever the server answers, the method reaches the network once, with
    the GET built from the session and the id. *)
Lemma get_omniscript_structure_network (self : t) (s : Session) (id : pystr) :
  sf self = Some s ->
  List.filter is_network (trace (get_omniscript_structure w self id))
  = [HttpGet (full_url s id) (workbench_headers s) 30].
Proof.
  intros Hsf. rewrite (get_omniscript_structure_connected _ _ _ Hsf).
  rewrite get_omniscript_structure_body_run.
  destruct (requests_get w (full_url s id) (workbench_headers s) 30) as [e | r].
  - destruct e; reflexivity.
  - destruct (status_code r =? 200)%Z; [| reflexivity].
    destruct (json r) as [e | v]; [destruct e |]; reflexivity.
Qed.

(** The query method for a connected client. *)
Lemma list_omniscript_processes_run (self : t) (s : Session) :
  sf self = Some s ->
  list_omniscript_processes w self =
    match sf_query w s query with
    | inr result => ([Query query], inr (records result))
    | inl e =>
        if is_SalesforceError e then
          ([Query query; Echo true (u "❌ Salesforce API error: " ++ exn_str e)],
           inl (SystemExit 1))
        else if is_Exception e then
          ([Query query; Echo true (u "❌ Unexpected error: " ++ exn_str e)],
           inl (SystemExit 1))
        else ([Query query], inl e)
    end.
Proof.
  intros Hsf. unfold list_omniscript_processes. rewrite Hsf.
  unfold bind, emit, answer. destruct (sf_query w s query) as [e | result].
  - destruct e; reflexivity.
  - reflexivity.
Qed.

End MethodFacts.

(** C10: on a client whose session is absent, [get_omniscript_structure] and
    [list_omniscript_processes] both raise [RuntimeError("Not connected to
    Salesforce")] at once: the trace is empty, so no request was issued, and
    the error is raised outside the [try], so no handler turns it into an
    exit. *)
Theorem not_connected_raises_RuntimeError
    (w : World) (self : SalesforceClient.t) (id : pystr) :
  SalesforceClient.sf self = None ->
  SalesforceClient.get_omniscript_structure w self id
    = ([], inl (RuntimeError (u "Not connected to Salesforce")))
  /\ SalesforceClient.list_omniscript_processes w self
    = ([], inl (RuntimeError (u "Not connected to Salesforce"))).
Proof.
  intros Hsf.
  unfold SalesforceClient.get_omniscript_structure,
    SalesforceClient.list_omniscript_processes.
  rewrite Hsf. split; reflexivity.
Qed.

(** A client fresh from [__init__], on which [connect] never ran, against a
    server that would answer 200. *)
Lemma not_connected_raises_RuntimeError_witness :
  let w := Scenario.world Scenario.environ_complete (inr Scenario.session)
             (inr Scenario.ok_structure) (inr []) in
  let self := SalesforceClient.init (u "user@example.com") (u "pw") (u "tok") (u "login") in
  SalesforceClient.sf self = None
  /\ SalesforceClient.get_omniscript_structure w self (u "a0X1234567890abcde")
       = ([], inl (RuntimeError (u "Not connected to Salesforce")))
  /\ SalesforceClient.list_omniscript_processes w self
       = ([], inl (RuntimeError (u "Not connected to Salesforce"))).
Proof.
  split; [reflexivity |].
  apply (not_connected_raises_RuntimeError
           (Scenario.world Scenario.environ_complete (inr Scenario.session)
              (inr Scenario.ok_structure) (inr []))
           (SalesforceClient.init (u "user@example.com") (u "pw") (u "tok") (u "login"))
           (u "a0X1234567890abcde")).
  reflexivity.
Defined.

(** C1, as read from the specification: every response with status 200 makes
    [get_omniscript_structure] return a value.  It fails on a 200 response
    whose body is no JSON: [response.json()] raises, the generic handler
    reports "Unexpected error" and the command exits with status 1. *)
Lemma fetch_structure_200_without_json :
  ~ (forall (w : World) (self : SalesforceClient.t) (s : Session) (id : pystr)
            (r : Response),
        SalesforceClient.sf self = Some s ->
        requests_get w (SalesforceClient.full_url s id)
          (SalesforceClient.workbench_headers s) 30 = inr r ->
        status_code r = 200%Z ->
        exists v, outcome (SalesforceClient.get_omniscript_structure w self id) = inr v).
Proof.
  intros claim.
  destruct (claim
              (Scenario.world Scenario.environ_complete (inr Scenario.session)
                 (inr Scenario.ok_html) (inr []))
              Scenario.client Scenario.session (u "a0X1234567890abcde")
              Scenario.ok_html eq_refl eq_refl eq_refl) as [v Hv].
  vm_compute in Hv. discriminate Hv.
Qed.

(** C1 (amended): for a connected client and every response to the Discovery
    Framework GET, [get_omniscript_structure] returns a value exactly when the
    status is 200 and the body parses, and the value is the parsed body.  On
    any other status nothing is returned: after the one request the method
    reports on stderr and exits with status 1.  A 200 response whose body
    does not parse ends in exit status 1 as well. *)
Theorem fetch_structure_by_status
    (w : World) (self : SalesforceClient.t) (s : Session) (id : pystr) (r : Response) :
  SalesforceClient.sf self = Some s ->
  requests_get w (SalesforceClient.full_url s id)
    (SalesforceClient.workbench_headers s) 30 = inr r ->
  (forall v,
      outcome (SalesforceClient.get_omniscript_structure w self id) = inr v
      <-> status_code r = 200%Z /\ json r = inr v)
  /\ (status_code r <> 200%Z ->
      outcome (SalesforceClient.get_omniscript_structure w self id)
        = inl (SystemExit 1)
      /\ exists report,
           trace (SalesforceClient.get_omniscript_structure w self id)
           = [ Echo false (u "🔍 Calling Discovery Framework API: "
                             ++ SalesforceClient.api_path id);
               HttpGet (SalesforceClient.full_url s id)
                 (SalesforceClient.workbench_headers s) 30;
               Echo true report ])
  /\ (status_code r = 200%Z ->
      forall e, json r = inl e -> is_Exception e = true ->
      outcome (SalesforceClient.get_omniscript_structure w self id)
        = inl (SystemExit 1)).
Proof.
  intros Hsf Hget.
  rewrite (get_omniscript_structure_connected w _ _ _ Hsf).
  rewrite get_omniscript_structure_body_run, Hget.
  destruct (Z.eqb_spec (status_code r) 200) as [H200 | Hnot].
  - split; [| split].
    + intros v. destruct (json r) as [e | v'] eqn:Hjson.
      * split; [| intros [_ Habs]; discriminate Habs].
        destruct e; cbn; intros Habs; discriminate Habs.
      * cbn. split; [intros Hv; split; [assumption | exact Hv] | intros [_ Hv]; exact Hv].
    + intros Hne. contradiction.
    + intros _ e Hjson Hexc. rewrite Hjson.
      destruct e; try discriminate Hexc; reflexivity.
  - split; [| split].
    + intros v. cbn. split; [intros Habs; discriminate Habs | intros [Habs _]; contradiction].
    + intros _. split; [reflexivity |]. eexists. reflexivity.
    + intros Habs. contradiction.
Qed.

(** A 200 answer with the structure for a body gives the structure back; a
    404 answer gives nothing back and ends in exit status 1. *)
Lemma fetch_structure_by_status_witness :
  outcome (SalesforceClient.get_omniscript_structure
             (Scenario.world Scenario.environ_complete (inr Scenario.session)
                (inr Scenario.ok_structure) (inr []))
             Scenario.client (u "a0X1234567890abcde"))
  = inr Scenario.structure
  /\ outcome (SalesforceClient.get_omniscript_structure
                (Scenario.world Scenario.environ_complete (inr Scenario.session)
                   (inr Scenario.not_found) (inr []))
                Scenario.client (u "a0X1234567890abcde"))
     = inl (SystemExit 1).
Proof.
  split.
  - apply (fetch_structure_by_status
             (Scenario.world Scenario.environ_complete (inr Scenario.session)
                (inr Scenario.ok_structure) (inr []))
             Scenario.client Scenario.session (u "a0X1234567890abcde")
             Scenario.ok_structure eq_refl eq_refl).
    split; reflexivity.
  - apply (fetch_structure_by_status
             (Scenario.world Scenario.environ_complete (inr Scenario.session)
                (inr Scenario.not_found) (inr []))
             Scenario.client Scenario.session (u "a0X1234567890abcde")
             Scenario.not_found eq_refl eq_refl).
    discriminate.
Defined.

(** C6, as read from the specification: the headers of the request are the
    bearer token, the JSON accept header, the user-agent and the XHR marker
    and nothing else.  It fails: the request also carries
    [Content-Type: application/json]. *)
Lemma fetch_structure_sends_content_type :
  ~ (forall (w : World) (self : SalesforceClient.t) (s : Session) (id url : pystr)
            (hs : list (pystr * pystr)) (timeout : Z),
        SalesforceClient.sf self = Some s ->
        In (HttpGet url hs timeout)
           (trace (SalesforceClient.get_omniscript_structure w self id)) ->
        Forall (fun h => In h.1 [ u "Authorization"; u "Accept"; u "User-Agent";
                                  u "X-Requested-With" ]) hs).
Proof.
  intros claim.
  pose (ws := Scenario.world Scenario.environ_complete (inr Scenario.session)
                (inr Scenario.ok_structure) (inr [])).
  assert (Hin : In (HttpGet (SalesforceClient.full_url Scenario.session (u "a0X"))
                      (SalesforceClient.workbench_headers Scenario.session) 30)
                   (trace (SalesforceClient.get_omniscript_structure ws
                             Scenario.client (u "a0X")))).
  { right. left. reflexivity. }
  specialize (claim ws Scenario.client Scenario.session (u "a0X") _ _ _ eq_refl Hin).
  rewrite List.Forall_forall in claim.
  specialize (claim (u "Content-Type", u "application/json")).
  assert (Hhdr : In (u "Content-Type", u "application/json")
                    (SalesforceClient.workbench_headers Scenario.session)).
  { unfold SalesforceClient.workbench_headers. cbn. tauto. }
  specialize (claim Hhdr). vm_compute in claim.
  repeat (destruct claim as [claim | claim]; [discriminate claim |]).
  exact claim.
Qed.

(** C6 (amended): for every id, a connected client reaches the network once,
    with a GET (timeout 30) to
    [https://<instance>/services/data/v62.0/connect/omniscript/<id>?customType=Discovery+Framework],
    the id put in as it is, carrying five fixed headers: the bearer token, the
    JSON accept header, the Workbench user-agent, the XHR marker and a JSON
    content type. *)
Theorem fetch_structure_request
    (w : World) (self : SalesforceClient.t) (s : Session) (id : pystr) :
  SalesforceClient.sf self = Some s ->
  List.filter is_network (trace (SalesforceClient.get_omniscript_structure w self id))
  = [ HttpGet
        (u "https://" ++ sf_instance s
           ++ u "/services/data/v62.0/connect/omniscript/" ++ id
           ++ u "?customType=Discovery+Framework")
        [ (u "Authorization", u "Bearer " ++ session_id s);
          (u "Accept", u "application/json");
          (u "User-Agent", u "Mozilla/5.0 (compatible; SalesforceWorkbench)");
          (u "X-Requested-With", u "XMLHttpRequest");
          (u "Content-Type", u "application/json") ]
        30 ].
Proof.
  intros Hsf. rewrite (get_omniscript_structure_network w _ _ _ Hsf).
  unfold SalesforceClient.full_url. now rewrite api_path_literal.
Qed.

Lemma fetch_structure_request_witness :
  List.filter is_network
    (trace (SalesforceClient.get_omniscript_structure
              (Scenario.world Scenario.environ_complete (inr Scenario.session)
                 (inr Scenario.ok_structure) (inr []))
              Scenario.client (u "a0X1234567890abcde")))
  = [ HttpGet
        (u "https://acme.my.salesforce.com/services/data/v62.0/connect/omniscript/a0X1234567890abcde?customType=Discovery+Framework")
        [ (u "Authorization", u "Bearer 00Dxx!AQ");
          (u "Accept", u "application/json");
          (u "User-Agent", u "Mozilla/5.0 (compatible; SalesforceWorkbench)");
          (u "X-Requested-With", u "XMLHttpRequest");
          (u "Content-Type", u "application/json") ]
        30 ].
Proof.
  rewrite (fetch_structure_request
             (Scenario.world Scenario.environ_complete (inr Scenario.session)
                (inr Scenario.ok_structure) (inr []))
             Scenario.client Scenario.session (u "a0X1234567890abcde") eq_refl).
  vm_compute. reflexivity.
Defined.

(** C2: for a connected client [list_omniscript_processes] reaches the
    network once, with the one SOQL text of the source, which ends in the
    clause [ORDER BY Name, VersionNumber DESC] (Name in SOQL's default,
    ascending direction, then VersionNumber descending); when the server
    answers, the method returns the answer's records as they are: the same
    list, nothing dropped, nothing moved. *)
Theorem list_processes_returns_server_records
    (w : World) (self : SalesforceClient.t) (s : Session) :
  SalesforceClient.sf self = Some s ->
  List.filter is_network (trace (SalesforceClient.list_omniscript_processes w self))
    = [Query SalesforceClient.query]
  /\ (forall result,
        sf_query w s SalesforceClient.query = inr result ->
        SalesforceClient.list_omniscript_processes w self
          = ([Query SalesforceClient.query], inr (records result)))
  /\ exists select_from,
       SalesforceClient.query
         = select_from ++ u "ORDER BY Name, VersionNumber DESC"
             ++ nl ++ replicate 12 32%N
       /\ contains (u "ORDER BY") select_from = false.
Proof.
  intros Hsf. rewrite (list_omniscript_processes_run w _ _ Hsf).
  split; [| split].
  - destruct (sf_query w s SalesforceClient.query) as [e | result];
      [destruct e |]; reflexivity.
  - intros result Hq. now rewrite Hq.
  - exists (take 266 SalesforceClient.query). split; vm_compute; reflexivity.
Qed.

Lemma list_processes_returns_server_records_witness :
  let rows := [ Scenario.process "Intake" (PyBool true);
                Scenario.process "Intake" (PyBool false);
                Scenario.process "Renewal" (PyBool true) ] in
  SalesforceClient.list_omniscript_processes
    (Scenario.world Scenario.environ_complete (inr Scenario.session)
       (inr Scenario.ok_structure) (inr rows))
    Scenario.client
  = ([Query SalesforceClient.query], inr rows).
Proof.
  cbv zeta.
  pose proof (list_processes_returns_server_records
                (Scenario.world Scenario.environ_complete (inr Scenario.session)
                   (inr Scenario.ok_structure)
                   (inr [ Scenario.process "Intake" (PyBool true);
                          Scenario.process "Intake" (PyBool false);
                          Scenario.process "Renewal" (PyBool true) ]))
                Scenario.client Scenario.session eq_refl) as [_ [Hret _]].
  apply (Hret _ eq_refl).
Defined.

(** ** The active-only filter *)

Lemma active_processes_sublist (processes : list pydict) :
  sublist (active_processes processes) processes.
Proof.
  induction processes as [| p rest IH]; [constructor |].
  unfold active_processes in *. cbn.
  destruct (truthy (dict_get p (u "IsActive") (PyBool false)));
    [apply sublist_skip | apply sublist_cons]; exact IH.
Qed.

Lemma active_processes_In (processes : list pydict) (p : pydict) :
  In p (active_processes processes) <-> In p processes /\ truthy (IsActive p) = true.
Proof. unfold active_processes. apply filter_In. Qed.

(** Every order-preserving selection of truthy records is already inside
    the filter's result. *)
Lemma active_processes_greatest (processes kept : list pydict) :
  sublist kept processes ->
  List.Forall (fun p => truthy (IsActive p) = true) kept ->
  sublist kept (active_processes processes).
Proof.
  intros Hsub. induction Hsub as [| p kept rest _ IH | p kept rest _ IH]; intros Hall.
  - constructor.
  - inversion Hall as [| ? ? Hp Hrest]; subst.
    unfold active_processes. cbn. fold (IsActive p). rewrite Hp.
    apply sublist_skip. apply IH. exact Hrest.
  - unfold active_processes. cbn.
    destruct (truthy (dict_get p (u "IsActive") (PyBool false)));
      [apply sublist_cons |]; apply IH; exact Hall.
Qed.

Lemma boolean_IsActive_truthy (p : pydict) :
  boolean_IsActive p -> truthy (IsActive p) = eq_True (IsActive p).
Proof.
  unfold boolean_IsActive, IsActive, dict_get.
  destruct (dict_lookup (u "IsActive") p) as [[] |]; cbn; intros H;
    first [reflexivity | contradiction].
Qed.

Lemma boolean_IsActive_true (p : pydict) :
  boolean_IsActive p -> truthy (IsActive p) = true <-> IsActive p = PyBool true.
Proof.
  unfold boolean_IsActive, IsActive, dict_get.
  destruct (dict_lookup (u "IsActive") p) as [v |];
    [destruct v as [| [] | | | | |] |]; cbn; intros H;
    try contradiction; split; intros Heq; first [reflexivity | discriminate Heq].
Qed.

(** Whatever the records hold, the filter keeps the records whose
    [IsActive] is true in Python's sense (present and neither [False],
    [None], zero nor empty), in their order. *)
Lemma active_processes_truthy (processes : list pydict) :
  sublist (active_processes processes) processes
  /\ (forall p, In p (active_processes processes)
                <-> In p processes /\ truthy (IsActive p) = true)
  /\ (forall kept,
        sublist kept processes ->
        List.Forall (fun p => truthy (IsActive p) = true) kept ->
        sublist kept (active_processes processes)).
Proof.
  split; [apply active_processes_sublist |].
  split; [apply active_processes_In | apply active_processes_greatest].
Qed.

(** C3: on the records of a query, whose [IsActive] is a boolean (read as
    [False] when the record has none), the active-only filter yields exactly
    the subsequence of the records with [IsActive == true], in their original
    order: the result is the input filtered on [IsActive == True]; it is a
    subsequence of the input; it holds a record exactly when the input holds
    it with [IsActive] true; and every subsequence of records with
    [IsActive] true is inside it. *)
Theorem active_only_keeps_active (processes : list pydict) :
  List.Forall boolean_IsActive processes ->
  active_processes processes = List.filter (fun p => eq_True (IsActive p)) processes
  /\ sublist (active_processes processes) processes
  /\ (forall p, In p (active_processes processes)
                <-> In p processes /\ IsActive p = PyBool true)
  /\ (forall kept,
        sublist kept processes ->
        List.Forall (fun p => IsActive p = PyBool true) kept ->
        sublist kept (active_processes processes)).
Proof.
  intros Hbool. split; [| split; [| split]].
  - unfold active_processes.
    induction Hbool as [| p rest Hp _ IH]; [reflexivity |].
    cbn. fold (IsActive p). rewrite (boolean_IsActive_truthy p Hp), IH. reflexivity.
  - apply active_processes_sublist.
  - intros p. rewrite active_processes_In. split.
    + intros [Hin Htrue]. split; [exact Hin |].
      apply boolean_IsActive_true; [| exact Htrue].
      rewrite List.Forall_forall in Hbool. apply Hbool, Hin.
    + intros [Hin Htrue]. split; [exact Hin |]. now rewrite Htrue.
  - intros kept Hsub Hall. apply active_processes_greatest; [exact Hsub |].
    eapply List.Forall_impl; [| exact Hall].
    intros p Htrue. cbv beta in Htrue. now rewrite Htrue.
Qed.

(** Four records of one query: two active, one inactive, one without the
    field. *)
Lemma active_only_keeps_active_witness :
  let processes :=
    [ Scenario.process "Intake" (PyBool true);
      Scenario.process "Intake" (PyBool false);
      Scenario.process "Renewal" (PyBool true);
      [(u "Name", PyStr (u "Draft"))] ] in
  List.Forall boolean_IsActive processes
  /\ active_processes processes
     = List.filter (fun p => eq_True (IsActive p)) processes.
Proof.
  cbv zeta.
  assert (Hbool : List.Forall boolean_IsActive
                    [ Scenario.process "Intake" (PyBool true);
                      Scenario.process "Intake" (PyBool false);
                      Scenario.process "Renewal" (PyBool true);
                      [(u "Name", PyStr (u "Draft"))] ]).
  { repeat constructor; vm_compute; exact I. }
  split; [exact Hbool |].
  apply (active_only_keeps_active _ Hbool).
Defined.

Example active_only_example :
  active_processes
    [ Scenario.process "Intake" (PyBool true);
      Scenario.process "Intake" (PyBool false);
      Scenario.process "Renewal" (PyBool true);
      [(u "Name", PyStr (u "Draft"))] ]
  = [ Scenario.process "Intake" (PyBool true);
      Scenario.process "Renewal" (PyBool true) ].
Proof. vm_compute. reflexivity. Qed.

(** ** The table's truncations *)

Lemma length_dots : length (u "...") = 3%nat.
Proof. vm_compute. reflexivity. Qed.

Lemma display_name_long (name : pystr) :
  (23 < length name)%nat ->
  display_name name = take 20 name ++ u "..." /\ length (display_name name) = 23%nat.
Proof.
  intros Hlong. unfold display_name, slice_to.
  destruct (Nat.ltb_spec 23 (length name)) as [_ | Hle]; [| lia].
  split; [reflexivity |].
  rewrite length_app, length_take. rewrite length_dots. lia.
Qed.

Lemma display_name_short (name : pystr) :
  (length name <= 23)%nat -> display_name name = name.
Proof.
  intros Hshort. unfold display_name.
  destruct (Nat.ltb_spec 23 (length name)) as [Hlt | _]; [lia | reflexivity].
Qed.

Lemma display_unique_name_long (unique_name : pystr) :
  (28 < length unique_name)%nat ->
  display_unique_name unique_name = take 25 unique_name ++ u "..."
  /\ length (display_unique_name unique_name) = 28%nat.
Proof.
  intros Hlong. unfold display_unique_name, slice_to.
  destruct (Nat.ltb_spec 28 (length unique_name)) as [_ | Hle]; [| lia].
  split; [reflexivity |].
  rewrite length_app, length_take. rewrite length_dots. lia.
Qed.

Lemma display_unique_name_short (unique_name : pystr) :
  (length unique_name <= 28)%nat -> display_unique_name unique_name = unique_name.
Proof.
  intros Hshort. unfold display_unique_name.
  destruct (Nat.ltb_spec 28 (length unique_name)) as [Hlt | _]; [lia | reflexivity].
Qed.

(** What a cell may be: a prefix of the original, possibly followed by
    three dots. *)
Lemma display_name_shape (name : pystr) :
  exists shown, shown `prefix_of` name
    /\ (display_name name = shown \/ display_name name = shown ++ u "...").
Proof.
  unfold display_name, slice_to. destruct (23 <? length name)%nat.
  - exists (take 20 name). split; [apply prefix_take | right; reflexivity].
  - exists name. split; [reflexivity | left; reflexivity].
Qed.

Lemma display_unique_name_shape (unique_name : pystr) :
  exists shown, shown `prefix_of` unique_name
    /\ (display_unique_name unique_name = shown
        \/ display_unique_name unique_name = shown ++ u "...").
Proof.
  unfold display_unique_name, slice_to. destruct (28 <? length unique_name)%nat.
  - exists (take 25 unique_name). split; [apply prefix_take | right; reflexivity].
  - exists unique_name. split; [reflexivity | left; reflexivity].
Qed.

(** C9: in a row of the table the Name cell is the record's name cut to its
    first 20 characters plus "..." (23 characters in all) when the name is
    longer than 23 characters and the name itself otherwise; the Unique Name
    cell is cut to 25 characters plus "..." (28 in all) past 28 characters and
    left alone otherwise; the ID cell is always the first 18 characters.  Each
    of the three cells is a prefix of the original, possibly followed by
    "...". *)
Theorem table_cells_truncated (w : World) (process : pydict) :
  let field k := py_str (py_repr w) (dict_get process k (PyStr (u "N/A"))) in
  let row := process_row w process in
  let name := field (u "Name") in
  let unique_name := field (u "UniqueName") in
  let id := field (u "Id") in
  row_name row = (if (23 <? length name)%nat then take 20 name ++ u "..." else name)
  /\ ((23 < length name)%nat -> length (row_name row) = 23%nat)
  /\ row_unique_name row
     = (if (28 <? length unique_name)%nat then take 25 unique_name ++ u "..."
        else unique_name)
  /\ ((28 < length unique_name)%nat -> length (row_unique_name row) = 28%nat)
  /\ row_id row = take 18 id
  /\ (exists shown, shown `prefix_of` name
        /\ (row_name row = shown \/ row_name row = shown ++ u "..."))
  /\ (exists shown, shown `prefix_of` unique_name
        /\ (row_unique_name row = shown \/ row_unique_name row = shown ++ u "..."))
  /\ row_id row `prefix_of` id.
Proof.
  cbv zeta. cbn [process_row row_name row_unique_name row_id].
  repeat split.
  - intros Hlong. apply display_name_long. exact Hlong.
  - intros Hlong. apply display_unique_name_long. exact Hlong.
  - apply display_name_shape.
  - apply display_unique_name_shape.
  - apply prefix_take.
Qed.

Example display_name_24 :
  display_name (u "Customer Onboarding Form") = u "Customer Onboarding ...".
Proof. vm_compute. reflexivity. Qed.

Example display_name_23 :
  display_name (u "Customer Onboarding For") = u "Customer Onboarding For".
Proof. vm_compute. reflexivity. Qed.

Example display_id_18 :
  display_id (u "0jNxx0000000001EAAXYZ") = u "0jNxx0000000001EAA".
Proof. vm_compute. reflexivity. Qed.

(** ** Credentials *)

Lemma startswith_app (p s : pystr) : startswith p (p ++ s) = true.
Proof.
  induction p as [| a p IH]; [reflexivity |].
  cbn. now rewrite N.eqb_refl, IH.
Qed.

Lemma contains_here (needle rest : pystr) : contains needle (needle ++ rest) = true.
Proof.
  destruct needle as [| a needle]; [destruct rest; reflexivity |].
  cbn [app contains]. change (a :: needle ++ rest) with ((a :: needle) ++ rest).
  now rewrite startswith_app.
Qed.

Lemma contains_later (needle before hay : pystr) :
  contains needle hay = true -> contains needle (before ++ hay) = true.
Proof.
  intros Hin. induction before as [| b before IH]; [exact Hin |].
  cbn [app contains]. rewrite IH. apply orb_true_r.
Qed.

Lemma join_names (sep : pystr) (parts : list pystr) (p : pystr) :
  In p parts -> exists before after, join sep parts = before ++ p ++ after.
Proof.
  induction parts as [| q rest IH]; [intros [] |].
  intros [-> | Hin].
  - destruct rest as [| r rest'].
    + exists [], []. cbn. now rewrite app_nil_r.
    + exists [], (sep ++ join sep (r :: rest')). reflexivity.
  - destruct rest as [| r rest']; [destruct Hin |].
    destruct (IH Hin) as (before & after & Hjoin).
    exists (q ++ sep ++ before), after.
    change (join sep (q :: r :: rest')) with (q ++ sep ++ join sep (r :: rest')).
    rewrite Hjoin. now rewrite <- !app_assoc.
Qed.

Lemma In_if_singleton (b : bool) (k key : pystr) :
  In key (if b then [k] else []) <-> k = key /\ b = true.
Proof. destruct b; cbn; intuition congruence. Qed.

Lemma missing_creds_In (w : World) (instance key : pystr) :
  In key (missing_creds w instance)
  <-> In key [username_key instance; password_key instance; token_key instance]
      /\ not_set (getenv w key) = true.
Proof.
  unfold missing_creds. rewrite !in_app_iff, !In_if_singleton. cbn [In]. split.
  - intros [[<- H] | [[<- H] | [<- H]]]; auto.
  - intros [[<- | [<- | [<- | []]]] H]; auto.
Qed.

Lemma load_credentials_missing (w : World) (instance : pystr) :
  missing_creds w instance <> [] ->
  load_credentials w instance =
    ( [ Echo true (u "❌ Missing required environment variables: "
                     ++ join (u ", ") (missing_creds w instance));
        Echo false (nl ++ u "📝 Expected .env format:");
        Echo false (u "   " ++ username_key instance ++ u "=your_username");
        Echo false (u "   " ++ password_key instance ++ u "=your_password");
        Echo false (u "   " ++ token_key instance ++ u "=your_security_token");
        Echo false (u "   " ++ domain_key instance
                      ++ u "=login  # Optional: login, test, or custom domain") ],
      inl (SystemExit 1) ).
Proof.
  intros Hmissing. unfold load_credentials. cbv zeta.
  rewrite bool_decide_eq_false_2 by exact Hmissing. reflexivity.
Qed.

Lemma load_credentials_complete (w : World) (instance : pystr) :
  missing_creds w instance = [] ->
  load_credentials w instance = ([], inr (loaded_credentials w instance)).
Proof.
  intros Hnone. unfold load_credentials. cbv zeta.
  rewrite bool_decide_eq_true_2 by exact Hnone. reflexivity.
Qed.

Lemma not_set_Some (value : pystr) : value <> [] -> not_set (Some value) = false.
Proof. intros Hne. cbn. now apply bool_decide_eq_false_2. Qed.

Lemma missing_creds_none (w : World) (instance username password token : pystr) :
  getenv w (username_key instance) = Some username -> username <> [] ->
  getenv w (password_key instance) = Some password -> password <> [] ->
  getenv w (token_key instance) = Some token -> token <> [] ->
  missing_creds w instance = [].
Proof.
  intros Hu Hu' Hp Hp' Ht Ht'. unfold missing_creds.
  rewrite Hu, Hp, Ht, !not_set_Some by assumption. reflexivity.
Qed.

(** With a credential missing, each command stops before the network. *)
Lemma get_stops_without_credentials
    (w : World) (id instance : pystr) (output_path : option pystr) (pretty : bool) :
  missing_creds w instance <> [] ->
  outcome (get_omniscript_structure w id instance output_path pretty)
    = inl (SystemExit 1)
  /\ List.filter is_network
       (trace (get_omniscript_structure w id instance output_path pretty)) = [].
Proof.
  intros Hmissing. unfold get_omniscript_structure, require_env_file.
  rewrite (load_credentials_missing w instance Hmissing).
  destruct (env_file_exists w); split; reflexivity.
Qed.

Lemma list_stops_without_credentials
    (w : World) (instance : pystr) (output_path : option pystr) (active_only : bool)
    (format : output_format) :
  missing_creds w instance <> [] ->
  outcome (list_omniscript_processes w instance output_path active_only format)
    = inl (SystemExit 1)
  /\ List.filter is_network
       (trace (list_omniscript_processes w instance output_path active_only format)) = [].
Proof.
  intros Hmissing. unfold list_omniscript_processes, require_env_file.
  rewrite (load_credentials_missing w instance Hmissing).
  destruct (env_file_exists w); split; reflexivity.
Qed.

Lemma debug_stops_without_credentials
    (w : World) (id instance : pystr) (raw_request : bool) :
  missing_creds w instance <> [] ->
  outcome (debug_api_call w id instance raw_request) = inl (SystemExit 1)
  /\ List.filter is_network (trace (debug_api_call w id instance raw_request)) = [].
Proof.
  intros Hmissing. unfold debug_api_call.
  rewrite (load_credentials_missing w instance Hmissing).
  destruct (env_file_exists w); split; reflexivity.
Qed.

(** C4: [load_credentials] counts a required variable as missing when it is
    unset or empty ([not value]).  The list of missing keys holds exactly the
    keys of the username, password and token that are missing; when it is not
    empty the first thing reported, on stderr, is a message that names every
    one of them, the process exits with status 1, and none of the three
    commands has reached the network.  When all three are set, loading
    succeeds without any output and gives the three values together with the
    domain, which is the value of the domain variable or ['login'] when that
    variable is unset. *)
Theorem load_credentials_requires_three_fields (w : World) (instance : pystr) :
  let missing := missing_creds w instance in
  let message :=
    u "❌ Missing required environment variables: " ++ join (u ", ") missing in
  (forall key,
      In key missing
      <-> In key [username_key instance; password_key instance; token_key instance]
          /\ not_set (getenv w key) = true)
  /\ (missing <> [] ->
      outcome (load_credentials w instance) = inl (SystemExit 1)
      /\ (exists hints,
            trace (load_credentials w instance) = Echo true message :: hints
            /\ List.forallb is_echo hints = true)
      /\ (forall key, In key missing -> contains key message = true)
      /\ (forall id output_path pretty,
            outcome (get_omniscript_structure w id instance output_path pretty)
              = inl (SystemExit 1)
            /\ List.filter is_network
                 (trace (get_omniscript_structure w id instance output_path pretty))
               = [])
      /\ (forall output_path active_only format,
            outcome (list_omniscript_processes w instance output_path active_only format)
              = inl (SystemExit 1)
            /\ List.filter is_network
                 (trace (list_omniscript_processes w instance output_path
                           active_only format))
               = [])
      /\ (forall id raw_request,
            outcome (debug_api_call w id instance raw_request) = inl (SystemExit 1)
            /\ List.filter is_network (trace (debug_api_call w id instance raw_request))
               = []))
  /\ (forall username password token,
        getenv w (username_key instance) = Some username -> username <> [] ->
        getenv w (password_key instance) = Some password -> password <> [] ->
        getenv w (token_key instance) = Some token -> token <> [] ->
        load_credentials w instance =
          ( [],
            inr {| cred_username := username;
                   cred_password := password;
                   cred_security_token := token;
                   cred_domain :=
                     default (u "login") (getenv w (domain_key instance)) |} )).
Proof.
  cbv zeta. split; [| split].
  - intros key. apply missing_creds_In.
  - intros Hmissing. rewrite (load_credentials_missing w instance Hmissing).
    split; [reflexivity |].
    split; [eexists; split; reflexivity |].
    split.
    { intros key Hin.
      destruct (join_names (u ", ") _ _ Hin) as (before & after & ->).
      apply contains_later, contains_later, contains_here. }
    split; [| split]; intros.
    + now apply get_stops_without_credentials.
    + now apply list_stops_without_credentials.
    + now apply debug_stops_without_credentials.
  - intros username password token Hu Hu' Hp Hp' Ht Ht'.
    rewrite load_credentials_complete
      by (eapply missing_creds_none; eassumption).
    unfold loaded_credentials. now rewrite Hu, Hp, Ht.
Qed.

(** The password is empty and the token unset: both keys are reported and
    [get] ends before the network. *)
Lemma load_credentials_requires_three_fields_witness :
  let w := Scenario.world Scenario.environ_incomplete (inr Scenario.session)
             (inr Scenario.ok_structure) (inr []) in
  missing_creds w (u "DEFAULT") <> []
  /\ contains (u "DEFAULT_SF_PASSWORD")
       (u "❌ Missing required environment variables: "
          ++ join (u ", ") (missing_creds w (u "DEFAULT"))) = true
  /\ contains (u "DEFAULT_SF_TOKEN")
       (u "❌ Missing required environment variables: "
          ++ join (u ", ") (missing_creds w (u "DEFAULT"))) = true
  /\ outcome (get_omniscript_structure w (u "a0X") (u "DEFAULT") None true)
     = inl (SystemExit 1)
  /\ List.filter is_network
       (trace (get_omniscript_structure w (u "a0X") (u "DEFAULT") None true)) = [].
Proof.
  cbv zeta.
  assert (Hmissing : missing_creds
                       (Scenario.world Scenario.environ_incomplete
                          (inr Scenario.session) (inr Scenario.ok_structure) (inr []))
                       (u "DEFAULT") <> [])
    by (vm_compute; discriminate).
  pose proof (load_credentials_requires_three_fields
                (Scenario.world Scenario.environ_incomplete (inr Scenario.session)
                   (inr Scenario.ok_structure) (inr []))
                (u "DEFAULT")) as [_ [Hfail _]].
  destruct (Hfail Hmissing) as (_ & _ & Hnamed & Hget & _).
  split; [exact Hmissing |].
  split; [apply Hnamed; vm_compute; tauto |].
  split; [apply Hnamed; vm_compute; tauto |].
  apply Hget.
Defined.

Example load_credentials_incomplete :
  let w := Scenario.world Scenario.environ_incomplete (inr Scenario.session)
             (inr Scenario.ok_structure) (inr []) in
  missing_creds w (u "DEFAULT") = [u "DEFAULT_SF_PASSWORD"; u "DEFAULT_SF_TOKEN"]
  /\ trace (get_omniscript_structure w (u "a0X") (u "DEFAULT") None true)
     = [ Echo false (u "🔑 Loading credentials for instance: DEFAULT");
         Echo true (u "❌ Missing required environment variables: DEFAULT_SF_PASSWORD, DEFAULT_SF_TOKEN");
         Echo false (nl ++ u "📝 Expected .env format:");
         Echo false (u "   DEFAULT_SF_USERNAME=your_username");
         Echo false (u "   DEFAULT_SF_PASSWORD=your_password");
         Echo false (u "   DEFAULT_SF_TOKEN=your_security_token");
         Echo false (u "   DEFAULT_SF_DOMAIN=login  # Optional: login, test, or custom domain") ].
Proof. vm_compute. split; reflexivity. Qed.

Example load_credentials_default_domain :
  load_credentials
    (Scenario.world Scenario.environ_complete (inr Scenario.session)
       (inr Scenario.ok_structure) (inr []))
    (u "DEFAULT")
  = ( [],
      inr {| cred_username := u "user@example.com";
             cred_password := u "password123";
             cred_security_token := u "tok";
             cred_domain := u "login" |} ).
Proof. vm_compute. reflexivity. Qed.

(** ** Errors end the command *)

Lemma connect_failure (w : World) (self : SalesforceClient.t) (e : exn) :
  Salesforce w (connect_request self) = inl e ->
  SalesforceClient.connect w self =
    if is_SalesforceAuthenticationFailed e then
      ( [ Login (connect_request self);
          Echo true (u "❌ Authentication failed: " ++ exn_str e) ],
        inl (SystemExit 1) )
    else if is_Exception e then
      ( [ Login (connect_request self);
          Echo true (u "❌ Connection failed: " ++ exn_str e) ],
        inl (SystemExit 1) )
    else ([Login (connect_request self)], inl e).
Proof.
  unfold SalesforceClient.connect, connect_request. intros Hlogin.
  destruct (contains (u ".lightning.force.com") (SalesforceClient.domain self));
    cbv zeta; unfold bind, emit, answer; rewrite Hlogin; destruct e; reflexivity.
Qed.

Lemma connect_success (w : World) (self : SalesforceClient.t) (s : Session) :
  Salesforce w (connect_request self) = inr s ->
  exists greeting,
    SalesforceClient.connect w self
      = (Login (connect_request self) :: greeting, inr (SalesforceClient.with_sf self s))
    /\ List.forallb is_echo greeting = true.
Proof.
  unfold SalesforceClient.connect, connect_request. intros Hlogin.
  destruct (contains (u ".lightning.force.com") (SalesforceClient.domain self));
    cbv zeta; unfold bind, emit, answer; rewrite Hlogin;
    eexists; split; reflexivity.
Qed.

Lemma terminal_intro {A} (before after : list event) (message : pystr) :
  List.forallb is_echo after = true ->
  terminal (A := A) (before ++ Echo true message :: after, inl (SystemExit 1))
    message (List.filter is_network before).
Proof.
  intros Hafter. split; [reflexivity |].
  exists before, after. repeat split; assumption.
Qed.

(** A step that succeeds in front of a terminal rest adds its network calls
    in front. *)
Lemma terminal_after {A B} (t : list event) (a : A) (k : A -> M B)
    (message : pystr) (net : list event) :
  terminal (k a) message net ->
  terminal (bind (t, inr a) k) message (List.filter is_network t ++ net).
Proof.
  intros (Hout & before & after & Htrace & Hnet & Hafter).
  unfold bind. destruct (k a) as [t' r]. cbn in Hout, Htrace. subst t' r.
  split; [reflexivity |].
  exists (t ++ before), after. cbn. rewrite <- app_assoc, List.filter_app, Hnet.
  repeat split. exact Hafter.
Qed.

(** A step that is terminal stays so whatever would have followed. *)
Lemma terminal_first {A B} (m : M A) (k : A -> M B)
    (message : pystr) (net : list event) :
  terminal m message net -> terminal (bind m k) message net.
Proof.
  intros (Hout & before & after & Htrace & Hnet & Hafter).
  destruct m as [t r]. cbn in Hout, Htrace. subst t r.
  split; [reflexivity |].
  exists before, after. repeat split; assumption.
Qed.

Lemma terminal_after_net {A B} (t : list event) (a : A) (k : A -> M B)
    (message : pystr) (net net' : list event) :
  terminal (k a) message net ->
  net' = List.filter is_network t ++ net ->
  terminal (bind (t, inr a) k) message net'.
Proof. intros Hk ->. now apply terminal_after. Qed.

Lemma echo_is_no_network (l : list event) :
  List.forallb is_echo l = true -> List.filter is_network l = [].
Proof.
  induction l as [| ev l IH]; [reflexivity |].
  cbn. destruct ev; cbn; try discriminate; exact IH.
Qed.

Lemma get_omniscript_structure_not_200
    (w : World) (self : SalesforceClient.t) (s : Session) (id : pystr) (r : Response) :
  SalesforceClient.sf self = Some s ->
  requests_get w (SalesforceClient.full_url s id)
    (SalesforceClient.workbench_headers s) 30 = inr r ->
  status_code r <> 200%Z ->
  SalesforceClient.get_omniscript_structure w self id
  = ( [ Echo false (u "🔍 Calling Discovery Framework API: "
                      ++ SalesforceClient.api_path id);
        HttpGet (SalesforceClient.full_url s id)
          (SalesforceClient.workbench_headers s) 30 ]
      ++ [ Echo true (u "❌ Unexpected error: " ++ salesforce_error_arity w) ],
      inl (SystemExit 1) ).
Proof.
  intros Hsf Hget Hnot.
  rewrite (get_omniscript_structure_connected w _ _ _ Hsf).
  rewrite get_omniscript_structure_body_run, Hget.
  destruct (Z.eqb_spec (status_code r) 200) as [H200 | _]; [contradiction |].
  reflexivity.
Qed.

Lemma connect_message_refused (reason : pystr) :
  connect_message (SalesforceAuthenticationFailed reason)
  = u "❌ Authentication failed: " ++ reason.
Proof. unfold connect_message. cbn [is_SalesforceAuthenticationFailed exn_str]. reflexivity. Qed.

Lemma connect_message_other (e : exn) :
  is_SalesforceAuthenticationFailed e = false ->
  connect_message e = u "❌ Connection failed: " ++ exn_str e.
Proof. intros Hauth. unfold connect_message. now rewrite Hauth. Qed.

(** The three commands up to and including [client.connect()]. *)
Section ConnectFails.

Variable w : World.
Variables id instance : pystr.
Variable creds : Credentials.
Variable e : exn.

Hypothesis env_found : env_file_exists w = true.
Hypothesis loaded : load_credentials w instance = ([], inr creds).
Hypothesis refused : Salesforce w (connect_request (new_client creds)) = inl e.
Hypothesis caught : is_Exception e = true.

Lemma connect_terminal :
  terminal (SalesforceClient.connect w (new_client creds)) (connect_message e)
    [Login (connect_request (new_client creds))].
Proof.
  rewrite (connect_failure w _ _ refused). unfold connect_message.
  destruct (is_SalesforceAuthenticationFailed e).
  - apply (terminal_intro [Login _] []). reflexivity.
  - rewrite caught. apply (terminal_intro [Login _] []). reflexivity.
Qed.

Lemma get_connect_terminal (output_path : option pystr) (pretty : bool) :
  terminal (get_omniscript_structure w id instance output_path pretty)
    (connect_message e) [Login (connect_request (new_client creds))].
Proof.
  unfold get_omniscript_structure, require_env_file. rewrite env_found, loaded.
  cbn [negb]. unfold ret, echo, emit.
  eapply terminal_after_net; [| reflexivity].
  eapply terminal_after_net; [| reflexivity].
  eapply terminal_after_net; [| reflexivity].
  apply terminal_first, connect_terminal.
Qed.

Lemma list_connect_terminal (output_path : option pystr) (active_only : bool)
    (format : output_format) :
  terminal (list_omniscript_processes w instance output_path active_only format)
    (connect_message e) [Login (connect_request (new_client creds))].
Proof.
  unfold list_omniscript_processes, require_env_file. rewrite env_found, loaded.
  cbn [negb]. unfold ret, echo, emit.
  eapply terminal_after_net; [| reflexivity].
  eapply terminal_after_net; [| reflexivity].
  eapply terminal_after_net; [| reflexivity].
  apply terminal_first, connect_terminal.
Qed.

Lemma debug_connect_terminal (raw_request : bool) :
  terminal (debug_api_call w id instance raw_request)
    (connect_message e) [Login (connect_request (new_client creds))].
Proof.
  unfold debug_api_call. rewrite env_found, loaded.
  cbn [negb]. unfold ret, echo, emit.
  eapply terminal_after_net; [| reflexivity].
  eapply terminal_after_net; [| reflexivity].
  eapply terminal_after_net; [| reflexivity].
  apply terminal_first, connect_terminal.
Qed.

End ConnectFails.

Lemma env_file_missing_terminal_get
    (w : World) (id instance : pystr) (output_path : option pystr) (pretty : bool) :
  env_file_exists w = false ->
  terminal (get_omniscript_structure w id instance output_path pretty)
    (u "❌ .env file not found in " ++ script_dir w) [].
Proof.
  intros Henv. unfold get_omniscript_structure, require_env_file. rewrite Henv.
  apply (terminal_intro [] [_; _]). reflexivity.
Qed.

Lemma env_file_missing_terminal_list
    (w : World) (instance : pystr) (output_path : option pystr) (active_only : bool)
    (format : output_format) :
  env_file_exists w = false ->
  terminal (list_omniscript_processes w instance output_path active_only format)
    (u "❌ .env file not found in " ++ script_dir w) [].
Proof.
  intros Henv. unfold list_omniscript_processes, require_env_file. rewrite Henv.
  apply (terminal_intro [] [_; _]). reflexivity.
Qed.

Lemma missing_credentials_terminal_get
    (w : World) (id instance : pystr) (output_path : option pystr) (pretty : bool) :
  env_file_exists w = true ->
  missing_creds w instance <> [] ->
  terminal (get_omniscript_structure w id instance output_path pretty)
    (u "❌ Missing required environment variables: "
       ++ join (u ", ") (missing_creds w instance)) [].
Proof.
  intros Henv Hmissing. unfold get_omniscript_structure, require_env_file.
  rewrite Henv, (load_credentials_missing w instance Hmissing).
  split; [reflexivity |].
  exists [Echo false (u "🔑 Loading credentials for instance: " ++ instance)].
  eexists. repeat split; reflexivity.
Qed.

Lemma missing_credentials_terminal_list
    (w : World) (instance : pystr) (output_path : option pystr) (active_only : bool)
    (format : output_format) :
  env_file_exists w = true ->
  missing_creds w instance <> [] ->
  terminal (list_omniscript_processes w instance output_path active_only format)
    (u "❌ Missing required environment variables: "
       ++ join (u ", ") (missing_creds w instance)) [].
Proof.
  intros Henv Hmissing. unfold list_omniscript_processes, require_env_file.
  rewrite Henv, (load_credentials_missing w instance Hmissing).
  split; [reflexivity |].
  exists [Echo false (u "🔑 Loading credentials for instance: " ++ instance)].
  eexists. repeat split; reflexivity.
Qed.

(** The two commands once the login has succeeded and the API call fails. *)
Section ApiFails.

Variable w : World.
Variables id instance : pystr.
Variable creds : Credentials.
Variable s : Session.

Hypothesis env_found : env_file_exists w = true.
Hypothesis loaded : load_credentials w instance = ([], inr creds).
Hypothesis logged_in : Salesforce w (connect_request (new_client creds)) = inr s.

Lemma get_api_terminal (output_path : option pystr) (pretty : bool) (r : Response) :
  requests_get w (SalesforceClient.full_url s id)
    (SalesforceClient.workbench_headers s) 30 = inr r ->
  status_code r <> 200%Z ->
  terminal (get_omniscript_structure w id instance output_path pretty)
    (u "❌ Unexpected error: " ++ salesforce_error_arity w)
    [ Login (connect_request (new_client creds));
      HttpGet (SalesforceClient.full_url s id)
        (SalesforceClient.workbench_headers s) 30 ].
Proof.
  intros Hget Hnot.
  destruct (connect_success w _ _ logged_in) as (greeting & Hconnect & Hgreeting).
  unfold get_omniscript_structure, require_env_file.
  rewrite env_found, loaded. cbn [negb]. unfold ret, echo, emit.
  eapply terminal_after_net; [| reflexivity].
  eapply terminal_after_net; [| reflexivity].
  eapply terminal_after_net; [| reflexivity].
  cbv beta. rewrite Hconnect.
  eapply terminal_after_net;
    [| cbn [List.filter is_network app];
       rewrite (echo_is_no_network _ Hgreeting); reflexivity].
  eapply terminal_after_net; [| reflexivity].
  apply terminal_first.
  rewrite (get_omniscript_structure_not_200 w
             (SalesforceClient.with_sf (new_client creds) s) s id r eq_refl Hget Hnot).
  split; [reflexivity |].
  eexists [_; _], []. repeat split; reflexivity.
Qed.

Lemma list_api_terminal (output_path : option pystr) (active_only : bool)
    (format : output_format) (e : exn) :
  sf_query w s SalesforceClient.query = inl e ->
  is_SalesforceError e = true ->
  terminal (list_omniscript_processes w instance output_path active_only format)
    (u "❌ Salesforce API error: " ++ exn_str e)
    [ Login (connect_request (new_client creds)); Query SalesforceClient.query ].
Proof.
  intros Hquery Herr.
  destruct (connect_success w _ _ logged_in) as (greeting & Hconnect & Hgreeting).
  unfold list_omniscript_processes, require_env_file.
  rewrite env_found, loaded. cbn [negb]. unfold ret, echo, emit.
  eapply terminal_after_net; [| reflexivity].
  eapply terminal_after_net; [| reflexivity].
  eapply terminal_after_net; [| reflexivity].
  cbv beta. rewrite Hconnect.
  eapply terminal_after_net;
    [| cbn [List.filter is_network app];
       rewrite (echo_is_no_network _ Hgreeting); reflexivity].
  eapply terminal_after_net; [| reflexivity].
  apply terminal_first.
  rewrite (list_omniscript_processes_run w
             (SalesforceClient.with_sf (new_client creds) s) s eq_refl), Hquery, Herr.
  split; [reflexivity |].
  eexists [_], []. repeat split; reflexivity.
Qed.

End ApiFails.

Lemma missing_credentials_terminal_debug
    (w : World) (id instance : pystr) (raw_request : bool) :
  env_file_exists w = true ->
  missing_creds w instance <> [] ->
  terminal (debug_api_call w id instance raw_request)
    (u "❌ Missing required environment variables: "
       ++ join (u ", ") (missing_creds w instance)) [].
Proof.
  intros Henv Hmissing. unfold debug_api_call.
  rewrite Henv, (load_credentials_missing w instance Hmissing).
  split; [reflexivity |].
  exists [Echo false (u "🔑 Loading credentials for instance: " ++ instance)].
  eexists. repeat split; reflexivity.
Qed.

Lemma bind_outcome_trace {A B} (m : M A) (k : A -> M B) (a : A) :
  outcome m = inr a ->
  outcome (bind m k) = outcome (k a)
  /\ trace (bind m k) = trace m ++ trace (k a).
Proof.
  destruct m as [t r]. cbn. intros ->. unfold bind.
  destruct (k a) as [t' r']. split; reflexivity.
Qed.

Lemma try_approaches_first_success (w : World) (sf : option Session) (i : Z)
    (l : list approach) :
  try_approaches w sf i l = first_success (try_approach w sf) i l.
Proof.
  revert i. induction l as [| a rest IH]; intros i; [reflexivity |].
  cbn [try_approaches first_success]. unfold bind.
  destruct (try_approach w sf i a) as [t [e | [|]]]; [reflexivity .. |].
  now rewrite IH.
Qed.

Lemma try_variations_first_success (w : World) (url : pystr) (i : Z)
    (l : list variation) :
  try_variations w url i l = first_success (try_variation w url) i l.
Proof.
  revert i. induction l as [| v rest IH]; intros i; [reflexivity |].
  cbn [try_variations first_success]. unfold bind.
  destruct (try_variation w url i v) as [t [e | [|]]]; [reflexivity .. |].
  now rewrite IH.
Qed.

(** Turns that each make one call: those that return [false] let the next
    turn happen, the first that returns [true] is the last. *)
Section FirstSuccess.

Context {X : Type}.
Variable turn : Z -> X -> M bool.
Variable call : X -> event.

Lemma first_success_wins (before after : list X) (x : X) (i : Z) :
  List.Forall (passes turn call) before ->
  stops turn call x ->
  outcome (first_success turn i (before ++ x :: after)) = inr true
  /\ List.filter is_network (trace (first_success turn i (before ++ x :: after)))
     = map call (before ++ [x]).
Proof.
  intros Hbefore Hstops. revert i.
  induction Hbefore as [| b before Hb _ IH]; intros i; cbn [app first_success map].
  - destruct (Hstops i) as [Hout Hnet].
    destruct (bind_outcome_trace (turn i x)
                (fun returned : bool =>
                   if returned then ret true else first_success turn (i + 1)%Z after)
                true Hout) as [-> ->].
    cbn [outcome trace ret fst snd]. rewrite app_nil_r.
    split; [reflexivity | exact Hnet].
  - destruct (Hb i) as [Hout Hnet].
    destruct (bind_outcome_trace (turn i b)
                (fun returned : bool =>
                   if returned then ret true
                   else first_success turn (i + 1)%Z (before ++ x :: after))
                false Hout) as [-> ->].
    destruct (IH (i + 1)%Z) as [IHout IHnet].
    split; [exact IHout |].
    rewrite List.filter_app, Hnet, IHnet. reflexivity.
Qed.

Lemma first_success_none (l : list X) (i : Z) :
  List.Forall (passes turn call) l ->
  outcome (first_success turn i l) = inr false
  /\ List.filter is_network (trace (first_success turn i l)) = map call l.
Proof.
  intros Hall. revert i.
  induction Hall as [| b rest Hb _ IH]; intros i; cbn [first_success map].
  - split; reflexivity.
  - destruct (Hb i) as [Hout Hnet].
    destruct (bind_outcome_trace (turn i b)
                (fun returned : bool =>
                   if returned then ret true else first_success turn (i + 1)%Z rest)
                false Hout) as [-> ->].
    destruct (IH (i + 1)%Z) as [IHout IHnet].
    split; [exact IHout |].
    rewrite List.filter_app, Hnet, IHnet. reflexivity.
Qed.

End FirstSuccess.

(** A turn of the URL loop never returns from the function: whatever
    [sf.restful] hands back, reading [status_code] off it raises inside the
    [try], and the handler logs the exception. *)
Lemma try_approach_passes (w : World) (s : Session) (a : approach) :
  (forall e, sf_restful w s (approach_url a) (u "GET") = inl e ->
             is_Exception e = true) ->
  passes (try_approach w (Some s)) (fun a => Restful (approach_url a) (u "GET")) a.
Proof.
  unfold try_approach, response_attribute, bind, echo, emit, answer,
    attribute_of, try_except.
  intros Hexc i.
  destruct (sf_restful w s (approach_url a) (u "GET")) as [e | v].
  - cbn. rewrite (Hexc e eq_refl). cbn. split; reflexivity.
  - cbn. split; reflexivity.
Qed.

Lemma try_variation_stops (w : World) (url : pystr) (v : variation) :
  variation_stops w url v ->
  stops (try_variation w url) (fun v => HttpGet url (variation_headers v) 30) v.
Proof.
  intros (r & items & Hanswer & H200 & Hjson) i.
  unfold try_variation, bind, echo, emit, answer, try_except.
  rewrite Hanswer, H200, Hjson. cbn. split; reflexivity.
Qed.

Lemma try_variation_passes (w : World) (url : pystr) (v : variation) :
  variation_passes w url v ->
  passes (try_variation w url) (fun v => HttpGet url (variation_headers v) 30) v.
Proof.
  unfold try_variation, bind, echo, emit, answer, try_except.
  intros [(e & Hanswer & Hexc) | (r & Hanswer & Hnot)] i; rewrite Hanswer.
  - cbn. rewrite Hexc. cbn. split; reflexivity.
  - destruct (Z.eqb_spec (status_code r) 200) as [H200 | _]; [contradiction |].
    cbn. split; reflexivity.
Qed.

(** X1: where the two loops of the [debug] command end.  The URL loop never
    ends early: [sf.restful] hands back the parsed body, reading
    [status_code] off it raises, the exception is logged and the next variant
    is tried, so every variant is requested, in order, once.  The header loop
    of [try_raw_requests], over attempts whose 200 answers carry a JSON
    object: the attempts are made in order, one call each, an attempt that
    raises or gets another status is followed by the next one, and the first
    attempt answered with 200 is the last one made; when none is, all are
    made. *)
Theorem debug_loops_end (w : World) (s : Session) (url : pystr) (i : Z) :
  (forall l,
      (forall path e, sf_restful w s path (u "GET") = inl e -> is_Exception e = true) ->
      outcome (try_approaches w (Some s) i l) = inr false
      /\ List.filter is_network (trace (try_approaches w (Some s) i l))
         = map (fun a => Restful (approach_url a) (u "GET")) l)
  /\ (forall before v after,
        List.Forall (variation_passes w url) before ->
        variation_stops w url v ->
        outcome (try_variations w url i (before ++ v :: after)) = inr true
        /\ List.filter is_network
             (trace (try_variations w url i (before ++ v :: after)))
           = map (fun v => HttpGet url (variation_headers v) 30) (before ++ [v]))
  /\ (forall l,
        List.Forall (variation_passes w url) l ->
        outcome (try_variations w url i l) = inr false
        /\ List.filter is_network (trace (try_variations w url i l))
           = map (fun v => HttpGet url (variation_headers v) 30) l).
Proof.
  split; [| split].
  - intros l Hexc. rewrite try_approaches_first_success.
    apply first_success_none. apply List.Forall_forall.
    intros a _. apply try_approach_passes. intros e. apply Hexc.
  - intros before v after Hbefore Hstops. rewrite try_variations_first_success.
    apply first_success_wins; [| now apply try_variation_stops].
    eapply List.Forall_impl; [| exact Hbefore]. apply try_variation_passes.
  - intros l Hall. rewrite try_variations_first_success.
    apply first_success_none.
    eapply List.Forall_impl; [| exact Hall]. apply try_variation_passes.
Qed.

(** The server that knows the percent-encoded URL only: the second variant
    is answered with 200 and the structure, and the third and the fourth are
    requested all the same, and so are the three raw requests. *)
Example debug_percent_only :
  List.filter is_network
    (trace (debug_api_call Scenario.percent_only (u "a0X") (u "DEFAULT") true))
  = [ Login (connect_request
               (new_client (loaded_credentials Scenario.percent_only (u "DEFAULT"))));
      Restful (u "/services/data/v62.0/connect/omniscript/a0X?customType=Discovery+Framework") (u "GET");
      Restful (u "/services/data/v62.0/connect/omniscript/a0X?customType=Discovery%20Framework") (u "GET");
      Restful (u "/services/data/v62.0/connect/omniscript/a0X") (u "GET");
      Restful (u "/services/data/v59.0/connect/omniscript/a0X?customType=Discovery+Framework") (u "GET") ]
    ++ map (fun v =>
              HttpGet (raw_url Scenario.session (u "a0X")) (variation_headers v) 30)
         (headers_variations Scenario.session)
  /\ outcome (debug_api_call Scenario.percent_only (u "a0X") (u "DEFAULT") true)
     = inr tt.
Proof. vm_compute. split; reflexivity. Qed.

Lemma debug_loops_end_witness :
  outcome (try_approaches Scenario.percent_only (Some Scenario.session) 1
             (approaches (u "a0X"))) = inr false
  /\ List.filter is_network
       (trace (try_approaches Scenario.percent_only (Some Scenario.session) 1
                 (approaches (u "a0X"))))
     = map (fun a => Restful (approach_url a) (u "GET")) (approaches (u "a0X")).
Proof.
  destruct (debug_loops_end Scenario.percent_only Scenario.session [] 1)
    as [Hall _].
  apply Hall. intros path e.
  unfold Scenario.percent_only, Scenario.with_restful. cbn [sf_restful].
  destruct (contains (u "%20") path); vm_compute; intros [= <-]; reflexivity.
Defined.

(** ** The output file *)

Lemma trace_bind_value {A B} (t : list event) (a : A) (k : A -> M B) :
  trace (bind (t, inr a) k) = t ++ trace (k a).
Proof. unfold bind. destruct (k a). reflexivity. Qed.

Lemma save_output_writes (w : World) (saved path content : pystr) :
  path <> [] ->
  List.filter is_write (trace (save_output w saved (Some path) content))
  = [WriteFile path content].
Proof.
  intros Hpath. unfold save_output.
  rewrite bool_decide_eq_false_2 by exact Hpath.
  unfold bind, emit, answer, echo, try_except.
  destruct (fs_write w path content) as [e | []]; [destruct e |]; reflexivity.
Qed.

(** X2: when the [get] command has fetched a structure and an output path
    is given, the one file it writes holds the text it printed: [json.dumps] of
    that structure, with [indent=2] under [--pretty] and without it
    otherwise. *)
Theorem get_writes_the_rendered_structure
    (w : World) (id instance path : pystr) (pretty : bool) (s : Session)
    (r : Response) (structure : pyval) :
  env_file_exists w = true ->
  missing_creds w instance = [] ->
  Salesforce w (connect_request (new_client (loaded_credentials w instance))) = inr s ->
  requests_get w (SalesforceClient.full_url s id)
    (SalesforceClient.workbench_headers s) 30 = inr r ->
  status_code r = 200%Z ->
  json r = inr structure ->
  path <> [] ->
  let json_output :=
    json_dumps w (if pretty then Some 2%nat else None) structure in
  List.filter is_write (trace (get_omniscript_structure w id instance (Some path) pretty))
    = [WriteFile path json_output]
  /\ In (Echo false json_output)
        (trace (get_omniscript_structure w id instance (Some path) pretty)).
Proof.
  intros Henv Hnone Hlogin Hget H200 Hjson Hpath json_output.
  pose proof (load_credentials_complete w instance Hnone) as Hloaded.
  destruct (connect_success w _ _ Hlogin) as (greeting & Hconnect & Hgreeting).
  assert (Hfetch :
            SalesforceClient.get_omniscript_structure w
              (SalesforceClient.with_sf (new_client (loaded_credentials w instance)) s) id
            = ( [ Echo false (u "🔍 Calling Discovery Framework API: "
                                ++ SalesforceClient.api_path id);
                  HttpGet (SalesforceClient.full_url s id)
                    (SalesforceClient.workbench_headers s) 30 ],
                inr structure )).
  { rewrite (get_omniscript_structure_connected w
               (SalesforceClient.with_sf (new_client (loaded_credentials w instance)) s)
               s id eq_refl).
    rewrite get_omniscript_structure_body_run, Hget, H200, Hjson. reflexivity. }
  assert (Hsame : (if pretty then json_dumps w (Some 2%nat) structure
                   else json_dumps w None structure) = json_output)
    by (unfold json_output; now destruct pretty).
  unfold get_omniscript_structure, require_env_file.
  rewrite Henv, Hloaded. cbn [negb]. unfold ret, echo, emit.
  rewrite !trace_bind_value. cbv beta. rewrite Hconnect.
  rewrite !trace_bind_value. cbv beta. rewrite Hfetch.
  rewrite !trace_bind_value. cbv beta zeta. rewrite Hsame.
  assert (Hquiet : List.filter is_write greeting = []).
  { clear - Hgreeting. induction greeting as [| ev l IH]; [reflexivity |].
    cbn in Hgreeting |- *. destruct ev; cbn in *; try discriminate; now apply IH. }
  split.
  - rewrite !List.filter_app. cbn [List.filter is_write app].
    rewrite Hquiet. cbn [app].
    unfold bind at 1.
    destruct (save_output w (u "💾 Output saved to: ") (Some path) json_output)
      as [tsave rsave] eqn:Hsave.
    pose proof (save_output_writes w (u "💾 Output saved to: ") path json_output Hpath)
      as Hwrite.
    rewrite Hsave in Hwrite. cbn [trace fst] in Hwrite.
    destruct rsave as [e | []]; cbn [trace fst]; [exact Hwrite |].
    rewrite List.filter_app, Hwrite. reflexivity.
  - rewrite !in_app_iff. cbn [In]. auto 20.
Qed.

Lemma get_writes_the_rendered_structure_witness :
  let w := Scenario.world Scenario.environ_complete (inr Scenario.session)
             (inr Scenario.ok_structure) (inr []) in
  List.filter is_write
    (trace (get_omniscript_structure w (u "a0X") (u "DEFAULT")
              (Some (u "out/omniscript.json")) true))
  = [WriteFile (u "out/omniscript.json") (json_dumps w (Some 2%nat) Scenario.structure)].
Proof.
  cbv zeta.
  apply (get_writes_the_rendered_structure
           (Scenario.world Scenario.environ_complete (inr Scenario.session)
              (inr Scenario.ok_structure) (inr []))
           (u "a0X") (u "DEFAULT") (u "out/omniscript.json") true
           Scenario.session Scenario.ok_structure Scenario.structure).
  - reflexivity.
  - vm_compute. reflexivity.
  - reflexivity.
  - reflexivity.
  - reflexivity.
  - reflexivity.
  - vm_compute. discriminate.
Defined.

(** ** Traces of composed computations *)

Lemma trace_bind {A B} (m : M A) (k : A -> M B) :
  trace (bind m k)
  = trace m ++ match outcome m with
               | inr a => trace (k a)
               | inl _ => []
               end.
Proof.
  destruct m as [t [e | a]]; unfold bind; cbn.
  - now rewrite app_nil_r.
  - now destruct (k a).
Qed.

Lemma outcome_bind {A B} (m : M A) (k : A -> M B) :
  outcome (bind m k)
  = match outcome m with
    | inr a => outcome (k a)
    | inl e => inl e
    end.
Proof.
  destruct m as [t [e | a]]; unfold bind; cbn; [reflexivity |].
  now destruct (k a).
Qed.

Lemma trace_try_except {A} (body : M A) (handler : exn -> option (M A)) :
  trace (try_except body handler)
  = trace body ++ match outcome body with
                  | inl e => match handler e with
                             | Some h => trace h
                             | None => []
                             end
                  | inr _ => []
                  end.
Proof.
  destruct body as [t [e | a]]; unfold try_except; cbn.
  - destruct (handler e) as [[t' r] |]; cbn; [reflexivity | now rewrite app_nil_r].
  - now rewrite app_nil_r.
Qed.

Lemma outcome_try_except {A} (body : M A) (handler : exn -> option (M A)) :
  outcome (try_except body handler)
  = match outcome body with
    | inl e => match handler e with
               | Some h => outcome h
               | None => inl e
               end
    | inr a => inr a
    end.
Proof.
  destruct body as [t [e | a]]; unfold try_except; cbn; [| reflexivity].
  now destruct (handler e) as [[t' r] |].
Qed.

Lemma silent_bind {A B} (kind : event -> bool) (m : M A) (k : A -> M B) :
  silent_on kind m -> (forall a, silent_on kind (k a)) -> silent_on kind (bind m k).
Proof.
  unfold silent_on. intros Hm Hk. rewrite trace_bind, List.filter_app, Hm.
  destruct (outcome m) as [e | a]; [reflexivity | apply Hk].
Qed.

Lemma silent_try_except {A} (kind : event -> bool) (body : M A)
    (handler : exn -> option (M A)) :
  silent_on kind body ->
  (forall e, match handler e with
             | Some h => silent_on kind h
             | None => True
             end) ->
  silent_on kind (try_except body handler).
Proof.
  unfold silent_on. intros Hbody Hhandler.
  rewrite trace_try_except, List.filter_app, Hbody.
  destruct (outcome body) as [e | a]; [| reflexivity].
  specialize (Hhandler e). now destruct (handler e).
Qed.

(** Walks through a computation built from [bind], [try_except] and
    branches, leaving the events themselves to [reflexivity]. *)
Ltac silence :=
  repeat first
    [ apply silent_bind; [| intros ?]
    | apply silent_try_except; [| intros ?; cbv beta]
    | match goal with
      | |- silent_on _ (if ?c then _ else _) => destruct c
      | |- silent_on _ (match ?x with _ => _ end) => destruct x
      | |- match (if ?c then _ else _) with _ => _ end => destruct c
      | |- True => exact I
      end
    | reflexivity ].

Lemma connect_never_writes (w : World) (self : SalesforceClient.t) :
  silent_on is_write (SalesforceClient.connect w self).
Proof.
  unfold SalesforceClient.connect, echo, echo_err, sys_exit. cbv zeta. silence.
Qed.

Lemma load_credentials_never_writes (w : World) (instance : pystr) :
  silent_on is_write (load_credentials w instance).
Proof. unfold load_credentials, echo, echo_err, sys_exit. cbv zeta. silence. Qed.

Lemma get_method_never_writes (w : World) (self : SalesforceClient.t) (id : pystr) :
  silent_on is_write (SalesforceClient.get_omniscript_structure w self id).
Proof.
  unfold SalesforceClient.get_omniscript_structure,
    SalesforceClient.get_omniscript_structure_body, SalesforceClient.api_handlers,
    echo, echo_err, sys_exit.
  cbv zeta. silence.
Qed.

Lemma list_method_never_writes (w : World) (self : SalesforceClient.t) :
  silent_on is_write (SalesforceClient.list_omniscript_processes w self).
Proof.
  unfold SalesforceClient.list_omniscript_processes, SalesforceClient.api_handlers,
    echo, echo_err, sys_exit.
  silence.
Qed.

(** ** Files are written on request only *)

Lemma try_approaches_never_write (w : World) (sf : option Session) (i : Z)
    (l : list approach) :
  silent_on is_write (try_approaches w sf i l).
Proof.
  revert i. induction l as [| a rest IH]; intros i; [reflexivity |].
  cbn [try_approaches]. apply silent_bind.
  - unfold try_approach, echo. silence.
  - intros [|]; [reflexivity | apply IH].
Qed.

Lemma try_variations_never_write (w : World) (url : pystr) (i : Z)
    (l : list variation) :
  silent_on is_write (try_variations w url i l).
Proof.
  revert i. induction l as [| v rest IH]; intros i; [reflexivity |].
  cbn [try_variations]. apply silent_bind.
  - unfold try_variation, echo. silence.
  - intros [|]; [reflexivity | apply IH].
Qed.

(** X3: without [--output-path] (or with an empty one) neither [get] nor
    [list] writes a file, whatever the server answers and in either output
    format; the [debug] command never writes one. *)
Theorem no_output_path_no_file
    (w : World) (id instance : pystr) (output_path : option pystr)
    (pretty active_only raw_request : bool) (format : output_format) :
  output_path = None \/ output_path = Some [] ->
  List.filter is_write
    (trace (get_omniscript_structure w id instance output_path pretty)) = []
  /\ List.filter is_write
       (trace (list_omniscript_processes w instance output_path active_only format)) = []
  /\ List.filter is_write (trace (debug_api_call w id instance raw_request)) = [].
Proof.
  intros Hpath. split; [| split].
  - unfold get_omniscript_structure, require_env_file, echo, echo_err, sys_exit.
    apply silent_bind; [silence | intros _].
    apply silent_bind; [silence | intros _].
    apply silent_bind; [apply load_credentials_never_writes | intros credentials].
    apply silent_bind; [apply connect_never_writes | intros client].
    apply silent_bind; [silence | intros _].
    apply silent_bind; [apply get_method_never_writes | intros structure].
    cbv zeta. destruct Hpath as [-> | ->]; silence.
  - unfold list_omniscript_processes, require_env_file, display_processes_table,
      echo, echo_err, sys_exit.
    apply silent_bind; [silence | intros _].
    apply silent_bind; [silence | intros _].
    apply silent_bind; [apply load_credentials_never_writes | intros credentials].
    apply silent_bind; [apply connect_never_writes | intros client].
    apply silent_bind; [silence | intros _].
    apply silent_bind; [apply list_method_never_writes | intros processes].
    apply silent_bind; [silence | intros shown].
    cbv zeta. destruct Hpath as [-> | ->]; silence.
  - unfold debug_api_call, try_raw_requests, echo, echo_err, sys_exit.
    apply silent_bind; [silence | intros _].
    apply silent_bind; [silence | intros _].
    apply silent_bind; [apply load_credentials_never_writes | intros credentials].
    apply silent_bind; [apply connect_never_writes | intros client].
    apply silent_bind; [silence | intros _].
    apply silent_bind; [apply try_approaches_never_write | intros returned].
    destruct returned; [reflexivity |].
    apply silent_bind; [silence | intros _].
    apply silent_bind; [| intros _; silence].
    destruct raw_request; [| reflexivity].
    apply silent_bind; [silence | intros _].
    apply silent_bind; [silence | intros s]. cbv zeta.
    apply silent_bind; [apply try_variations_never_write | intros [|]; reflexivity].
Qed.

Lemma no_output_path_no_file_witness :
  let w := Scenario.world Scenario.environ_complete (inr Scenario.session)
             (inr Scenario.ok_structure)
             (inr [Scenario.process "Intake" (PyBool true)]) in
  List.filter is_write
    (trace (get_omniscript_structure w (u "a0X") (u "DEFAULT") None true)) = []
  /\ List.filter is_write
       (trace (list_omniscript_processes w (u "DEFAULT") None false FormatJson)) = []
  /\ List.filter is_write (trace (debug_api_call w (u "a0X") (u "DEFAULT") true)) = [].
Proof.
  cbv zeta.
  apply (no_output_path_no_file
           (Scenario.world Scenario.environ_complete (inr Scenario.session)
              (inr Scenario.ok_structure)
              (inr [Scenario.process "Intake" (PyBool true)]))
           (u "a0X") (u "DEFAULT") None true false true FormatJson).
  left. reflexivity.
Defined.

(** ** The [.env] file *)

Lemma env_file_missing_terminal_debug
    (w : World) (id instance : pystr) (raw_request : bool) :
  env_file_exists w = false ->
  terminal (debug_api_call w id instance raw_request)
    (u "❌ .env file not found at " ++ env_file w) [].
Proof.
  intros Henv. unfold debug_api_call. rewrite Henv.
  apply (terminal_intro [] []). reflexivity.
Qed.

(** X4: when the script's directory holds no [.env] file, each command
    reports it on stderr ([get] and [list] name the directory, [debug] names
    the file) and exits with status 1 before any network call; after the
    report only further stderr hints follow. *)
Theorem missing_env_file_ends_the_command
    (w : World) (id instance : pystr) (output_path : option pystr)
    (pretty active_only raw_request : bool) (format : output_format) :
  env_file_exists w = false ->
  terminal (get_omniscript_structure w id instance output_path pretty)
    (u "❌ .env file not found in " ++ script_dir w) []
  /\ terminal (list_omniscript_processes w instance output_path active_only format)
       (u "❌ .env file not found in " ++ script_dir w) []
  /\ terminal (debug_api_call w id instance raw_request)
       (u "❌ .env file not found at " ++ env_file w) []
  /\ List.filter is_network
       (trace (get_omniscript_structure w id instance output_path pretty)) = []
  /\ List.filter is_network
       (trace (list_omniscript_processes w instance output_path active_only format)) = []
  /\ List.filter is_network (trace (debug_api_call w id instance raw_request)) = [].
Proof.
  intros Henv. repeat split.
  all: try (unfold get_omniscript_structure, list_omniscript_processes,
            debug_api_call, require_env_file; rewrite Henv; reflexivity).
  - now apply env_file_missing_terminal_get.
  - now apply env_file_missing_terminal_list.
  - now apply env_file_missing_terminal_debug.
Qed.

Lemma missing_env_file_ends_the_command_witness :
  let w := Scenario.without_env_file
             (Scenario.world Scenario.environ_complete (inr Scenario.session)
                (inr Scenario.ok_structure) (inr [])) in
  trace (get_omniscript_structure w (u "a0X") (u "DEFAULT") None true)
  = [ Echo true (u "❌ .env file not found in /opt/scripts/python");
      Echo true (u "Please create a .env file at /opt/scripts/python/.env with your Salesforce credentials");
      Echo true (u "You can copy /opt/scripts/python/env.example to get started") ]
  /\ terminal (debug_api_call w (u "a0X") (u "DEFAULT") false)
       (u "❌ .env file not found at " ++ env_file w) [].
Proof.
  cbv zeta. split; [vm_compute; reflexivity |].
  refine (proj1 (proj2 (proj2
    (missing_env_file_ends_the_command
       (Scenario.without_env_file
          (Scenario.world Scenario.environ_complete (inr Scenario.session)
             (inr Scenario.ok_structure) (inr [])))
       (u "a0X") (u "DEFAULT") None true false false FormatTable eq_refl)))).
Defined.

(** ** Connecting *)

Lemma connect_success_run (w : World) (self : SalesforceClient.t) (s : Session) :
  Salesforce w (connect_request self) = inr s ->
  SalesforceClient.connect w self
  = (Login (connect_request self) :: connect_greeting self,
     inr (SalesforceClient.with_sf self s)).
Proof.
  unfold SalesforceClient.connect, connect_request, connect_greeting. intros Hlogin.
  destruct (contains (u ".lightning.force.com") (SalesforceClient.domain self));
    cbv zeta; unfold bind, emit, answer; rewrite Hlogin; reflexivity.
Qed.

Lemma connect_network (w : World) (self : SalesforceClient.t) :
  List.filter is_network (trace (SalesforceClient.connect w self))
  = [Login (connect_request self)].
Proof.
  destruct (Salesforce w (connect_request self)) as [e | s] eqn:Hlogin.
  - rewrite (connect_failure w self e Hlogin). destruct e; reflexivity.
  - rewrite (connect_success_run w self s Hlogin). unfold connect_greeting.
    destruct (contains _ _); reflexivity.
Qed.

(** X5: [connect] logs in exactly once, whatever the answer.  A domain that
    contains [.lightning.force.com] is passed as the instance URL
    [https://<domain>], any other domain as the login domain.  When the login
    succeeds the client keeps its four credentials, holds the session, and
    nothing was printed on stderr; when it raises an [Exception] the outcome
    is exit status 1 and no session is handed on. *)
Theorem connect_logs_in_once (w : World) (self : SalesforceClient.t) :
  let lightning := contains (u ".lightning.force.com") (SalesforceClient.domain self) in
  let request :=
    {| lr_username := SalesforceClient.username self;
       lr_password := SalesforceClient.password self;
       lr_security_token := SalesforceClient.security_token self;
       lr_target := if lightning
                    then InstanceUrl (u "https://" ++ SalesforceClient.domain self)
                    else Domain (SalesforceClient.domain self) |} in
  List.filter is_network (trace (SalesforceClient.connect w self)) = [Login request]
  /\ (forall s,
        Salesforce w request = inr s ->
        outcome (SalesforceClient.connect w self)
          = inr {| SalesforceClient.username := SalesforceClient.username self;
                   SalesforceClient.password := SalesforceClient.password self;
                   SalesforceClient.security_token := SalesforceClient.security_token self;
                   SalesforceClient.domain := SalesforceClient.domain self;
                   SalesforceClient.sf := Some s |}
        /\ List.filter is_stderr (trace (SalesforceClient.connect w self)) = []
        /\ length (trace (SalesforceClient.connect w self))
           = if lightning then 3%nat else 2%nat)
  /\ (forall e,
        Salesforce w request = inl e ->
        is_Exception e = true ->
        outcome (SalesforceClient.connect w self) = inl (SystemExit 1)
        /\ List.filter is_stderr (trace (SalesforceClient.connect w self))
           = [Echo true (connect_message e)]).
Proof.
  cbv zeta. fold (connect_request self). split; [apply connect_network |]. split.
  - intros s Hlogin. rewrite (connect_success_run w self s Hlogin).
    unfold connect_greeting.
    destruct (contains _ _); repeat split; reflexivity.
  - intros e Hlogin Hexc. rewrite (connect_failure w self e Hlogin).
    unfold connect_message.
    destruct (is_SalesforceAuthenticationFailed e); [split; reflexivity |].
    rewrite Hexc. split; reflexivity.
Qed.

Example connect_lightning :
  SalesforceClient.connect
    (Scenario.world Scenario.environ_complete (inr Scenario.session)
       (inr Scenario.ok_structure) (inr []))
    Scenario.lightning_client
  = ( [ Login {| lr_username := u "user@example.com";
                 lr_password := u "password123";
                 lr_security_token := u "tok";
                 lr_target := InstanceUrl (u "https://acme.lightning.force.com") |};
        Echo false (u "✅ Successfully connected to Lightning Experience as user@example.com");
        Echo false (u "🌩️ Using Lightning domain: acme.lightning.force.com") ],
      inr (SalesforceClient.with_sf Scenario.lightning_client Scenario.session) ).
Proof. vm_compute. reflexivity. Qed.

(** ** The [list] command after the query *)

Lemma outcome_bind_value {A B} (t : list event) (a : A) (k : A -> M B) :
  outcome (bind (t, inr a) k) = outcome (k a).
Proof. unfold bind. destruct (k a). reflexivity. Qed.

Lemma bind_pairs {A B} (t : list event) (a : A) (k : A -> M B) :
  bind (t, inr a) k = (t ++ trace (k a), outcome (k a)).
Proof. unfold bind. destruct (k a). reflexivity. Qed.

Lemma pair_trace_outcome {A} (m : M A) : m = (trace m, outcome m).
Proof. now destruct m. Qed.

Lemma list_preamble_quiet (w : World) (instance : pystr) (active_only : bool)
    (rows : list pydict) :
  List.filter is_write (list_preamble w instance active_only rows) = []
  /\ List.filter is_table (list_preamble w instance active_only rows) = []
  /\ List.filter is_stderr (list_preamble w instance active_only rows) = []
  /\ List.filter is_network (list_preamble w instance active_only rows)
     = [ Login (connect_request (new_client (loaded_credentials w instance)));
         Query SalesforceClient.query ].
Proof.
  unfold list_preamble, connect_greeting. cbv zeta.
  destruct (contains _ _), active_only; repeat split; reflexivity.
Qed.

(** The command is its preamble followed by [list_output] on the records
    that pass the filter. *)
Lemma list_run
    (w : World) (instance : pystr) (output_path : option pystr) (active_only : bool)
    (format : output_format) (s : Session) (result : QueryResult) :
  env_file_exists w = true ->
  missing_creds w instance = [] ->
  Salesforce w (connect_request (new_client (loaded_credentials w instance))) = inr s ->
  sf_query w s SalesforceClient.query = inr result ->
  list_omniscript_processes w instance output_path active_only format
  = ( list_preamble w instance active_only (records result)
        ++ trace (list_output w output_path format
                    (shown_processes active_only (records result))),
      outcome (list_output w output_path format
                 (shown_processes active_only (records result))) ).
Proof.
  intros Henv Hnone Hlogin Hquery.
  pose proof (load_credentials_complete w instance Hnone) as Hloaded.
  pose proof (connect_success_run w _ s Hlogin) as Hconnect.
  pose proof (list_omniscript_processes_run w
                (SalesforceClient.with_sf
                   (new_client (loaded_credentials w instance)) s) s eq_refl)
    as Hmethod.
  rewrite Hquery in Hmethod.
  rewrite (pair_trace_outcome (list_omniscript_processes w instance output_path
                                 active_only format)).
  unfold list_omniscript_processes, require_env_file.
  rewrite Henv, Hloaded. cbn [negb]. unfold ret, echo, emit.
  rewrite !trace_bind_value, !outcome_bind_value. cbv beta. rewrite Hconnect.
  rewrite !trace_bind_value, !outcome_bind_value. cbv beta. rewrite Hmethod.
  rewrite !trace_bind_value, !outcome_bind_value. cbv beta.
  unfold list_preamble, shown_processes, list_output, echo, emit. cbv zeta.
  destruct active_only.
  - rewrite (bind_pairs [_] tt
               (fun _ => ([], inr (active_processes (records result))))).
    cbn [trace outcome fst snd]. rewrite app_nil_r.
    rewrite !trace_bind_value, !outcome_bind_value. cbv beta.
    rewrite <- !app_assoc. reflexivity.
  - rewrite !trace_bind_value, !outcome_bind_value. cbv beta.
    rewrite <- !app_assoc. reflexivity.
Qed.

Lemma save_output_written (w : World) (saved : pystr) (output_path : option pystr)
    (content : pystr) :
  List.filter is_write (trace (save_output w saved output_path content))
  = written output_path content.
Proof.
  unfold save_output, written. destruct output_path as [path |]; [| reflexivity].
  destruct (bool_decide (path = [])); [reflexivity |].
  unfold bind, emit, answer, echo, try_except.
  destruct (fs_write w path content) as [e | []]; [destruct e |]; reflexivity.
Qed.

Lemma save_output_no_table (w : World) (saved : pystr) (output_path : option pystr)
    (content : pystr) :
  silent_on is_table (save_output w saved output_path content).
Proof. unfold save_output, echo, echo_err, sys_exit. silence. Qed.

Lemma save_output_no_network (w : World) (saved : pystr) (output_path : option pystr)
    (content : pystr) :
  silent_on is_network (save_output w saved output_path content).
Proof. unfold save_output, echo, echo_err, sys_exit. silence. Qed.

Lemma shown_processes_sublist (active_only : bool) (rows : list pydict) :
  sublist (shown_processes active_only rows) rows.
Proof.
  unfold shown_processes. destruct active_only;
    [apply active_processes_sublist | reflexivity].
Qed.

(** X6: when the query has answered and no record is left to show (the
    server returned none, or [--active-only] kept none), the [list] command
    says so and ends normally: nothing on stderr, no table, and no file even
    when an output path was given. *)
Theorem list_nothing_to_show
    (w : World) (instance : pystr) (output_path : option pystr) (active_only : bool)
    (format : output_format) (s : Session) (result : QueryResult) :
  env_file_exists w = true ->
  missing_creds w instance = [] ->
  Salesforce w (connect_request (new_client (loaded_credentials w instance))) = inr s ->
  sf_query w s SalesforceClient.query = inr result ->
  shown_processes active_only (records result) = [] ->
  list_omniscript_processes w instance output_path active_only format
  = ( list_preamble w instance active_only (records result)
        ++ [Echo false (u "📋 No OmniScript processes found.")],
      inr tt )
  /\ List.filter is_write
       (trace (list_omniscript_processes w instance output_path active_only format)) = []
  /\ List.filter is_table
       (trace (list_omniscript_processes w instance output_path active_only format)) = []
  /\ List.filter is_stderr
       (trace (list_omniscript_processes w instance output_path active_only format)) = [].
Proof.
  intros Henv Hnone Hlogin Hquery Hempty.
  rewrite (list_run w instance output_path active_only format s result
             Henv Hnone Hlogin Hquery).
  unfold list_output. rewrite Hempty. cbn [bool_decide decide_rel trace outcome fst snd].
  rewrite bool_decide_eq_true_2 by reflexivity.
  destruct (list_preamble_quiet w instance active_only (records result))
    as (Hwrite & Htable & Hstderr & _).
  cbn [trace outcome echo emit fst snd].
  repeat split; rewrite List.filter_app; cbn [List.filter is_write is_table is_stderr];
    rewrite ?Hwrite, ?Htable, ?Hstderr; reflexivity.
Qed.

Lemma list_nothing_to_show_witness :
  let w := Scenario.world Scenario.environ_complete (inr Scenario.session)
             (inr Scenario.ok_structure)
             (inr [Scenario.process "Intake" (PyBool false)]) in
  outcome (list_omniscript_processes w (u "DEFAULT") (Some (u "out.json")) true FormatJson)
    = inr tt
  /\ List.filter is_write
       (trace (list_omniscript_processes w (u "DEFAULT") (Some (u "out.json"))
                 true FormatJson)) = [].
Proof.
  cbv zeta.
  destruct (list_nothing_to_show
              (Scenario.world Scenario.environ_complete (inr Scenario.session)
                 (inr Scenario.ok_structure)
                 (inr [Scenario.process "Intake" (PyBool false)]))
              (u "DEFAULT") (Some (u "out.json")) true FormatJson Scenario.session
              {| totalSize := 1; done := true;
                 records := [Scenario.process "Intake" (PyBool false)] |}
              eq_refl ltac:(vm_compute; reflexivity) eq_refl eq_refl
              ltac:(vm_compute; reflexivity))
    as (Hrun & Hwrite & _).
  split; [now rewrite Hrun | exact Hwrite].
Defined.

(** X7: with [--format json] and at least one record to show, the [list]
    command prints [json.dumps(records, indent=2)] of exactly the records
    that passed the filter, prints no table, and hands that same text to the
    one write it attempts when an output path is given; when it ends normally
    its last line reports the number of records shown. *)
Theorem list_json_output
    (w : World) (instance : pystr) (output_path : option pystr) (active_only : bool)
    (s : Session) (result : QueryResult) :
  env_file_exists w = true ->
  missing_creds w instance = [] ->
  Salesforce w (connect_request (new_client (loaded_credentials w instance))) = inr s ->
  sf_query w s SalesforceClient.query = inr result ->
  shown_processes active_only (records result) <> [] ->
  let shown := shown_processes active_only (records result) in
  let json_output := json_dumps w (Some 2%nat) (PyList (map PyDict shown)) in
  let run := list_omniscript_processes w instance output_path active_only FormatJson in
  In (Echo false json_output) (trace run)
  /\ List.filter is_write (trace run) = written output_path json_output
  /\ List.filter is_table (trace run) = []
  /\ (outcome run = inr tt ->
      exists before,
        trace run
        = before ++ [ Echo false (nl ++ u "✅ Successfully retrieved "
                                    ++ str_of_Z (Z.of_nat (length shown))
                                    ++ u " OmniScript processes") ]).
Proof.
  intros Henv Hnone Hlogin Hquery Hshown shown json_output run.
  unfold run.
  rewrite (list_run w instance output_path active_only FormatJson s result
             Henv Hnone Hlogin Hquery).
  fold shown. unfold list_output.
  rewrite bool_decide_eq_false_2 by exact Hshown. cbv zeta. fold json_output.
  unfold echo, emit. cbn [trace outcome fst snd].
  destruct (list_preamble_quiet w instance active_only (records result))
    as (Hwrite & Htable & _).
  rewrite !trace_bind, !outcome_bind. cbn [trace outcome fst snd].
  pose proof (save_output_written w (u "💾 Output saved to: ") output_path json_output)
    as Hsaved.
  pose proof (save_output_no_table w (u "💾 Output saved to: ") output_path json_output)
    as Hquiet.
  unfold silent_on in Hquiet.
  destruct (save_output w (u "💾 Output saved to: ") output_path json_output)
    as [tsave [e | []]]; cbn [trace outcome fst snd] in *.
  - split; [rewrite !in_app_iff; cbn [In]; auto 10 |].
    split; [rewrite !List.filter_app, Hwrite, Hsaved; cbn; now rewrite app_nil_r |].
    split; [rewrite !List.filter_app, Htable, Hquiet; reflexivity |].
    intros Habs. discriminate Habs.
  - split; [rewrite !in_app_iff; cbn [In]; auto 10 |].
    split; [rewrite !List.filter_app, Hwrite, Hsaved; cbn; now rewrite app_nil_r |].
    split; [rewrite !List.filter_app, Htable, Hquiet; reflexivity |].
    intros _. eexists. rewrite !app_assoc. reflexivity.
Qed.

Lemma list_json_output_witness :
  let rows := [ Scenario.process "Intake" (PyBool true);
                Scenario.process "Intake" (PyBool false);
                Scenario.process "Renewal" (PyBool true) ] in
  let w := Scenario.world Scenario.environ_complete (inr Scenario.session)
             (inr Scenario.ok_structure) (inr rows) in
  List.filter is_write
    (trace (list_omniscript_processes w (u "DEFAULT") (Some (u "out.json"))
              true FormatJson))
  = [ WriteFile (u "out.json")
        (json_dumps w (Some 2%nat)
           (PyList [ PyDict (Scenario.process "Intake" (PyBool true));
                     PyDict (Scenario.process "Renewal" (PyBool true)) ])) ].
Proof.
  cbv zeta.
  pose proof (list_json_output
                (Scenario.world Scenario.environ_complete (inr Scenario.session)
                   (inr Scenario.ok_structure)
                   (inr [ Scenario.process "Intake" (PyBool true);
                          Scenario.process "Intake" (PyBool false);
                          Scenario.process "Renewal" (PyBool true) ]))
                (u "DEFAULT") (Some (u "out.json")) true Scenario.session
                {| totalSize := 3; done := true;
                   records := [ Scenario.process "Intake" (PyBool true);
                                Scenario.process "Intake" (PyBool false);
                                Scenario.process "Renewal" (PyBool true) ] |}
                eq_refl ltac:(vm_compute; reflexivity) eq_refl eq_refl
                ltac:(vm_compute; discriminate))
    as (_ & Hwrite & _).
  rewrite Hwrite. vm_compute. reflexivity.
Defined.

Lemma active_rows_say_yes (w : World) (rows : list pydict) :
  List.Forall (fun row => row_active row = u "✅ Yes")
    (map (process_row w) (active_processes rows)).
Proof.
  apply List.Forall_forall. intros row Hin.
  apply in_map_iff in Hin. destruct Hin as (p & <- & Hp).
  apply active_processes_In in Hp. destruct Hp as [_ Htruthy].
  unfold IsActive in Htruthy. unfold process_row. cbn [row_active].
  now rewrite Htruthy.
Qed.

(** X8: with the table format and at least one record to show, the [list]
    command prints one table, with one row per record that passed the filter,
    in the same order; under [--active-only] every row's Active cell reads
    "✅ Yes".  No JSON file is written: when an output path is given the one
    write attempted holds the captured text of that table. *)
Theorem list_table_output
    (w : World) (instance : pystr) (output_path : option pystr) (active_only : bool)
    (s : Session) (result : QueryResult) :
  env_file_exists w = true ->
  missing_creds w instance = [] ->
  Salesforce w (connect_request (new_client (loaded_credentials w instance))) = inr s ->
  sf_query w s SalesforceClient.query = inr result ->
  shown_processes active_only (records result) <> [] ->
  let shown := shown_processes active_only (records result) in
  let t := processes_table w shown in
  let run := list_omniscript_processes w instance output_path active_only FormatTable in
  List.filter is_table (trace run) = [ConsolePrintTable t]
  /\ table_rows t = map (process_row w) shown
  /\ sublist shown (records result)
  /\ (active_only = true ->
      List.Forall (fun row => row_active row = u "✅ Yes") (table_rows t))
  /\ List.filter is_write (trace run) = written output_path (console_capture w t)
  /\ (outcome run = inr tt ->
      exists before,
        trace run
        = before ++ [ Echo false (nl ++ u "✅ Successfully retrieved "
                                    ++ str_of_Z (Z.of_nat (length shown))
                                    ++ u " OmniScript processes") ]).
Proof.
  intros Henv Hnone Hlogin Hquery Hshown shown t run.
  unfold run.
  rewrite (list_run w instance output_path active_only FormatTable s result
             Henv Hnone Hlogin Hquery).
  fold shown. unfold list_output, display_processes_table.
  rewrite bool_decide_eq_false_2 by exact Hshown. cbv zeta. fold t.
  unfold echo, emit. cbn [trace outcome fst snd].
  destruct (list_preamble_quiet w instance active_only (records result))
    as (Hwrite & Htable & _).
  rewrite !trace_bind, !outcome_bind. cbn [trace outcome fst snd].
  pose proof (save_output_written w (u "💾 Table output saved to: ") output_path
                (console_capture w t)) as Hsaved.
  pose proof (save_output_no_table w (u "💾 Table output saved to: ") output_path
                (console_capture w t)) as Hquiet.
  unfold silent_on in Hquiet.
  assert (Hyes : active_only = true ->
                 List.Forall (fun row => row_active row = u "✅ Yes") (table_rows t)).
  { intros ->. apply active_rows_say_yes. }
  destruct (save_output w (u "💾 Table output saved to: ") output_path
              (console_capture w t))
    as [tsave [e | []]]; cbn [trace outcome fst snd] in *.
  - split; [rewrite !List.filter_app, Htable, Hquiet; reflexivity |].
    split; [reflexivity |].
    split; [apply shown_processes_sublist |].
    split; [exact Hyes |].
    split; [rewrite !List.filter_app, Hwrite, Hsaved; cbn; now rewrite app_nil_r |].
    intros Habs. discriminate Habs.
  - split; [rewrite !List.filter_app, Htable, Hquiet; reflexivity |].
    split; [reflexivity |].
    split; [apply shown_processes_sublist |].
    split; [exact Hyes |].
    split; [rewrite !List.filter_app, Hwrite, Hsaved; cbn; now rewrite app_nil_r |].
    intros _. eexists. rewrite !app_assoc. reflexivity.
Qed.

Lemma list_table_output_witness :
  let rows := [ Scenario.process "Intake" (PyBool true);
                Scenario.process "Intake" (PyBool false) ] in
  let w := Scenario.world Scenario.environ_complete (inr Scenario.session)
             (inr Scenario.ok_structure) (inr rows) in
  List.filter is_table
    (trace (list_omniscript_processes w (u "DEFAULT") None true FormatTable))
  = [ ConsolePrintTable
        (processes_table w [Scenario.process "Intake" (PyBool true)]) ].
Proof.
  cbv zeta.
  pose proof (list_table_output
                (Scenario.world Scenario.environ_complete (inr Scenario.session)
                   (inr Scenario.ok_structure)
                   (inr [ Scenario.process "Intake" (PyBool true);
                          Scenario.process "Intake" (PyBool false) ]))
                (u "DEFAULT") None true Scenario.session
                {| totalSize := 2; done := true;
                   records := [ Scenario.process "Intake" (PyBool true);
                                Scenario.process "Intake" (PyBool false) ] |}
                eq_refl ltac:(vm_compute; reflexivity) eq_refl eq_refl
                ltac:(vm_compute; discriminate))
    as (Htable & _).
  rewrite Htable. vm_compute. reflexivity.
Defined.

(** ** Table rows *)

Lemma display_name_bound (name : pystr) : (length (display_name name) <= 23)%nat.
Proof.
  destruct (Nat.le_gt_cases (length name) 23) as [Hshort | Hlong].
  - now rewrite display_name_short.
  - destruct (display_name_long name Hlong) as [_ ->]. reflexivity.
Qed.

Lemma display_unique_name_bound (unique_name : pystr) :
  (length (display_unique_name unique_name) <= 28)%nat.
Proof.
  destruct (Nat.le_gt_cases (length unique_name) 28) as [Hshort | Hlong].
  - now rewrite display_unique_name_short.
  - destruct (display_unique_name_long unique_name Hlong) as [_ ->]. reflexivity.
Qed.

Lemma display_id_bound (id : pystr) : (length (display_id id) <= 18)%nat.
Proof. unfold display_id, slice_to. rewrite length_take. lia. Qed.

Lemma yes_is_not_no : u "✅ Yes" <> u "❌ No".
Proof. vm_compute. discriminate. Qed.

Lemma field_absent (w : World) (process : pydict) (key : pystr) :
  dict_lookup key process = None ->
  py_str (py_repr w) (dict_get process key (PyStr (u "N/A"))) = u "N/A".
Proof. intros Habsent. unfold dict_get. now rewrite Habsent. Qed.

(** X9: every row of the table fits its columns: the Name cell has at most
    23 characters (column width 25), the Unique Name cell at most 28 (width
    30) and the ID cell at most 18 (width 18).  A field the record lacks is
    shown as "N/A" in each of the seven text cells, a JSON [null] as "None";
    the Active cell reads "✅ Yes" exactly when [IsActive] is truthy, so a
    record without [IsActive] reads "❌ No". *)
Theorem table_row_defaults_and_bounds (w : World) (process : pydict) :
  let row := process_row w process in
  ((length (row_name row) <= 23)%nat
   /\ (length (row_unique_name row) <= 28)%nat
   /\ (length (row_id row) <= 18)%nat)
  /\ ((dict_lookup (u "Name") process = None -> row_name row = u "N/A")
      /\ (dict_lookup (u "Type") process = None -> row_type row = u "N/A")
      /\ (dict_lookup (u "SubType") process = None -> row_subtype row = u "N/A")
      /\ (dict_lookup (u "Language") process = None -> row_language row = u "N/A")
      /\ (dict_lookup (u "VersionNumber") process = None -> row_version row = u "N/A")
      /\ (dict_lookup (u "UniqueName") process = None -> row_unique_name row = u "N/A")
      /\ (dict_lookup (u "Id") process = None -> row_id row = u "N/A"))
  /\ (dict_lookup (u "Name") process = Some PyNone -> row_name row = u "None")
  /\ (row_active row = u "✅ Yes" <-> truthy (IsActive process) = true)
  /\ (dict_lookup (u "IsActive") process = None -> row_active row = u "❌ No").
Proof.
  cbv zeta. unfold process_row.
  cbn [row_name row_type row_subtype row_language row_version row_active
       row_unique_name row_id].
  split; [| split; [| split; [| split]]].
  - split; [apply display_name_bound |].
    split; [apply display_unique_name_bound | apply display_id_bound].
  - repeat split; intros Habsent; rewrite (field_absent w process _ Habsent);
      first [reflexivity | vm_compute; reflexivity].
  - intros Hnull. unfold dict_get. rewrite Hnull. vm_compute. reflexivity.
  - fold (IsActive process). destruct (truthy (IsActive process)).
    + split; reflexivity.
    + split; [intros Habs; symmetry in Habs; now apply yes_is_not_no in Habs
             | discriminate].
  - intros Habsent. unfold dict_get. now rewrite Habsent.
Qed.

Example process_row_sparse :
  process_row
    (Scenario.world Scenario.environ_complete (inr Scenario.session)
       (inr Scenario.ok_structure) (inr []))
    [ (u "Name", PyStr (u "A very long OmniScript process name"));
      (u "VersionNumber", PyInt 3);
      (u "UniqueName", PyNone) ]
  = {| row_name := u "A very long OmniScri...";
       row_type := u "N/A";
       row_subtype := u "N/A";
       row_language := u "N/A";
       row_version := u "3";
       row_active := u "❌ No";
       row_unique_name := u "None";
       row_id := u "N/A" |}.
Proof. vm_compute. reflexivity. Qed.

(** ** Failures after the login *)

Lemma connect_greeting_no_network (self : SalesforceClient.t) :
  List.filter is_network (connect_greeting self) = [].
Proof. unfold connect_greeting. destruct (contains _ _); reflexivity. Qed.

Lemma terminal_prefix {A} (pre t : list event) (r : exn + A)
    (message : pystr) (net : list event) :
  terminal (t, r) message net ->
  terminal (pre ++ t, r) message (List.filter is_network pre ++ net).
Proof.
  intros (Hout & before & after & Htrace & Hnet & Hafter).
  cbn in Hout, Htrace. subst t r. split; [reflexivity |].
  exists (pre ++ before), after. cbn. rewrite <- app_assoc, List.filter_app, Hnet.
  repeat split. exact Hafter.
Qed.

Lemma save_output_failure (w : World) (saved path content : pystr) (e : exn) :
  path <> [] ->
  fs_write w path content = inl e ->
  is_Exception e = true ->
  save_output w saved (Some path) content
  = ( [ WriteFile path content;
        Echo true (nl ++ u "❌ Failed to write output file: " ++ exn_str e) ],
      inl (SystemExit 1) ).
Proof.
  intros Hpath Hwrite Hexc. unfold save_output.
  rewrite bool_decide_eq_false_2 by exact Hpath.
  unfold bind, emit, answer, echo, try_except. rewrite Hwrite, Hexc. reflexivity.
Qed.

Section AfterLogin.

Variable w : World.
Variables id instance : pystr.
Variable s : Session.

Hypothesis env_found : env_file_exists w = true.
Hypothesis complete : missing_creds w instance = [].
Hypothesis logged_in :
  Salesforce w (connect_request (new_client (loaded_credentials w instance))) = inr s.

(** The commands up to the API method, which runs on this client. *)
Lemma get_connected_run (output_path : option pystr) (pretty : bool) :
  let client := SalesforceClient.with_sf (new_client (loaded_credentials w instance)) s in
  let fetch := SalesforceClient.get_omniscript_structure w client id in
  let pre :=
    [ Echo false (u "🔑 Loading credentials for instance: " ++ instance);
      Login (connect_request (new_client (loaded_credentials w instance))) ]
    ++ connect_greeting (new_client (loaded_credentials w instance))
    ++ [ Echo false (u "📊 Retrieving OmniScript structure for ID: " ++ id) ] in
  get_omniscript_structure w id instance output_path pretty
  = match outcome fetch with
    | inl e => (pre ++ trace fetch, inl e)
    | inr structure =>
        let json_output := json_dumps w (if pretty then Some 2%nat else None) structure in
        let save := save_output w (u "💾 Output saved to: ") output_path json_output in
        ( pre ++ trace fetch
            ++ [ Echo false (nl ++ u "📋 OmniScript Structure:");
                 Echo false (concat (replicate 50 (u "=")));
                 Echo false json_output ]
            ++ trace save
            ++ match outcome save with
               | inr _ => [ Echo false (nl ++ u "✅ Successfully retrieved OmniScript structure for " ++ id) ]
               | inl _ => []
               end,
          match outcome save with
          | inr _ => inr tt
          | inl e => inl e
          end )
    end.
Proof.
  cbv zeta.
  pose proof (load_credentials_complete w instance complete) as Hloaded.
  pose proof (connect_success_run w _ s logged_in) as Hconnect.
  rewrite (pair_trace_outcome (get_omniscript_structure w id instance output_path pretty)).
  unfold get_omniscript_structure, require_env_file.
  rewrite env_found, Hloaded. cbn [negb]. unfold ret, echo, emit.
  rewrite !trace_bind_value, !outcome_bind_value. cbv beta. rewrite Hconnect.
  rewrite !trace_bind_value, !outcome_bind_value. cbv beta.
  rewrite trace_bind, outcome_bind.
  destruct (SalesforceClient.get_omniscript_structure w
              (SalesforceClient.with_sf (new_client (loaded_credentials w instance)) s) id)
    as [tfetch [e | structure]]; cbn [trace outcome fst snd].
  - rewrite app_nil_r, <- !app_assoc. reflexivity.
  - cbv zeta.
    assert (Hsame : (if pretty then json_dumps w (Some 2%nat) structure
                     else json_dumps w None structure)
                    = json_dumps w (if pretty then Some 2%nat else None) structure)
      by now destruct pretty.
    rewrite Hsame.
    rewrite !trace_bind_value, !outcome_bind_value. cbv beta.
    rewrite trace_bind, outcome_bind.
    destruct (save_output w (u "💾 Output saved to: ") output_path
                (json_dumps w (if pretty then Some 2%nat else None) structure))
      as [tsave [e | []]]; cbn [trace outcome fst snd];
      rewrite <- !app_assoc; reflexivity.
Qed.

End AfterLogin.

Lemma connect_failure_outcome (w : World) (self : SalesforceClient.t) (e : exn) :
  Salesforce w (connect_request self) = inl e ->
  exists e', outcome (SalesforceClient.connect w self) = inl e'.
Proof.
  intros Hlogin. rewrite (connect_failure w self e Hlogin).
  destruct e; eexists; reflexivity.
Qed.

Lemma get_login_fails
    (w : World) (id instance : pystr) (output_path : option pystr) (pretty : bool)
    (e : exn) :
  env_file_exists w = true ->
  missing_creds w instance = [] ->
  Salesforce w (connect_request (new_client (loaded_credentials w instance))) = inl e ->
  List.filter is_network (trace (get_omniscript_structure w id instance output_path pretty))
  = [Login (connect_request (new_client (loaded_credentials w instance)))]
  /\ exists e', outcome (get_omniscript_structure w id instance output_path pretty)
                = inl e'.
Proof.
  intros Henv Hnone Hlogin.
  pose proof (load_credentials_complete w instance Hnone) as Hloaded.
  destruct (connect_failure_outcome w _ e Hlogin) as [e' He'].
  pose proof (connect_network w (new_client (loaded_credentials w instance))) as Hnet.
  unfold get_omniscript_structure, require_env_file.
  rewrite Henv, Hloaded. cbn [negb]. unfold ret, echo, emit.
  rewrite !trace_bind_value, !outcome_bind_value. cbv beta.
  rewrite trace_bind, outcome_bind, He'.
  rewrite app_nil_r, !List.filter_app, Hnet. split; [reflexivity | now exists e'].
Qed.

Lemma list_login_fails
    (w : World) (instance : pystr) (output_path : option pystr) (active_only : bool)
    (format : output_format) (e : exn) :
  env_file_exists w = true ->
  missing_creds w instance = [] ->
  Salesforce w (connect_request (new_client (loaded_credentials w instance))) = inl e ->
  List.filter is_network
    (trace (list_omniscript_processes w instance output_path active_only format))
  = [Login (connect_request (new_client (loaded_credentials w instance)))]
  /\ exists e', outcome (list_omniscript_processes w instance output_path
                           active_only format) = inl e'.
Proof.
  intros Henv Hnone Hlogin.
  pose proof (load_credentials_complete w instance Hnone) as Hloaded.
  destruct (connect_failure_outcome w _ e Hlogin) as [e' He'].
  pose proof (connect_network w (new_client (loaded_credentials w instance))) as Hnet.
  unfold list_omniscript_processes, require_env_file.
  rewrite Henv, Hloaded. cbn [negb]. unfold ret, echo, emit.
  rewrite !trace_bind_value, !outcome_bind_value. cbv beta.
  rewrite trace_bind, outcome_bind, He'.
  rewrite app_nil_r, !List.filter_app, Hnet. split; [reflexivity | now exists e'].
Qed.

Lemma get_logged_in_network
    (w : World) (id instance : pystr) (output_path : option pystr) (pretty : bool)
    (s : Session) :
  env_file_exists w = true ->
  missing_creds w instance = [] ->
  Salesforce w (connect_request (new_client (loaded_credentials w instance))) = inr s ->
  List.filter is_network (trace (get_omniscript_structure w id instance output_path pretty))
  = [ Login (connect_request (new_client (loaded_credentials w instance)));
      HttpGet (SalesforceClient.full_url s id) (SalesforceClient.workbench_headers s) 30 ].
Proof.
  intros Henv Hnone Hlogin.
  pose proof (get_connected_run w id instance s Henv Hnone Hlogin output_path pretty)
    as Hrun. cbv zeta in Hrun. rewrite Hrun. clear Hrun.
  pose proof (get_omniscript_structure_network w
                (SalesforceClient.with_sf (new_client (loaded_credentials w instance)) s)
                s id eq_refl) as Hfetch.
  pose proof (connect_greeting_no_network (new_client (loaded_credentials w instance)))
    as Hgreet.
  destruct (outcome (SalesforceClient.get_omniscript_structure w _ id))
    as [e | structure]; cbn [trace fst].
  - rewrite !List.filter_app, Hfetch, Hgreet. reflexivity.
  - pose proof (save_output_no_network w (u "💾 Output saved to: ") output_path
                  (json_dumps w (if pretty then Some 2%nat else None) structure))
      as Hsave.
    unfold silent_on in Hsave.
    rewrite !List.filter_app, Hfetch, Hgreet, Hsave.
    destruct (outcome (save_output w _ output_path _)); reflexivity.
Qed.

Lemma list_output_no_network (w : World) (output_path : option pystr)
    (format : output_format) (shown : list pydict) :
  silent_on is_network (list_output w output_path format shown).
Proof.
  unfold list_output, display_processes_table, echo. cbv zeta.
  destruct (bool_decide (shown = [])); [reflexivity |].
  apply silent_bind; [| intros _; reflexivity].
  destruct format.
  - apply silent_bind; [reflexivity | intros _].
    apply silent_bind; [reflexivity | intros _]. apply save_output_no_network.
  - apply silent_bind; [reflexivity | intros _].
    apply silent_bind; [reflexivity | intros _].
    apply silent_bind; [reflexivity | intros _]. apply save_output_no_network.
Qed.

Lemma list_logged_in_network
    (w : World) (instance : pystr) (output_path : option pystr) (active_only : bool)
    (format : output_format) (s : Session) :
  env_file_exists w = true ->
  missing_creds w instance = [] ->
  Salesforce w (connect_request (new_client (loaded_credentials w instance))) = inr s ->
  List.filter is_network
    (trace (list_omniscript_processes w instance output_path active_only format))
  = [ Login (connect_request (new_client (loaded_credentials w instance)));
      Query SalesforceClient.query ].
Proof.
  intros Henv Hnone Hlogin.
  destruct (sf_query w s SalesforceClient.query) as [e | result] eqn:Hquery.
  - pose proof (load_credentials_complete w instance Hnone) as Hloaded.
    pose proof (connect_success_run w _ s Hlogin) as Hconnect.
    pose proof (list_omniscript_processes_run w
                  (SalesforceClient.with_sf
                     (new_client (loaded_credentials w instance)) s) s eq_refl)
      as Hmethod.
    rewrite Hquery in Hmethod.
    pose proof (connect_greeting_no_network (new_client (loaded_credentials w instance)))
      as Hgreet.
    unfold list_omniscript_processes, require_env_file.
    rewrite Henv, Hloaded. cbn [negb]. unfold ret, echo, emit.
    rewrite !trace_bind_value. cbv beta. rewrite Hconnect.
    rewrite !trace_bind_value. cbv beta. rewrite trace_bind, Hmethod.
    destruct e; cbn [is_SalesforceError is_Exception trace outcome fst snd];
      rewrite !List.filter_app; cbn [List.filter is_network app];
      rewrite Hgreet; reflexivity.
  - rewrite (list_run w instance output_path active_only format s result
               Henv Hnone Hlogin Hquery).
    cbn [trace fst]. rewrite List.filter_app.
    destruct (list_preamble_quiet w instance active_only (records result))
      as (_ & _ & _ & ->).
    pose proof (list_output_no_network w output_path format
                  (shown_processes active_only (records result))) as Hout.
    unfold silent_on in Hout. now rewrite Hout.
Qed.

(** X10: no call is ever repeated or made out of turn.  Whatever the
    surroundings answer, the network calls of [get] are none (no [.env]
    file, or a credential missing), the one login (it failed), or the login
    followed by the one Discovery Framework GET; those of [list] are none,
    the login, or the login followed by the one query. *)
Theorem commands_call_once
    (w : World) (id instance : pystr) (output_path : option pystr)
    (pretty active_only : bool) (format : output_format) :
  let login := connect_request (new_client (loaded_credentials w instance)) in
  let ready := env_file_exists w && bool_decide (missing_creds w instance = []) in
  List.filter is_network (trace (get_omniscript_structure w id instance output_path pretty))
  = (if ready then
       match Salesforce w login with
       | inl _ => [Login login]
       | inr s => [ Login login;
                    HttpGet (SalesforceClient.full_url s id)
                      (SalesforceClient.workbench_headers s) 30 ]
       end
     else [])
  /\ List.filter is_network
       (trace (list_omniscript_processes w instance output_path active_only format))
     = (if ready then
          match Salesforce w login with
          | inl _ => [Login login]
          | inr s => [Login login; Query SalesforceClient.query]
          end
        else []).
Proof.
  cbv zeta. destruct (env_file_exists w) eqn:Henv; cbn [andb].
  - destruct (decide (missing_creds w instance = [])) as [Hnone | Hmissing].
    + rewrite bool_decide_eq_true_2 by exact Hnone.
      destruct (Salesforce w _) as [e | s] eqn:Hlogin; split.
      * eapply get_login_fails; eassumption.
      * eapply list_login_fails; eassumption.
      * now apply get_logged_in_network.
      * now apply (list_logged_in_network w instance output_path active_only format s).
    + rewrite bool_decide_eq_false_2 by exact Hmissing. split.
      * now apply get_stops_without_credentials.
      * now apply list_stops_without_credentials.
  - split.
    + unfold get_omniscript_structure, require_env_file. rewrite Henv. reflexivity.
    + unfold list_omniscript_processes, require_env_file. rewrite Henv. reflexivity.
Qed.

(** ** Exit status *)

Lemma save_output_outcome (w : World) (saved : pystr) (output_path : option pystr)
    (content : pystr) :
  outcome (save_output w saved output_path content) = inr tt
  <-> saved_ok w output_path content.
Proof.
  unfold save_output, saved_ok. destruct output_path as [path |]; [| easy].
  destruct (decide (path = [])) as [-> | Hpath].
  - rewrite bool_decide_eq_true_2 by reflexivity. split; [now left | reflexivity].
  - rewrite bool_decide_eq_false_2 by exact Hpath.
    unfold bind, emit, answer, echo, try_except.
    destruct (fs_write w path content) as [e | []]; cbn.
    + split; [destruct e; cbn; discriminate | intros [? | ?]; easy].
    + split; [now right | reflexivity].
Qed.

Lemma get_method_returns (w : World) (self : SalesforceClient.t) (s : Session)
    (id : pystr) (v : pyval) :
  SalesforceClient.sf self = Some s ->
  outcome (SalesforceClient.get_omniscript_structure w self id) = inr v
  <-> exists r,
        requests_get w (SalesforceClient.full_url s id)
          (SalesforceClient.workbench_headers s) 30 = inr r
        /\ status_code r = 200%Z
        /\ json r = inr v.
Proof.
  intros Hsf. rewrite (get_omniscript_structure_connected w _ _ _ Hsf).
  rewrite get_omniscript_structure_body_run.
  destruct (requests_get w _ _ 30) as [e | r].
  - split; [destruct e; cbn; discriminate | intros (r & Habs & _); discriminate Habs].
  - destruct (Z.eqb_spec (status_code r) 200) as [H200 | Hnot].
    + destruct (json r) as [e | v'] eqn:Hjson.
      * split; [destruct e; cbn; discriminate |].
        intros (r' & [= <-] & _ & Habs). rewrite Hjson in Habs. discriminate Habs.
      * cbn. split.
        -- intros [= ->]. now exists r.
        -- intros (r' & [= <-] & _ & Hv). rewrite Hjson in Hv. exact Hv.
    + split; [cbn; discriminate |].
      intros (r' & [= <-] & Habs & _). contradiction.
Qed.

(** X11: the [get] command ends normally (exit status 0) exactly when
    everything it needs went through: the [.env] file exists, no credential
    is missing, the login succeeded, the Discovery Framework GET answered 200
    with a body that parses, and the file, when one was asked for, was
    written.  In every other case it ends with an exception in flight. *)
Theorem get_exit_status
    (w : World) (id instance : pystr) (output_path : option pystr) (pretty : bool) :
  outcome (get_omniscript_structure w id instance output_path pretty) = inr tt
  <-> env_file_exists w = true
      /\ missing_creds w instance = []
      /\ exists s r structure,
           Salesforce w (connect_request (new_client (loaded_credentials w instance)))
             = inr s
           /\ requests_get w (SalesforceClient.full_url s id)
                (SalesforceClient.workbench_headers s) 30 = inr r
           /\ status_code r = 200%Z
           /\ json r = inr structure
           /\ saved_ok w output_path
                (json_dumps w (if pretty then Some 2%nat else None) structure).
Proof.
  split.
  - intros Hok.
    destruct (env_file_exists w) eqn:Henv.
    2: { unfold get_omniscript_structure, require_env_file in Hok.
         rewrite Henv in Hok. discriminate Hok. }
    destruct (decide (missing_creds w instance = [])) as [Hnone | Hmissing].
    2: { destruct (get_stops_without_credentials w id instance output_path pretty
                     Hmissing) as [Habs _].
         rewrite Habs in Hok. discriminate Hok. }
    destruct (Salesforce w (connect_request (new_client (loaded_credentials w instance))))
      as [e | s] eqn:Hlogin.
    { destruct (get_login_fails w id instance output_path pretty e Henv Hnone Hlogin)
        as [_ [e' Habs]].
      rewrite Habs in Hok. discriminate Hok. }
    pose proof (get_connected_run w id instance s Henv Hnone Hlogin output_path pretty)
      as Hrun. cbv zeta in Hrun. rewrite Hrun in Hok. clear Hrun.
    destruct (outcome (SalesforceClient.get_omniscript_structure w _ id))
      as [e | structure] eqn:Hfetch; [discriminate Hok |].
    apply (get_method_returns w
             (SalesforceClient.with_sf (new_client (loaded_credentials w instance)) s)
             s id structure eq_refl) in Hfetch.
    destruct Hfetch as (r & Hget & H200 & Hjson).
    cbn [outcome snd] in Hok.
    destruct (outcome (save_output w _ output_path _)) as [e | []] eqn:Hsave;
      [discriminate Hok |].
    apply save_output_outcome in Hsave.
    split; [reflexivity |]. split; [exact Hnone |].
    exists s, r, structure. auto.
  - intros (Henv & Hnone & s & r & structure & Hlogin & Hget & H200 & Hjson & Hsaved).
    pose proof (get_connected_run w id instance s Henv Hnone Hlogin output_path pretty)
      as Hrun. cbv zeta in Hrun. rewrite Hrun. clear Hrun.
    assert (Hfetch : outcome (SalesforceClient.get_omniscript_structure w
                                (SalesforceClient.with_sf
                                   (new_client (loaded_credentials w instance)) s) id)
                     = inr structure).
    { apply (get_method_returns w
               (SalesforceClient.with_sf (new_client (loaded_credentials w instance)) s)
               s id structure eq_refl).
      now exists r. }
    rewrite Hfetch. cbn [outcome snd].
    apply (save_output_outcome w (u "💾 Output saved to: ")) in Hsaved.
    now rewrite Hsaved.
Qed.

Example get_exits_normally :
  outcome (get_omniscript_structure
             (Scenario.world Scenario.environ_complete (inr Scenario.session)
                (inr Scenario.ok_structure) (inr []))
             (u "a0X") (u "DEFAULT") (Some (u "out.json")) false) = inr tt.
Proof. vm_compute. reflexivity. Qed.

Lemma list_output_outcome (w : World) (output_path : option pystr)
    (format : output_format) (shown : list pydict) :
  outcome (list_output w output_path format shown) = inr tt
  <-> shown = [] \/ saved_ok w output_path (list_content w format shown).
Proof.
  unfold list_output, list_content, display_processes_table, echo, emit. cbv zeta.
  destruct (decide (shown = [])) as [-> | Hshown].
  - rewrite bool_decide_eq_true_2 by reflexivity. split; [now left | reflexivity].
  - rewrite bool_decide_eq_false_2 by exact Hshown.
    destruct format; rewrite !outcome_bind; cbn [outcome snd].
    + rewrite <- (save_output_outcome w (u "💾 Table output saved to: ")).
      destruct (outcome (save_output w _ output_path _)) as [e | []].
      * split; [discriminate | intros [? | ?]; easy].
      * split; [now right | reflexivity].
    + rewrite <- (save_output_outcome w (u "💾 Output saved to: ")).
      destruct (outcome (save_output w _ output_path _)) as [e | []].
      * split; [discriminate | intros [? | ?]; easy].
      * split; [now right | reflexivity].
Qed.

Lemma list_query_fails
    (w : World) (instance : pystr) (output_path : option pystr) (active_only : bool)
    (format : output_format) (s : Session) (e : exn) :
  env_file_exists w = true ->
  missing_creds w instance = [] ->
  Salesforce w (connect_request (new_client (loaded_credentials w instance))) = inr s ->
  sf_query w s SalesforceClient.query = inl e ->
  exists e', outcome (list_omniscript_processes w instance output_path
                        active_only format) = inl e'.
Proof.
  intros Henv Hnone Hlogin Hquery.
  pose proof (load_credentials_complete w instance Hnone) as Hloaded.
  pose proof (connect_success_run w _ s Hlogin) as Hconnect.
  pose proof (list_omniscript_processes_run w
                (SalesforceClient.with_sf
                   (new_client (loaded_credentials w instance)) s) s eq_refl)
    as Hmethod.
  rewrite Hquery in Hmethod.
  unfold list_omniscript_processes, require_env_file.
  rewrite Henv, Hloaded. cbn [negb]. unfold ret, echo, emit.
  rewrite !outcome_bind_value. cbv beta. rewrite Hconnect.
  rewrite !outcome_bind_value. cbv beta. rewrite outcome_bind, Hmethod.
  destruct e; cbn; eexists; reflexivity.
Qed.

(** X12: the [list] command ends normally (exit status 0) exactly when the
    [.env] file exists, no credential is missing, the login and the query
    succeeded, and either no record is left to show or the file, when one
    was asked for, was written with the JSON text or the captured table. *)
Theorem list_exit_status
    (w : World) (instance : pystr) (output_path : option pystr) (active_only : bool)
    (format : output_format) :
  outcome (list_omniscript_processes w instance output_path active_only format) = inr tt
  <-> env_file_exists w = true
      /\ missing_creds w instance = []
      /\ exists s result,
           Salesforce w (connect_request (new_client (loaded_credentials w instance)))
             = inr s
           /\ sf_query w s SalesforceClient.query = inr result
           /\ (shown_processes active_only (records result) = []
               \/ saved_ok w output_path
                    (list_content w format
                       (shown_processes active_only (records result)))).
Proof.
  split.
  - intros Hok.
    destruct (env_file_exists w) eqn:Henv.
    2: { unfold list_omniscript_processes, require_env_file in Hok.
         rewrite Henv in Hok. discriminate Hok. }
    destruct (decide (missing_creds w instance = [])) as [Hnone | Hmissing].
    2: { destruct (list_stops_without_credentials w instance output_path active_only
                     format Hmissing) as [Habs _].
         rewrite Habs in Hok. discriminate Hok. }
    destruct (Salesforce w (connect_request (new_client (loaded_credentials w instance))))
      as [e | s] eqn:Hlogin.
    { destruct (list_login_fails w instance output_path active_only format e
                  Henv Hnone Hlogin) as [_ [e' Habs]].
      rewrite Habs in Hok. discriminate Hok. }
    destruct (sf_query w s SalesforceClient.query) as [e | result] eqn:Hquery.
    { destruct (list_query_fails w instance output_path active_only format s e
                  Henv Hnone Hlogin Hquery) as [e' Habs].
      rewrite Habs in Hok. discriminate Hok. }
    rewrite (list_run w instance output_path active_only format s result
               Henv Hnone Hlogin Hquery) in Hok.
    cbn [outcome snd] in Hok. apply list_output_outcome in Hok.
    split; [reflexivity |]. split; [exact Hnone |]. exists s, result. auto.
  - intros (Henv & Hnone & s & result & Hlogin & Hquery & Hshown).
    rewrite (list_run w instance output_path active_only format s result
               Henv Hnone Hlogin Hquery).
    cbn [outcome snd]. now apply list_output_outcome.
Qed.

(** ** Failures that are no API error *)

Lemma get_method_unexpected (w : World) (self : SalesforceClient.t) (s : Session)
    (id : pystr) (e : exn) :
  SalesforceClient.sf self = Some s ->
  outcome (SalesforceClient.get_omniscript_structure_body w s id) = inl e ->
  is_Exception e = true ->
  is_SalesforceError e = false ->
  SalesforceClient.get_omniscript_structure w self id
  = ( [ Echo false (u "🔍 Calling Discovery Framework API: "
                      ++ SalesforceClient.api_path id);
        HttpGet (SalesforceClient.full_url s id)
          (SalesforceClient.workbench_headers s) 30;
        Echo true (u "❌ Unexpected error: " ++ exn_str e) ],
      inl (SystemExit 1) ).
Proof.
  intros Hsf Hbody Hexc Hsf_err.
  rewrite (get_omniscript_structure_connected w _ _ _ Hsf).
  rewrite get_omniscript_structure_body_run in Hbody |- *.
  cbn [outcome snd] in Hbody. rewrite Hbody.
  unfold try_except, SalesforceClient.api_handlers. rewrite Hsf_err, Hexc. reflexivity.
Qed.

Lemma terminal_at_end {A} (before : list event) (message : pystr) (net : list event) :
  List.filter is_network before = net ->
  terminal (A := A) (before ++ [Echo true message], inl (SystemExit 1)) message net.
Proof. intros <-. apply terminal_intro. reflexivity. Qed.

Section FailuresAfterLogin.

Variable w : World.
Variables id instance : pystr.
Variable s : Session.

Hypothesis env_found : env_file_exists w = true.
Hypothesis complete : missing_creds w instance = [].
Hypothesis logged_in :
  Salesforce w (connect_request (new_client (loaded_credentials w instance))) = inr s.

Lemma get_unexpected_terminal (output_path : option pystr) (pretty : bool) (e : exn) :
  outcome (SalesforceClient.get_omniscript_structure_body w s id) = inl e ->
  is_Exception e = true ->
  is_SalesforceError e = false ->
  terminal (get_omniscript_structure w id instance output_path pretty)
    (u "❌ Unexpected error: " ++ exn_str e)
    [ Login (connect_request (new_client (loaded_credentials w instance)));
      HttpGet (SalesforceClient.full_url s id) (SalesforceClient.workbench_headers s) 30 ].
Proof.
  intros Hbody Hexc Herr.
  pose proof (get_connected_run w id instance s env_found complete logged_in
                output_path pretty) as Hrun.
  cbv zeta in Hrun. rewrite Hrun. clear Hrun.
  rewrite (get_method_unexpected w
             (SalesforceClient.with_sf (new_client (loaded_credentials w instance)) s)
             s id e eq_refl Hbody Hexc Herr).
  cbn [trace outcome fst snd].
  change [ Echo false (u "🔍 Calling Discovery Framework API: "
                         ++ SalesforceClient.api_path id);
           HttpGet (SalesforceClient.full_url s id)
             (SalesforceClient.workbench_headers s) 30;
           Echo true (u "❌ Unexpected error: " ++ exn_str e) ]
    with ([ Echo false (u "🔍 Calling Discovery Framework API: "
                          ++ SalesforceClient.api_path id);
            HttpGet (SalesforceClient.full_url s id)
              (SalesforceClient.workbench_headers s) 30 ]
          ++ [Echo true (u "❌ Unexpected error: " ++ exn_str e)]).
  rewrite app_assoc. apply terminal_at_end.
  rewrite !List.filter_app, connect_greeting_no_network. reflexivity.
Qed.

Lemma list_unexpected_terminal (output_path : option pystr) (active_only : bool)
    (format : output_format) (e : exn) :
  sf_query w s SalesforceClient.query = inl e ->
  is_Exception e = true ->
  is_SalesforceError e = false ->
  terminal (list_omniscript_processes w instance output_path active_only format)
    (u "❌ Unexpected error: " ++ exn_str e)
    [ Login (connect_request (new_client (loaded_credentials w instance)));
      Query SalesforceClient.query ].
Proof.
  intros Hquery Hexc Herr.
  pose proof (load_credentials_complete w instance complete) as Hloaded.
  pose proof (connect_success_run w _ s logged_in) as Hconnect.
  pose proof (list_omniscript_processes_run w
                (SalesforceClient.with_sf
                   (new_client (loaded_credentials w instance)) s) s eq_refl)
    as Hmethod.
  rewrite Hquery, Herr, Hexc in Hmethod.
  unfold list_omniscript_processes, require_env_file.
  rewrite env_found, Hloaded. cbn [negb]. unfold ret, echo, emit.
  eapply terminal_after_net; [| reflexivity].
  eapply terminal_after_net; [| reflexivity].
  eapply terminal_after_net; [| reflexivity].
  cbv beta. rewrite Hconnect.
  eapply terminal_after_net;
    [| cbn [List.filter is_network app];
       rewrite connect_greeting_no_network; reflexivity].
  eapply terminal_after_net; [| reflexivity].
  apply terminal_first. rewrite Hmethod.
  apply (terminal_at_end [Query SalesforceClient.query]). reflexivity.
Qed.

Lemma get_write_failure_terminal (path : pystr) (pretty : bool) (r : Response)
    (structure : pyval) (e : exn) :
  requests_get w (SalesforceClient.full_url s id)
    (SalesforceClient.workbench_headers s) 30 = inr r ->
  status_code r = 200%Z ->
  json r = inr structure ->
  path <> [] ->
  fs_write w path (json_dumps w (if pretty then Some 2%nat else None) structure)
    = inl e ->
  is_Exception e = true ->
  terminal (get_omniscript_structure w id instance (Some path) pretty)
    (nl ++ u "❌ Failed to write output file: " ++ exn_str e)
    [ Login (connect_request (new_client (loaded_credentials w instance)));
      HttpGet (SalesforceClient.full_url s id) (SalesforceClient.workbench_headers s) 30 ]
  /\ In (Echo false (json_dumps w (if pretty then Some 2%nat else None) structure))
        (trace (get_omniscript_structure w id instance (Some path) pretty)).
Proof.
  intros Hget H200 Hjson Hpath Hwrite Hexc.
  pose proof (get_connected_run w id instance s env_found complete logged_in
                (Some path) pretty) as Hrun.
  cbv zeta in Hrun. rewrite Hrun. clear Hrun.
  assert (Hfetch :
            SalesforceClient.get_omniscript_structure w
              (SalesforceClient.with_sf (new_client (loaded_credentials w instance)) s) id
            = ( [ Echo false (u "🔍 Calling Discovery Framework API: "
                                ++ SalesforceClient.api_path id);
                  HttpGet (SalesforceClient.full_url s id)
                    (SalesforceClient.workbench_headers s) 30 ],
                inr structure )).
  { rewrite (get_omniscript_structure_connected w
               (SalesforceClient.with_sf (new_client (loaded_credentials w instance)) s)
               s id eq_refl).
    rewrite get_omniscript_structure_body_run, Hget, H200, Hjson. reflexivity. }
  rewrite Hfetch. cbn [trace outcome fst snd].
  rewrite (save_output_failure w _ path _ e Hpath Hwrite Hexc).
  cbn [trace outcome fst snd]. split.
  - rewrite app_nil_r.
    change [ WriteFile path (json_dumps w (if pretty then Some 2%nat else None) structure);
             Echo true (nl ++ u "❌ Failed to write output file: " ++ exn_str e) ]
      with ([ WriteFile path
                (json_dumps w (if pretty then Some 2%nat else None) structure) ]
            ++ [Echo true (nl ++ u "❌ Failed to write output file: " ++ exn_str e)]).
    rewrite !app_assoc. apply terminal_at_end.
    rewrite !List.filter_app, connect_greeting_no_network. reflexivity.
  - rewrite !in_app_iff. cbn [In]. auto 10.
Qed.

Lemma list_write_failure_terminal (path : pystr) (active_only : bool)
    (format : output_format) (result : QueryResult) (e : exn) :
  sf_query w s SalesforceClient.query = inr result ->
  shown_processes active_only (records result) <> [] ->
  path <> [] ->
  fs_write w path
    (list_content w format (shown_processes active_only (records result))) = inl e ->
  is_Exception e = true ->
  terminal (list_omniscript_processes w instance (Some path) active_only format)
    (nl ++ u "❌ Failed to write output file: " ++ exn_str e)
    [ Login (connect_request (new_client (loaded_credentials w instance)));
      Query SalesforceClient.query ].
Proof.
  intros Hquery Hshown Hpath Hwrite Hexc.
  rewrite (list_run w instance (Some path) active_only format s result
             env_found complete logged_in Hquery).
  destruct (list_preamble_quiet w instance active_only (records result))
    as (_ & _ & _ & Hnet).
  rewrite <- Hnet, <- (app_nil_r (List.filter is_network (list_preamble _ _ _ _))).
  apply terminal_prefix.
  unfold list_output, list_content, display_processes_table in *.
  rewrite bool_decide_eq_false_2 by exact Hshown. cbv zeta.
  apply terminal_first. unfold echo, emit.
  destruct format.
  - rewrite !bind_pairs. cbn [trace outcome fst snd].
    rewrite (save_output_failure w _ path _ e Hpath Hwrite Hexc).
    cbn [trace outcome fst snd app].
    split; [reflexivity |]. eexists [_; _; _], []. repeat split; reflexivity.
  - rewrite !bind_pairs. cbn [trace outcome fst snd].
    rewrite (save_output_failure w _ path _ e Hpath Hwrite Hexc).
    cbn [trace outcome fst snd app].
    split; [reflexivity |]. eexists [_; _; _; _], []. repeat split; reflexivity.
Qed.

End FailuresAfterLogin.

(** X13: after a successful login, a failure that is no [SalesforceError]
    ends the command as well: when the Discovery Framework GET itself raises
    (timeout, DNS, TLS) or its 200 answer has a body that does not parse,
    [get] reports "Unexpected error" with the exception's text on stderr and
    exits with status 1; so does [list] when the query raises.  The failing
    call was made once and nothing follows the report. *)
Theorem unexpected_errors_end_the_command
    (w : World) (id instance : pystr) (output_path : option pystr)
    (pretty active_only : bool) (format : output_format) (s : Session) :
  env_file_exists w = true ->
  missing_creds w instance = [] ->
  Salesforce w (connect_request (new_client (loaded_credentials w instance))) = inr s ->
  let login := Login (connect_request (new_client (loaded_credentials w instance))) in
  let fetch := HttpGet (SalesforceClient.full_url s id)
                 (SalesforceClient.workbench_headers s) 30 in
  (forall e,
      requests_get w (SalesforceClient.full_url s id)
        (SalesforceClient.workbench_headers s) 30 = inl e ->
      is_Exception e = true ->
      is_SalesforceError e = false ->
      terminal (get_omniscript_structure w id instance output_path pretty)
        (u "❌ Unexpected error: " ++ exn_str e) [login; fetch])
  /\ (forall r e,
        requests_get w (SalesforceClient.full_url s id)
          (SalesforceClient.workbench_headers s) 30 = inr r ->
        status_code r = 200%Z ->
        json r = inl e ->
        is_Exception e = true ->
        is_SalesforceError e = false ->
        terminal (get_omniscript_structure w id instance output_path pretty)
          (u "❌ Unexpected error: " ++ exn_str e) [login; fetch])
  /\ (forall e,
        sf_query w s SalesforceClient.query = inl e ->
        is_Exception e = true ->
        is_SalesforceError e = false ->
        terminal (list_omniscript_processes w instance output_path active_only format)
          (u "❌ Unexpected error: " ++ exn_str e)
          [login; Query SalesforceClient.query]).
Proof.
  intros Henv Hnone Hlogin. cbv zeta. split; [| split].
  - intros e Hget Hexc Herr.
    apply (get_unexpected_terminal w id instance s Henv Hnone Hlogin _ _ e);
      [| assumption | assumption].
    rewrite get_omniscript_structure_body_run, Hget. reflexivity.
  - intros r e Hget H200 Hjson Hexc Herr.
    apply (get_unexpected_terminal w id instance s Henv Hnone Hlogin _ _ e);
      [| assumption | assumption].
    rewrite get_omniscript_structure_body_run, Hget, H200, Hjson. reflexivity.
  - intros e Hquery Hexc Herr.
    now apply (list_unexpected_terminal w instance s Henv Hnone Hlogin).
Qed.

Lemma unexpected_errors_end_the_command_witness :
  let w := Scenario.world Scenario.environ_complete (inr Scenario.session)
             (inl (OtherException (u "Read timed out. (read timeout=30)")))
             (inl (OtherException (u "Connection aborted."))) in
  let login := Login (connect_request (new_client (loaded_credentials w (u "DEFAULT")))) in
  terminal (get_omniscript_structure w (u "a0X") (u "DEFAULT") None true)
    (u "❌ Unexpected error: " ++ u "Read timed out. (read timeout=30)")
    [ login;
      HttpGet (SalesforceClient.full_url Scenario.session (u "a0X"))
        (SalesforceClient.workbench_headers Scenario.session) 30 ]
  /\ terminal (list_omniscript_processes w (u "DEFAULT") None false FormatTable)
       (u "❌ Unexpected error: " ++ u "Connection aborted.")
       [login; Query SalesforceClient.query].
Proof.
  cbv zeta.
  destruct (unexpected_errors_end_the_command
              (Scenario.world Scenario.environ_complete (inr Scenario.session)
                 (inl (OtherException (u "Read timed out. (read timeout=30)")))
                 (inl (OtherException (u "Connection aborted."))))
              (u "a0X") (u "DEFAULT") None true false FormatTable Scenario.session
              eq_refl ltac:(vm_compute; reflexivity) eq_refl)
    as (Hget & _ & Hlist).
  split.
  - apply (Hget (OtherException (u "Read timed out. (read timeout=30)")));
      reflexivity.
  - apply (Hlist (OtherException (u "Connection aborted."))); reflexivity.
Defined.

Lemma get_output_file_content
    (w : World) (id instance path : pystr) (pretty : bool) (s : Session)
    (r : Response) (structure : pyval) :
  env_file_exists w = true ->
  missing_creds w instance = [] ->
  Salesforce w (connect_request (new_client (loaded_credentials w instance))) = inr s ->
  requests_get w (SalesforceClient.full_url s id)
    (SalesforceClient.workbench_headers s) 30 = inr r ->
  status_code r = 200%Z ->
  json r = inr structure ->
  path <> [] ->
  List.filter is_write (trace (get_omniscript_structure w id instance (Some path) pretty))
  = [WriteFile path (json_dumps w (if pretty then Some 2%nat else None) structure)].
Proof.
  intros Henv Hnone Hlogin Hget H200 Hjson Hpath.
  pose proof (get_connected_run w id instance s Henv Hnone Hlogin (Some path) pretty)
    as Hrun.
  cbv zeta in Hrun. rewrite Hrun. clear Hrun.
  pose proof (get_method_never_writes w
                (SalesforceClient.with_sf (new_client (loaded_credentials w instance)) s)
                id) as Hquiet.
  unfold silent_on in Hquiet.
  assert (Hfetch : outcome (SalesforceClient.get_omniscript_structure w
                              (SalesforceClient.with_sf
                                 (new_client (loaded_credentials w instance)) s) id)
                   = inr structure).
  { apply (get_method_returns w
             (SalesforceClient.with_sf (new_client (loaded_credentials w instance)) s)
             s id structure eq_refl).
    now exists r. }
  rewrite Hfetch. cbn [trace fst].
  assert (Hgreet : List.filter is_write
                     (connect_greeting (new_client (loaded_credentials w instance))) = []).
  { unfold connect_greeting. destruct (contains _ _); reflexivity. }
  rewrite !List.filter_app, Hquiet, Hgreet, save_output_written.
  unfold written. rewrite bool_decide_eq_false_2 by exact Hpath.
  destruct (outcome (save_output w _ (Some path) _)); reflexivity.
Qed.

(** X14: when the output file cannot be written (the write raises an
    [Exception]), [get] and [list] report "Failed to write output file" with
    the exception's text on stderr and exit with status 1, although the data
    was fetched; the write was attempted once, and [get] had already printed
    the JSON text on the console. *)
Theorem write_failure_ends_the_command
    (w : World) (id instance path : pystr) (pretty active_only : bool)
    (format : output_format) (s : Session) (e : exn) :
  env_file_exists w = true ->
  missing_creds w instance = [] ->
  Salesforce w (connect_request (new_client (loaded_credentials w instance))) = inr s ->
  path <> [] ->
  is_Exception e = true ->
  let login := Login (connect_request (new_client (loaded_credentials w instance))) in
  let message := nl ++ u "❌ Failed to write output file: " ++ exn_str e in
  (forall r structure,
      requests_get w (SalesforceClient.full_url s id)
        (SalesforceClient.workbench_headers s) 30 = inr r ->
      status_code r = 200%Z ->
      json r = inr structure ->
      let json_output := json_dumps w (if pretty then Some 2%nat else None) structure in
      fs_write w path json_output = inl e ->
      terminal (get_omniscript_structure w id instance (Some path) pretty) message
        [ login;
          HttpGet (SalesforceClient.full_url s id)
            (SalesforceClient.workbench_headers s) 30 ]
      /\ In (Echo false json_output)
            (trace (get_omniscript_structure w id instance (Some path) pretty))
      /\ List.filter is_write
           (trace (get_omniscript_structure w id instance (Some path) pretty))
         = [WriteFile path json_output])
  /\ (forall result,
        sf_query w s SalesforceClient.query = inr result ->
        let shown := shown_processes active_only (records result) in
        shown <> [] ->
        fs_write w path (list_content w format shown) = inl e ->
        terminal (list_omniscript_processes w instance (Some path) active_only format)
          message [login; Query SalesforceClient.query]).
Proof.
  intros Henv Hnone Hlogin Hpath Hexc. cbv zeta. split.
  - intros r structure Hget H200 Hjson Hwrite.
    destruct (get_write_failure_terminal w id instance s Henv Hnone Hlogin
                path pretty r structure e Hget H200 Hjson Hpath Hwrite Hexc)
      as [Hterminal Hprinted].
    split; [exact Hterminal |]. split; [exact Hprinted |].
    apply (get_output_file_content w id instance path pretty s r structure);
      assumption.
  - intros result Hquery Hshown Hwrite.
    now apply (list_write_failure_terminal w instance s Henv Hnone Hlogin
                 path active_only format result e).
Qed.

Lemma write_failure_ends_the_command_witness :
  let w := Scenario.with_failing_disk
             (Scenario.world Scenario.environ_complete (inr Scenario.session)
                (inr Scenario.ok_structure) (inr []))
             (OtherException (u "[Errno 13] Permission denied: 'out.json'")) in
  terminal (get_omniscript_structure w (u "a0X") (u "DEFAULT") (Some (u "out.json")) true)
    (nl ++ u "❌ Failed to write output file: "
        ++ u "[Errno 13] Permission denied: 'out.json'")
    [ Login (connect_request (new_client (loaded_credentials w (u "DEFAULT"))));
      HttpGet (SalesforceClient.full_url Scenario.session (u "a0X"))
        (SalesforceClient.workbench_headers Scenario.session) 30 ].
Proof.
  cbv zeta.
  destruct (write_failure_ends_the_command
              (Scenario.with_failing_disk
                 (Scenario.world Scenario.environ_complete (inr Scenario.session)
                    (inr Scenario.ok_structure) (inr []))
                 (OtherException (u "[Errno 13] Permission denied: 'out.json'")))
              (u "a0X") (u "DEFAULT") (u "out.json") true false FormatJson
              Scenario.session
              (OtherException (u "[Errno 13] Permission denied: 'out.json'"))
              eq_refl ltac:(vm_compute; reflexivity) eq_refl
              ltac:(vm_compute; discriminate) eq_refl)
    as [Hget _].
  destruct (Hget Scenario.ok_structure Scenario.structure eq_refl eq_refl eq_refl eq_refl)
    as [Hterminal _].
  exact Hterminal.
Defined.

(** ** The order of the debug attempts *)

Lemma try_approach_one_call (w : World) (s : Session) (i : Z) (a : approach) :
  List.filter is_network (trace (try_approach w (Some s) i a))
  = [Restful (approach_url a) (u "GET")].
Proof.
  unfold try_approach, response_attribute, bind, echo, emit, answer,
    attribute_of, try_except, ret.
  destruct (sf_restful w s (approach_url a) (u "GET")) as [e | r];
    [destruct e |]; reflexivity.
Qed.

Lemma try_variation_one_call (w : World) (url : pystr) (i : Z) (v : variation) :
  List.filter is_network (trace (try_variation w url i v))
  = [HttpGet url (variation_headers v) 30].
Proof.
  unfold try_variation, bind, echo, emit, answer, try_except, ret.
  destruct (requests_get w url (variation_headers v) 30) as [e | r];
    [destruct e; reflexivity |].
  destruct (status_code r =? 200)%Z; [| reflexivity].
  destruct (json r) as [e | body]; [destruct e; reflexivity |].
  destruct body; reflexivity.
Qed.

(** Turns that make one call each, taken by [first_success]: the calls are
    those of a non-empty prefix of the list, in order; when the loop falls
    through, of the whole list. *)
Lemma first_success_in_order {X} (turn : Z -> X -> M bool) (call : X -> event)
    (l : list X) (i : Z) :
  (forall i x, List.filter is_network (trace (turn i x)) = [call x]) ->
  exists n,
    (n <= length l)%nat
    /\ List.filter is_network (trace (first_success turn i l)) = map call (take n l)
    /\ (l <> [] -> (0 < n)%nat)
    /\ (outcome (first_success turn i l) = inr false -> n = length l).
Proof.
  intros Hone. revert i. induction l as [| x rest IH]; intros i.
  - exists 0%nat. cbn. repeat split; [lia | congruence].
  - cbn [first_success]. rewrite trace_bind, outcome_bind, List.filter_app, Hone.
    destruct (outcome (turn i x)) as [e | [|]].
    + exists 1%nat. cbn. repeat split; [lia | lia | discriminate].
    + exists 1%nat. cbn. repeat split; [lia | lia | discriminate].
    + destruct (IH (i + 1)%Z) as (n & Hle & Hnet & _ & Hall).
      exists (S n). cbn [length take map app]. rewrite Hnet.
      repeat split; [lia | lia |]. intros Hfalse. now rewrite (Hall Hfalse).
Qed.

Lemma approaches_length (id : pystr) : length (approaches id) = 4%nat.
Proof. reflexivity. Qed.

Lemma headers_variations_length (s : Session) : length (headers_variations s) = 3%nat.
Proof. reflexivity. Qed.

Lemma try_raw_requests_network (w : World) (self : SalesforceClient.t) (s : Session)
    (id : pystr) :
  SalesforceClient.sf self = Some s ->
  exists m,
    (m <= 3)%nat
    /\ List.filter is_network (trace (try_raw_requests w self id))
       = map (fun v => HttpGet (raw_url s id) (variation_headers v) 30)
           (take m (headers_variations s)).
Proof.
  intros Hsf. unfold try_raw_requests. rewrite Hsf. cbn [attribute_of].
  unfold answer. rewrite trace_bind_value. cbv beta zeta. fold (raw_url s id).
  rewrite trace_bind, try_variations_first_success.
  destruct (first_success_in_order (try_variation w (raw_url s id))
              (fun v => HttpGet (raw_url s id) (variation_headers v) 30)
              (headers_variations s) 1 (try_variation_one_call w (raw_url s id)))
    as (m & Hle & Hnet & _).
  exists m. rewrite headers_variations_length in Hle. split; [exact Hle |].
  cbn [app]. rewrite List.filter_app, Hnet.
  destruct (outcome (first_success _ _ _)) as [e | [|]]; cbn; now rewrite app_nil_r.
Qed.

(** X15: once logged in, the [debug] command makes its attempts in the
    listed order and never twice, whatever the server answers: first the URL
    variants, one [restful] GET each, at least the first and at most the
    four; then, only under [--raw-request] and only after all four URL
    variants have been tried, the header variants, one GET each to the one
    Discovery Framework URL, at most the three. *)
Theorem debug_attempts_in_order
    (w : World) (id instance : pystr) (raw_request : bool) (s : Session) :
  env_file_exists w = true ->
  missing_creds w instance = [] ->
  Salesforce w (connect_request (new_client (loaded_credentials w instance))) = inr s ->
  exists n m,
    List.filter is_network (trace (debug_api_call w id instance raw_request))
    = Login (connect_request (new_client (loaded_credentials w instance)))
        :: map (fun a => Restful (approach_url a) (u "GET")) (take n (approaches id))
        ++ map (fun v => HttpGet (raw_url s id) (variation_headers v) 30)
             (take m (headers_variations s))
    /\ (1 <= n <= 4)%nat
    /\ (m <= 3)%nat
    /\ (raw_request = false -> m = 0%nat)
    /\ ((0 < m)%nat -> n = 4%nat).
Proof.
  intros Henv Hnone Hlogin.
  pose proof (load_credentials_complete w instance Hnone) as Hloaded.
  pose proof (connect_success_run w _ s Hlogin) as Hconnect.
  pose proof (connect_greeting_no_network (new_client (loaded_credentials w instance)))
    as Hgreet.
  destruct (first_success_in_order (try_approach w (Some s))
              (fun a => Restful (approach_url a) (u "GET"))
              (approaches id) 1 (try_approach_one_call w s))
    as (n & Hle & Hnet & Hpos & Hall).
  rewrite approaches_length in Hle, Hall.
  assert (Hn : (1 <= n <= 4)%nat).
  { split; [| exact Hle]. apply Hpos. discriminate. }
  destruct (try_raw_requests_network w
              (SalesforceClient.with_sf (new_client (loaded_credentials w instance)) s)
              s id eq_refl) as (m & Hm & Hraw).
  unfold debug_api_call.
  rewrite Henv, Hloaded. cbn [negb]. unfold ret, echo, emit.
  rewrite !trace_bind_value. cbv beta. rewrite Hconnect.
  rewrite !trace_bind_value. cbv beta.
  cbn [SalesforceClient.sf SalesforceClient.with_sf].
  rewrite trace_bind, try_approaches_first_success.
  rewrite !List.filter_app, Hnet. cbn [List.filter is_network app].
  rewrite Hgreet. cbn [app].
  destruct (outcome (first_success (try_approach w (Some s)) 1 (approaches id)))
    as [e | [|]] eqn:Hout.
  - exists n, 0%nat. cbn. rewrite !app_nil_r. repeat split; lia.
  - exists n, 0%nat. cbn. rewrite !app_nil_r. repeat split; lia.
  - rewrite (Hall eq_refl) in *.
    rewrite !trace_bind_value. cbv beta. rewrite trace_bind.
    destruct raw_request.
    + exists 4%nat, m. rewrite trace_bind_value, !List.filter_app, Hraw.
      cbn [List.filter is_network app].
      destruct (outcome (bind _ _)) as [e | []]; cbn [trace fst List.filter];
        rewrite ?app_nil_r; repeat split; first [lia | discriminate | reflexivity].
    + exists 4%nat, 0%nat. cbn. repeat split; lia.
Qed.

Lemma debug_attempts_in_order_witness :
  exists n m,
    List.filter is_network
      (trace (debug_api_call Scenario.percent_only (u "a0X") (u "DEFAULT") true))
    = Login (connect_request
               (new_client (loaded_credentials Scenario.percent_only (u "DEFAULT"))))
        :: map (fun a => Restful (approach_url a) (u "GET"))
             (take n (approaches (u "a0X")))
        ++ map (fun v => HttpGet (raw_url Scenario.session (u "a0X"))
                           (variation_headers v) 30)
             (take m (headers_variations Scenario.session))
    /\ (1 <= n <= 4)%nat
    /\ (m <= 3)%nat
    /\ (true = false -> m = 0%nat)
    /\ ((0 < m)%nat -> n = 4%nat).
Proof.
  apply (debug_attempts_in_order Scenario.percent_only (u "a0X") (u "DEFAULT") true
           Scenario.session).
  - reflexivity.
  - vm_compute. reflexivity.
  - reflexivity.
Defined.

(** ** The debug command never fails on an attempt *)

Lemma try_approach_outcome (w : World) (s : Session) (i : Z) (a : approach) :
  exceptions_only w ->
  exists returned, outcome (try_approach w (Some s) i a) = inr returned.
Proof.
  intros (Hcall & _).
  unfold try_approach, response_attribute, bind, echo, emit, answer,
    attribute_of, try_except, ret.
  destruct (sf_restful w s (approach_url a) (u "GET")) as [e | r] eqn:Hanswer.
  - rewrite (Hcall _ _ _ _ Hanswer). now exists false.
  - now exists false.
Qed.

Lemma try_variation_outcome (w : World) (url : pystr) (i : Z) (v : variation) :
  exceptions_only w ->
  exists returned, outcome (try_variation w url i v) = inr returned.
Proof.
  intros (_ & Hcall & Hbody).
  unfold try_variation, bind, echo, emit, answer, try_except, ret.
  destruct (requests_get w url (variation_headers v) 30) as [e | r] eqn:Hanswer.
  - rewrite (Hcall _ _ _ _ Hanswer). now exists false.
  - destruct (status_code r =? 200)%Z; [| now exists false].
    destruct (json r) as [e | body] eqn:Hjson.
    + rewrite (Hbody _ _ _ _ _ Hanswer Hjson). now exists false.
    + destruct body; cbn; eexists; reflexivity.
Qed.

Lemma first_success_outcome {X} (turn : Z -> X -> M bool) (l : list X) (i : Z) :
  (forall i x, exists returned, outcome (turn i x) = inr returned) ->
  exists returned, outcome (first_success turn i l) = inr returned.
Proof.
  intros Hturn. revert i. induction l as [| x rest IH]; intros i.
  - now exists false.
  - cbn [first_success]. rewrite outcome_bind.
    destruct (Hturn i x) as [[|] ->]; [now exists true | apply IH].
Qed.

Lemma debug_outcome_logged
    (w : World) (id instance : pystr) (raw_request : bool) (s : Session) :
  env_file_exists w = true ->
  missing_creds w instance = [] ->
  Salesforce w (connect_request (new_client (loaded_credentials w instance))) = inr s ->
  exceptions_only w ->
  outcome (debug_api_call w id instance raw_request) = inr tt.
Proof.
  intros Henv Hnone Hlogin Hexc.
  pose proof (load_credentials_complete w instance Hnone) as Hloaded.
  pose proof (connect_success_run w _ s Hlogin) as Hconnect.
  unfold debug_api_call, try_raw_requests.
  rewrite Henv, Hloaded. cbn [negb]. unfold ret, echo, emit.
  rewrite !outcome_bind_value. cbv beta. rewrite Hconnect.
  rewrite !outcome_bind_value. cbv beta.
  cbn [SalesforceClient.sf SalesforceClient.with_sf attribute_of].
  rewrite outcome_bind, try_approaches_first_success.
  destruct (first_success_outcome (try_approach w (Some s)) (approaches id) 1
              (fun i a => try_approach_outcome w s i a Hexc)) as [[|] ->];
    [reflexivity |].
  rewrite !outcome_bind_value. cbv beta. rewrite outcome_bind.
  destruct raw_request; [| reflexivity].
  rewrite outcome_bind_value. unfold answer. rewrite outcome_bind_value. cbv zeta.
  rewrite outcome_bind, try_variations_first_success.
  destruct (first_success_outcome
              (try_variation w
                 ((u "https://" ++ sf_instance s)
                    ++ u "/services/data/v62.0/connect/omniscript/" ++ id
                    ++ u "?customType=Discovery+Framework"))
              (headers_variations s) 1
              (fun i v => try_variation_outcome w _ i v Hexc)) as [[|] ->];
    reflexivity.
Qed.

(** X16: once logged in, the [debug] command ends normally (exit status 0)
    whatever the attempts meet, as long as what they raise are [Exception]s:
    a refused or failed attempt is logged and never ends the command. *)
Theorem debug_ends_normally
    (w : World) (id instance : pystr) (raw_request : bool) (s : Session) :
  env_file_exists w = true ->
  missing_creds w instance = [] ->
  Salesforce w (connect_request (new_client (loaded_credentials w instance))) = inr s ->
  exceptions_only w ->
  outcome (debug_api_call w id instance raw_request) = inr tt.
Proof. apply debug_outcome_logged. Qed.

Lemma debug_ends_normally_witness :
  outcome (debug_api_call
             (Scenario.world Scenario.environ_complete (inr Scenario.session)
                (inr Scenario.not_found) (inr []))
             (u "a0X") (u "DEFAULT") true) = inr tt.
Proof.
  apply (debug_ends_normally
           (Scenario.world Scenario.environ_complete (inr Scenario.session)
              (inr Scenario.not_found) (inr []))
           (u "a0X") (u "DEFAULT") true Scenario.session).
  - reflexivity.
  - vm_compute. reflexivity.
  - reflexivity.
  - unfold exceptions_only, Scenario.world. cbn [sf_restful requests_get].
    split; [| split].
    + intros s path method e Hanswer. vm_compute in Hanswer.
      injection Hanswer as <-. reflexivity.
    + intros; discriminate.
    + intros url hs timeout r e Hanswer Hjson. injection Hanswer as <-.
      discriminate Hjson.
Defined.

(** ** Errors and the commands *)

(** C8, as read from the specification: whenever the server refuses the
    calls of a command with an error status, so that the library raises its
    [SalesforceError], the command exits with a status other than zero.  It
    fails in [debug]: the error of each attempt is caught inside the loop
    and logged, the next attempt is made, and the command ends normally. *)
Lemma debug_survives_api_errors :
  ~ (forall (w : World) (id instance : pystr) (raw_request : bool)
            (s : Session) (e : exn),
        env_file_exists w = true ->
        missing_creds w instance = [] ->
        Salesforce w (connect_request (new_client (loaded_credentials w instance)))
          = inr s ->
        (forall path, sf_restful w s path (u "GET") = inl e) ->
        is_SalesforceError e = true ->
        exists code,
          code <> 0%Z
          /\ outcome (debug_api_call w id instance raw_request)
             = inl (SystemExit code)).
Proof.
  intros claim.
  destruct (claim
              (Scenario.world Scenario.environ_complete (inr Scenario.session)
                 (inr Scenario.not_found) (inr []))
              (u "a0X") (u "DEFAULT") false Scenario.session
              (SalesforceError (text Scenario.not_found))
              eq_refl ltac:(vm_compute; reflexivity) eq_refl
              ltac:(intros path; reflexivity) eq_refl) as (code & _ & Hout).
  vm_compute in Hout. discriminate Hout.
Qed.

(** C8 (amended): missing credentials (ConfigurationError), a refused login
    (AuthenticationError) and any other failure of the login
    (ConnectionError) end each of the [get], [list] and [debug] commands; a
    failed API call (ApiError) ends [get] (a status other than 200 for the
    Discovery Framework GET) and [list] (a [SalesforceError] of the query).
    Each time a message is put on stderr and the process exits with status
    1; the calls that reached the network before the report are the ones
    listed, each once: the failing call is not made a second time and
    nothing but output follows the report.  In [debug] the failure of an
    attempt does not end the command: with attempts that fail with
    exceptions only, it ends normally. *)
Theorem every_error_is_terminal
    (w : World) (id instance : pystr) (output_path : option pystr)
    (pretty active_only raw_request : bool) (format : output_format) :
  let get := get_omniscript_structure w id instance output_path pretty in
  let list := list_omniscript_processes w instance output_path active_only format in
  let debug := debug_api_call w id instance raw_request in
  let login := connect_request (new_client (loaded_credentials w instance)) in
  env_file_exists w = true ->
  (missing_creds w instance <> [] ->
   let message := u "❌ Missing required environment variables: "
                    ++ join (u ", ") (missing_creds w instance) in
   terminal get message [] /\ terminal list message [] /\ terminal debug message [])
  /\ (missing_creds w instance = [] ->
      (forall reason,
          Salesforce w login = inl (SalesforceAuthenticationFailed reason) ->
          let message := u "❌ Authentication failed: " ++ reason in
          terminal get message [Login login]
          /\ terminal list message [Login login]
          /\ terminal debug message [Login login])
      /\ (forall e,
            Salesforce w login = inl e ->
            is_Exception e = true ->
            is_SalesforceAuthenticationFailed e = false ->
            let message := u "❌ Connection failed: " ++ exn_str e in
            terminal get message [Login login]
            /\ terminal list message [Login login]
            /\ terminal debug message [Login login])
      /\ (forall s,
            Salesforce w login = inr s ->
            (forall r,
                requests_get w (SalesforceClient.full_url s id)
                  (SalesforceClient.workbench_headers s) 30 = inr r ->
                status_code r <> 200%Z ->
                exists message,
                  terminal get message
                    [ Login login;
                      HttpGet (SalesforceClient.full_url s id)
                        (SalesforceClient.workbench_headers s) 30 ])
            /\ (forall e,
                  sf_query w s SalesforceClient.query = inl e ->
                  is_SalesforceError e = true ->
                  terminal list (u "❌ Salesforce API error: " ++ exn_str e)
                    [Login login; Query SalesforceClient.query])
            /\ (exceptions_only w -> outcome debug = inr tt))).
Proof.
  cbv zeta. intros Henv. split.
  - intros Hmissing. split; [| split].
    + now apply missing_credentials_terminal_get.
    + now apply missing_credentials_terminal_list.
    + now apply missing_credentials_terminal_debug.
  - intros Hnone.
    pose proof (load_credentials_complete w instance Hnone) as Hloaded.
    split; [| split].
    + intros reason Hlogin. rewrite <- connect_message_refused. split; [| split].
      * apply (get_connect_terminal w id instance _ _ Henv Hloaded Hlogin eq_refl).
      * apply (list_connect_terminal w instance _ _ Henv Hloaded Hlogin eq_refl).
      * apply (debug_connect_terminal w id instance _ _ Henv Hloaded Hlogin eq_refl).
    + intros e Hlogin Hexc Hauth.
      rewrite <- (connect_message_other e Hauth). split; [| split].
      * apply (get_connect_terminal w id instance _ _ Henv Hloaded Hlogin Hexc).
      * apply (list_connect_terminal w instance _ _ Henv Hloaded Hlogin Hexc).
      * apply (debug_connect_terminal w id instance _ _ Henv Hloaded Hlogin Hexc).
    + intros s Hlogin. split; [| split].
      * intros r Hget Hnot. eexists.
        apply (get_api_terminal w id instance _ s Henv Hloaded Hlogin _ _ r Hget Hnot).
      * intros e Hquery Herr.
        apply (list_api_terminal w instance _ s Henv Hloaded Hlogin _ _ _ e Hquery Herr).
      * intros Hexc. apply (debug_outcome_logged w id instance raw_request s);
          assumption.
Qed.

(** A refused login and a 404 from the Discovery Framework endpoint, each
    ending the [get] command. *)
Lemma every_error_is_terminal_witness :
  let refused := Scenario.world Scenario.environ_complete
                   (inl (SalesforceAuthenticationFailed (u "INVALID_LOGIN")))
                   (inr Scenario.ok_structure) (inr []) in
  let missing := Scenario.world Scenario.environ_complete (inr Scenario.session)
                   (inr Scenario.not_found) (inr []) in
  let login := connect_request
                 (new_client (loaded_credentials refused (u "DEFAULT"))) in
  terminal (get_omniscript_structure refused (u "a0X") (u "DEFAULT") None true)
    (u "❌ Authentication failed: " ++ u "INVALID_LOGIN") [Login login]
  /\ exists message,
       terminal (get_omniscript_structure missing (u "a0X") (u "DEFAULT") None true)
         message
         [ Login login;
           HttpGet (SalesforceClient.full_url Scenario.session (u "a0X"))
             (SalesforceClient.workbench_headers Scenario.session) 30 ].
Proof.
  cbv zeta. split.
  - pose proof (every_error_is_terminal
                  (Scenario.world Scenario.environ_complete
                     (inl (SalesforceAuthenticationFailed (u "INVALID_LOGIN")))
                     (inr Scenario.ok_structure) (inr []))
                  (u "a0X") (u "DEFAULT") None true false false FormatTable
                  eq_refl) as [_ Hloaded].
    destruct (Hloaded ltac:(vm_compute; reflexivity)) as [Hauth _].
    destruct (Hauth (u "INVALID_LOGIN") eq_refl) as [Hget _]. exact Hget.
  - pose proof (every_error_is_terminal
                  (Scenario.world Scenario.environ_complete (inr Scenario.session)
                     (inr Scenario.not_found) (inr []))
                  (u "a0X") (u "DEFAULT") None true false false FormatTable
                  eq_refl) as [_ Hloaded].
    destruct (Hloaded ltac:(vm_compute; reflexivity)) as [_ [_ Hapi]].
    destruct (Hapi Scenario.session eq_refl) as [Hget _].
    apply (Hget Scenario.not_found eq_refl). discriminate.
Defined.

(** X18: on a status other than 200 the report of [get] names neither the
    status nor the body.  [SalesforceError] cannot be built from the one
    message the method hands it; the [TypeError] of the constructor is what
    the generic handler reports, as "Unexpected error", and the command exits
    with status 1 after its one GET.  The method's whole trace is the
    announcement, the GET and that report, whatever the answer holds. *)
Theorem non_200_report_is_fixed
    (w : World) (id instance : pystr) (output_path : option pystr) (pretty : bool)
    (s : Session) (r : Response) :
  env_file_exists w = true ->
  missing_creds w instance = [] ->
  Salesforce w (connect_request (new_client (loaded_credentials w instance))) = inr s ->
  requests_get w (SalesforceClient.full_url s id)
    (SalesforceClient.workbench_headers s) 30 = inr r ->
  status_code r <> 200%Z ->
  terminal (get_omniscript_structure w id instance output_path pretty)
    (u "❌ Unexpected error: " ++ salesforce_error_arity w)
    [ Login (connect_request (new_client (loaded_credentials w instance)));
      HttpGet (SalesforceClient.full_url s id)
        (SalesforceClient.workbench_headers s) 30 ]
  /\ SalesforceClient.get_omniscript_structure w
       (SalesforceClient.with_sf (new_client (loaded_credentials w instance)) s) id
     = ( [ Echo false (u "🔍 Calling Discovery Framework API: "
                         ++ SalesforceClient.api_path id);
           HttpGet (SalesforceClient.full_url s id)
             (SalesforceClient.workbench_headers s) 30;
           Echo true (u "❌ Unexpected error: " ++ salesforce_error_arity w) ],
         inl (SystemExit 1) ).
Proof.
  intros Henv Hnone Hlogin Hget Hnot.
  pose proof (load_credentials_complete w instance Hnone) as Hloaded.
  split.
  - apply (get_api_terminal w id instance _ s Henv Hloaded Hlogin _ _ r Hget Hnot).
  - apply (get_omniscript_structure_not_200 w
             (SalesforceClient.with_sf (new_client (loaded_credentials w instance)) s)
             s id r eq_refl Hget Hnot).
Qed.

(** A 404 with a body: the report holds neither of them. *)
Lemma non_200_report_is_fixed_witness :
  let w := Scenario.world Scenario.environ_complete (inr Scenario.session)
             (inr Scenario.not_found) (inr []) in
  terminal (get_omniscript_structure w (u "a0X") (u "DEFAULT") None true)
    (u "❌ Unexpected error: SalesforceError.__init__() missing 3 required positional arguments: 'status', 'resource_name', and 'content'")
    [ Login (connect_request (new_client (loaded_credentials w (u "DEFAULT"))));
      HttpGet (SalesforceClient.full_url Scenario.session (u "a0X"))
        (SalesforceClient.workbench_headers Scenario.session) 30 ].
Proof.
  cbv zeta.
  destruct (non_200_report_is_fixed
              (Scenario.world Scenario.environ_complete (inr Scenario.session)
                 (inr Scenario.not_found) (inr []))
              (u "a0X") (u "DEFAULT") None true Scenario.session Scenario.not_found
              eq_refl ltac:(vm_compute; reflexivity) eq_refl eq_refl
              ltac:(discriminate)) as [Hterminal _].
  replace (u "❌ Unexpected error: SalesforceError.__init__() missing 3 required positional arguments: 'status', 'resource_name', and 'content'")
    with (u "❌ Unexpected error: "
            ++ salesforce_error_arity
                 (Scenario.world Scenario.environ_complete (inr Scenario.session)
                    (inr Scenario.not_found) (inr [])))
    by (vm_compute; reflexivity).
  exact Hterminal.
Defined.

(** ** The debug exploration goes on after a 200 *)

(** C7 at a failing input: the server answers every [restful] call with
    status 200 and the structure, and every raw GET with status 200 and the
    JSON array [[]].  In the URL loop [sf.restful] hands back the parsed
    structure, [response.status_code] raises inside the [try], the handler
    logs the exception and the loop goes on: the success line is never
    printed and all four variants are requested.  In the header loop each
    attempt prints its success line, [result.keys()] then raises and the loop
    goes on: all three variants are requested, although the very first
    answer was a 200. *)
Lemma debug_goes_on_after_200 :
  let w := Scenario.with_restful
             (Scenario.world Scenario.environ_complete (inr Scenario.session)
                (inr Scenario.ok_array) (inr []))
             (fun _ => inr Scenario.ok_structure) in
  let full_url :=
    u "https://acme.my.salesforce.com/services/data/v62.0/connect/omniscript/a0X?customType=Discovery+Framework" in
  sf_restful w Scenario.session
    (u "/services/data/v62.0/connect/omniscript/a0X?customType=Discovery+Framework")
    (u "GET") = inr Scenario.structure
  /\ List.filter is_network (trace (debug_api_call w (u "a0X") (u "DEFAULT") true))
     = [ Login (connect_request (new_client (loaded_credentials w (u "DEFAULT"))));
         Restful (u "/services/data/v62.0/connect/omniscript/a0X?customType=Discovery+Framework") (u "GET");
         Restful (u "/services/data/v62.0/connect/omniscript/a0X?customType=Discovery%20Framework") (u "GET");
         Restful (u "/services/data/v62.0/connect/omniscript/a0X") (u "GET");
         Restful (u "/services/data/v59.0/connect/omniscript/a0X?customType=Discovery+Framework") (u "GET") ]
       ++ map (fun v => HttpGet full_url (variation_headers v) 30)
            (headers_variations Scenario.session)
  /\ ~ In (Echo false (u "   ✅ SUCCESS! Status: 200"))
          (trace (debug_api_call w (u "a0X") (u "DEFAULT") true))
  /\ In (Echo false (nl ++ u "🚨 All approaches failed. The Discovery Framework API may not be available in this org."))
        (trace (debug_api_call w (u "a0X") (u "DEFAULT") true))
  /\ In (Echo false (u "   ✅ SUCCESS with raw request!"))
        (trace (debug_api_call w (u "a0X") (u "DEFAULT") true))
  /\ In (Echo false (u "   💥 Exception: 'list' object has no attribute 'keys'..."))
        (trace (debug_api_call w (u "a0X") (u "DEFAULT") true))
  /\ In (Echo false (nl ++ u "🚨 All raw request approaches also failed."))
        (trace (debug_api_call w (u "a0X") (u "DEFAULT") true)).
Proof.
  cbv zeta. split; [vm_compute; reflexivity |].
  split; [vm_compute; reflexivity |].
  split.
  - vm_compute. intros Hin.
    repeat (destruct Hin as [Hin | Hin]; [discriminate Hin |]). exact Hin.
  - repeat split; vm_compute; repeat (first [left; reflexivity | right]).
Qed.

(** ** Instances do not share variables *)

Lemma keys_end_differently (a b s1 s2 : pystr) :
  a ++ s1 = b ++ s2 ->
  (2 <= length s1)%nat -> (2 <= length s2)%nat ->
  take 2 (rev s1) = take 2 (rev s2).
Proof.
  intros Heq H1 H2. apply (f_equal (@rev N)) in Heq.
  rewrite !rev_app_distr in Heq. apply (f_equal (take 2)) in Heq.
  rewrite !take_app_le in Heq by (rewrite length_rev; assumption).
  exact Heq.
Qed.

Lemma instance_keys_disjoint (instance other key : pystr) :
  instance <> other ->
  In key (instance_keys other) ->
  ~ In key (instance_keys instance).
Proof.
  intros Hne Hother Hown.
  unfold instance_keys, username_key, password_key, token_key, domain_key in *.
  cbn [In] in Hother, Hown.
  destruct Hother as [<- | [<- | [<- | [<- | []]]]];
    destruct Hown as [H | [H | [H | [H | []]]]];
    first [ apply app_inv_tail in H; congruence
          | apply keys_end_differently in H;
            [ vm_compute in H; discriminate H | vm_compute; lia | vm_compute; lia ] ].
Qed.

Lemma load_credentials_setenv_other (w : World) (instance key value : pystr) :
  ~ In key (instance_keys instance) ->
  load_credentials (setenv w key value) instance = load_credentials w instance.
Proof.
  intros Hother.
  assert (Hsame : forall k, In k (instance_keys instance) ->
                            getenv (setenv w key value) k = getenv w k).
  { intros k Hk. unfold getenv, setenv. cbn [environ].
    apply lookup_insert_ne. intros ->. contradiction. }
  unfold load_credentials, missing_creds.
  rewrite !Hsame by (unfold instance_keys; cbn [In]; auto).
  reflexivity.
Qed.

(** X17: instances do not share variables.  The four variables of one
    instance are none of the four of another, so setting or changing any
    [<OTHER>_SF_*] variable changes neither what [load_credentials] returns
    for an instance nor what it reports as missing. *)
Theorem instances_are_independent
    (w : World) (instance other key value : pystr) :
  instance <> other ->
  In key (instance_keys other) ->
  ~ In key (instance_keys instance)
  /\ load_credentials (setenv w key value) instance = load_credentials w instance
  /\ missing_creds (setenv w key value) instance = missing_creds w instance.
Proof.
  intros Hne Hother.
  pose proof (instance_keys_disjoint instance other key Hne Hother) as Hdisjoint.
  split; [exact Hdisjoint |].
  split; [now apply load_credentials_setenv_other |].
  unfold missing_creds, getenv, setenv. cbn [environ].
  rewrite !lookup_insert_ne
    by (intros ->; apply Hdisjoint; unfold instance_keys; cbn [In]; auto).
  reflexivity.
Qed.

Lemma instances_are_independent_witness :
  let w := Scenario.world Scenario.environ_complete (inr Scenario.session)
             (inr Scenario.ok_structure) (inr []) in
  load_credentials (setenv w (u "PROD_SF_USERNAME") (u "prod@example.com")) (u "DEFAULT")
  = load_credentials w (u "DEFAULT").
Proof.
  cbv zeta.
  refine (proj1 (proj2
    (instances_are_independent
       (Scenario.world Scenario.environ_complete (inr Scenario.session)
          (inr Scenario.ok_structure) (inr []))
       (u "DEFAULT") (u "PROD") (u "PROD_SF_USERNAME") (u "prod@example.com") _ _))).
  - vm_compute. discriminate.
  - left. vm_compute. reflexivity.
Defined.

(** ** The JSON text and its reading *)

Section JsonFacts.

Import Json.

Lemma pyval_nested_ind (P : pyval -> Prop) :
  P PyNone ->
  (forall b, P (PyBool b)) ->
  (forall n, P (PyInt n)) ->
  (forall x, P (PyFloat x)) ->
  (forall s, P (PyStr s)) ->
  (forall xs, List.Forall P xs -> P (PyList xs)) ->
  (forall items, List.Forall (fun kv : pystr * pyval => P kv.2) items ->
                 P (PyDict items)) ->
  forall v, P v.
Proof.
  intros HN HB HI HF HS HL HD. fix IH 1.
  intros [| b | n | x | s | xs | items]; [exact HN | apply HB | apply HI | apply HF | apply HS | |].
  - apply HL. induction xs as [| x xs IHxs]; constructor; [apply IH | exact IHxs].
  - apply HD. induction items as [| [k v] items IHitems]; constructor;
      [apply IH | exact IHitems].
Qed.

(** *** Blanks *)

Lemma skip_ws_blanks (w s : pystr) :
  List.forallb is_ws w = true -> skip_ws (w ++ s) = skip_ws s.
Proof.
  induction w as [| c w IH]; [reflexivity |].
  cbn. intros H. apply andb_prop in H as [Hc Hw]. rewrite Hc. now apply IH.
Qed.

Lemma skip_ws_here (c : N) (s : pystr) :
  is_ws c = false -> skip_ws (c :: s) = c :: s.
Proof. intros H. cbn. now rewrite H. Qed.

Lemma spaces_are_blanks (n : nat) : List.forallb is_ws (replicate n 32) = true.
Proof. induction n as [| n IH]; [reflexivity | exact IH]. Qed.

Lemma newline_indent_blank (indent : option nat) (level : nat) :
  List.forallb is_ws (newline_indent indent level) = true.
Proof.
  unfold newline_indent. destruct indent as [n |]; [| reflexivity].
  cbn. apply spaces_are_blanks.
Qed.

(** The separator of two items is a comma and blanks. *)
Lemma separator_shape (indent : option nat) (level : nat) :
  exists w,
    item_separator indent ++ newline_indent indent level = 44 :: w
    /\ List.forallb is_ws w = true.
Proof.
  unfold item_separator, newline_indent. destruct indent as [n |].
  - eexists. split; [reflexivity |]. cbn. apply spaces_are_blanks.
  - exists [32]. split; reflexivity.
Qed.

(** *** Strings *)

Lemma scanstring_escape (c : N) (tail : pystr) :
  scanstring (escape_char c ++ tail) = prepend c (scanstring tail).
Proof.
  unfold escape_char.
  destruct (N.eqb_spec c 34) as [-> | H34]; [reflexivity |].
  destruct (N.eqb_spec c 92) as [-> | H92]; [reflexivity |].
  destruct (N.eqb_spec c 10) as [-> | H10]; [reflexivity |].
  destruct (N.eqb_spec c 13) as [-> | H13]; [reflexivity |].
  destruct (N.eqb_spec c 9) as [-> | H9]; [reflexivity |].
  destruct (N.eqb_spec c 8) as [-> | H8]; [reflexivity |].
  destruct (N.eqb_spec c 12) as [-> | H12]; [reflexivity |].
  destruct (N.ltb_spec c 32) as [Hlt | Hge].
  - destruct c as [| p]; [reflexivity |].
    repeat (destruct p as [p | p |]; try lia); reflexivity.
  - cbn [app scanstring].
    rewrite (proj2 (N.eqb_neq c 34) H34), (proj2 (N.eqb_neq c 92) H92).
    rewrite (proj2 (N.ltb_ge c 32) Hge). reflexivity.
Qed.

Lemma scanstring_encode (s rest : pystr) :
  scanstring (concat (map escape_char s) ++ 34 :: rest) = Some (s, rest).
Proof.
  induction s as [| c s IH]; [reflexivity |].
  cbn [map concat]. rewrite <- app_assoc, scanstring_escape, IH. reflexivity.
Qed.

(** *** Numbers *)

Lemma digit_chars_digits (d : Decimal.uint) :
  List.forallb is_digit (digit_chars d) = true.
Proof. induction d; cbn; auto. Qed.

Lemma value_ends_no_digit (rest : pystr) :
  value_ends rest = true ->
  match rest with
  | [] => True
  | c :: _ => is_digit c = false /\ c <> 46 /\ c <> 101 /\ c <> 69
              /\ c <> 45 /\ c <> 43
  end.
Proof.
  destruct rest as [| c rest]; [trivial |].
  unfold value_ends, is_ws, is_digit. intros H.
  repeat (apply orb_prop in H as [H | H]);
    apply N.eqb_eq in H; subst c; repeat split; (reflexivity || discriminate).
Qed.

Lemma digits_run (ds rest : pystr) :
  List.forallb is_digit ds = true ->
  match rest with [] => True | c :: _ => is_digit c = false end ->
  digits (ds ++ rest) = (ds, rest).
Proof.
  intros Hds Hrest. induction ds as [| c ds IH].
  - destruct rest as [| c rest]; [reflexivity |]. cbn. now rewrite Hrest.
  - cbn in Hds |- *. apply andb_prop in Hds as [Hc Hds].
    rewrite Hc, (IH Hds). reflexivity.
Qed.

Lemma digits_value_acc (l : Decimal.uint) (acc : positive) :
  fold_left (fun a c => a * 10 + (c - 48)) (digit_chars l) (N.pos acc)
  = N.pos (Pos.of_uint_acc l acc).
Proof.
  revert acc. induction l; intros acc; cbn; [reflexivity | ..];
    rewrite <- IHl; f_equal; lia.
Qed.

Lemma digits_value_chars (d : Decimal.uint) :
  digits_value (digit_chars d) = Pos.of_uint d.
Proof.
  unfold digits_value. induction d; cbn; [reflexivity | exact IHd | ..];
    rewrite <- digits_value_acc; reflexivity.
Qed.

Lemma nzhead_no_zero (l u : Decimal.uint) : Decimal.nzhead l <> Decimal.D0 u.
Proof. induction l; cbn; try discriminate; exact IHl. Qed.

(** The numeral of a positive number starts with a digit other than
    zero. *)
Lemma pos_chars_shape (p : positive) :
  exists c ds,
    digit_chars (Pos.to_uint p) = c :: ds
    /\ is_digit c = true /\ c <> 48 /\ c <> 45
    /\ List.forallb is_digit ds = true.
Proof.
  pose proof (digit_chars_digits (Pos.to_uint p)) as Hall.
  pose proof (DecimalPos.Unsigned.to_of (Pos.to_uint p)) as Hnorm.
  rewrite DecimalPos.Unsigned.of_to in Hnorm. cbn [N.to_uint] in Hnorm.
  pose proof (Unsigned.to_uint_nonnil p) as Hnil.
  destruct (Pos.to_uint p) as [| l | l | l | l | l | l | l | l | l | l] eqn:Hd;
    [contradiction | | ..].
  - exfalso. unfold Decimal.unorm in Hnorm. cbn [Decimal.nzhead] in Hnorm.
    pose proof (nzhead_no_zero l) as Hno.
    destruct (Decimal.nzhead l) eqn:Hhead; try discriminate Hnorm.
    + injection Hnorm as ->. apply (Unsigned.to_uint_nonzero p). exact Hd.
    + exact (Hno _ eq_refl).
  - cbn in Hall |- *. eexists _, _. repeat split; [discriminate .. | exact Hall].
  - cbn in Hall |- *. eexists _, _. repeat split; [discriminate .. | exact Hall].
  - cbn in Hall |- *. eexists _, _. repeat split; [discriminate .. | exact Hall].
  - cbn in Hall |- *. eexists _, _. repeat split; [discriminate .. | exact Hall].
  - cbn in Hall |- *. eexists _, _. repeat split; [discriminate .. | exact Hall].
  - cbn in Hall |- *. eexists _, _. repeat split; [discriminate .. | exact Hall].
  - cbn in Hall |- *. eexists _, _. repeat split; [discriminate .. | exact Hall].
  - cbn in Hall |- *. eexists _, _. repeat split; [discriminate .. | exact Hall].
  - cbn in Hall |- *. eexists _, _. repeat split; [discriminate .. | exact Hall].
Qed.

Lemma str_of_Z_positive (p : positive) : str_of_Z (Z.pos p) = digit_chars (Pos.to_uint p).
Proof.
  unfold str_of_Z, digit_chars. cbn [Z.to_int NilZero.string_of_int].
  unfold NilZero.string_of_uint.
  pose proof (Unsigned.to_uint_nonnil p) as Hnil.
  destruct (Pos.to_uint p); [contradiction | reflexivity ..].
Qed.

Lemma str_of_Z_negative (p : positive) :
  str_of_Z (Z.neg p) = 45 :: digit_chars (Pos.to_uint p).
Proof.
  unfold str_of_Z, digit_chars. cbn [Z.to_int NilZero.string_of_int].
  unfold NilZero.string_of_uint.
  pose proof (Unsigned.to_uint_nonnil p) as Hnil.
  destruct (Pos.to_uint p); [contradiction | reflexivity ..].
Qed.

Section Numbers.

Variable float_parse : pystr -> spec_float.

Lemma scan_number_tail (integer rest : pystr) :
  value_ends rest = true ->
  scan_integer (integer ++ rest) = Some (integer, rest) ->
  scan_number float_parse (integer ++ rest)
  = Some (PyInt (int_of_text integer), rest).
Proof.
  intros Hends Hint. unfold scan_number. rewrite Hint.
  apply value_ends_no_digit in Hends.
  destruct rest as [| c rest]; [reflexivity |].
  destruct Hends as (_ & Hdot & He & HE & _).
  unfold scan_frac, scan_exp.
  rewrite (proj2 (N.eqb_neq c 46) Hdot), (proj2 (N.eqb_neq c 101) He),
    (proj2 (N.eqb_neq c 69) HE).
  reflexivity.
Qed.

Lemma scan_number_int (n : Z) (rest : pystr) :
  value_ends rest = true ->
  scan_number float_parse (str_of_Z n ++ rest) = Some (PyInt n, rest).
Proof.
  intros Hends.
  assert (Hnodigit : match rest with [] => True | c :: _ => is_digit c = false end).
  { apply value_ends_no_digit in Hends. destruct rest; [trivial | apply Hends]. }
  destruct n as [| p | p].
  - change (str_of_Z 0) with [48]. rewrite (scan_number_tail [48] rest Hends);
      reflexivity.
  - rewrite str_of_Z_positive.
    destruct (pos_chars_shape p) as (c & ds & Hshape & Hc & H0 & Hminus & Hds).
    rewrite scan_number_tail; [| exact Hends |].
    + f_equal. f_equal. f_equal. rewrite Hshape. unfold int_of_text.
      rewrite (proj2 (N.eqb_neq c 45) Hminus), <- Hshape, digits_value_chars.
      now rewrite DecimalPos.Unsigned.of_to.
    + rewrite Hshape. unfold scan_integer. cbn [app].
      rewrite (proj2 (N.eqb_neq c 45) Hminus), (proj2 (N.eqb_neq c 48) H0), Hc.
      now rewrite (digits_run ds rest Hds Hnodigit).
  - rewrite str_of_Z_negative.
    destruct (pos_chars_shape p) as (c & ds & Hshape & Hc & H0 & Hminus & Hds).
    rewrite (scan_number_tail (45 :: digit_chars (Pos.to_uint p)) rest Hends).
    + f_equal. f_equal. f_equal. unfold int_of_text. cbn [N.eqb Pos.eqb].
      rewrite digits_value_chars, DecimalPos.Unsigned.of_to. reflexivity.
    + rewrite Hshape. unfold scan_integer. cbn [app N.eqb Pos.eqb].
      rewrite (proj2 (N.eqb_neq c 48) H0), Hc.
      now rewrite (digits_run ds rest Hds Hnodigit).
Qed.

Lemma digits_app (r rest : pystr) :
  match rest with [] => True | c :: _ => is_digit c = false end ->
  digits (r ++ rest) = ((digits r).1, (digits r).2 ++ rest).
Proof.
  intros Hrest. induction r as [| c r IH].
  - destruct rest as [| c rest]; [reflexivity |]. cbn. now rewrite Hrest.
  - cbn. destruct (is_digit c); [| reflexivity].
    rewrite IH. destruct (digits r). reflexivity.
Qed.

(** Behind a number that was scanned whole, what may follow a value
    changes nothing. *)
Lemma scan_number_app (t rest r2 : pystr) (v : pyval) :
  value_ends rest = true ->
  scan_number float_parse t = Some (v, r2) ->
  scan_number float_parse (t ++ rest) = Some (v, r2 ++ rest).
Proof.
  intros Hends. apply value_ends_no_digit in Hends.
  assert (Hdigit : match rest with [] => True | c :: _ => is_digit c = false end).
  { destruct rest; [trivial | apply Hends]. }
  assert (Hint : forall s i tl,
             scan_integer s = Some (i, tl) ->
             scan_integer (s ++ rest) = Some (i, tl ++ rest)).
  { intros s i tl. unfold scan_integer.
    assert (Hbody : forall sign r,
               match r with
               | [] => None
               | c :: r' =>
                   if c =? 48 then Some (sign ++ [48], r')
                   else if is_digit c then
                     let '(ds, rest0) := digits r' in Some (sign ++ c :: ds, rest0)
                   else None
               end = Some (i, tl) ->
               match r ++ rest with
               | [] => None
               | c :: r' =>
                   if c =? 48 then Some (sign ++ [48], r')
                   else if is_digit c then
                     let '(ds, rest0) := digits r' in Some (sign ++ c :: ds, rest0)
                   else None
               end = Some (i, tl ++ rest)).
    { intros sign [| c r']; [discriminate |]. cbn [app].
      destruct (c =? 48); [now intros [= <- <-] |].
      destruct (is_digit c); [| discriminate].
      rewrite (digits_app r' rest Hdigit). destruct (digits r') as [ds tl'].
      now intros [= <- <-]. }
    destruct s as [| c r]; [discriminate |]. cbn [app].
    destruct (c =? 45); [apply Hbody | apply (Hbody [] (c :: r))]. }
  assert (Hfrac : forall s,
             scan_frac (s ++ rest)
             = match scan_frac s with
               | Some (f, tl) => Some (f, tl ++ rest)
               | None => None
               end).
  { intros [| c r]; unfold scan_frac.
    - destruct rest as [| c rest]; [reflexivity |]. cbn.
      destruct Hends as (_ & Hdot & _).
      now rewrite (proj2 (N.eqb_neq c 46) Hdot).
    - cbn [app]. destruct (c =? 46); [| reflexivity].
      rewrite (digits_app r rest Hdigit). destruct (digits r) as [[| d ds] tl];
        reflexivity. }
  assert (Hexp : forall s,
             scan_exp (s ++ rest)
             = match scan_exp s with
               | Some (x, tl) => Some (x, tl ++ rest)
               | None => None
               end).
  { intros [| c r]; unfold scan_exp.
    - destruct rest as [| c rest]; [reflexivity |]. cbn.
      destruct Hends as (_ & _ & He & HE & _).
      now rewrite (proj2 (N.eqb_neq c 101) He), (proj2 (N.eqb_neq c 69) HE).
    - cbn [app]. destruct ((c =? 101) || (c =? 69)); [| reflexivity].
      destruct r as [| c' r'].
      + cbn [app digits]. destruct rest as [| b rest]; [reflexivity |].
        destruct Hends as (_ & _ & _ & _ & Hminus & Hplus).
        rewrite (proj2 (N.eqb_neq b 45) Hminus), (proj2 (N.eqb_neq b 43) Hplus).
        cbn [orb digits]. now rewrite Hdigit.
      + cbn [app]. destruct ((c' =? 45) || (c' =? 43)).
        * rewrite (digits_app r' rest Hdigit). destruct (digits r') as [[| d ds] tl];
            reflexivity.
        * change (c' :: r' ++ rest) with ((c' :: r') ++ rest).
          rewrite (digits_app (c' :: r') rest Hdigit).
          destruct (digits (c' :: r')) as [[| d ds] tl]; reflexivity. }
  unfold scan_number. intros H.
  destruct (scan_integer t) as [[i tl] |] eqn:Hi; [| discriminate H].
  rewrite (Hint t i tl Hi), Hfrac.
  destruct (scan_frac tl) as [[f tl1] |].
  - rewrite Hexp. destruct (scan_exp tl1) as [[x tl2] |].
    + destruct f, x; injection H as <- <-; reflexivity.
    + destruct f; injection H as <- <-; reflexivity.
  - rewrite Hexp. destruct (scan_exp tl) as [[x tl2] |].
    + destruct x; injection H as <- <-; reflexivity.
    + injection H as <- <-. reflexivity.
Qed.

Lemma scan_number_head (s : pystr) (res : pyval * pystr) :
  scan_number float_parse s = Some res ->
  exists c r, s = c :: r /\ (c = 45 \/ is_digit c = true).
Proof.
  destruct s as [| c r]; [discriminate |]. intros H. exists c, r.
  split; [reflexivity |].
  destruct (N.eqb_spec c 45) as [-> | Hminus]; [now left | right].
  unfold scan_number, scan_integer in H.
  rewrite (proj2 (N.eqb_neq c 45) Hminus) in H.
  destruct (N.eqb_spec c 48) as [-> | _]; [reflexivity |].
  destruct (is_digit c); [reflexivity | discriminate H].
Qed.

Lemma number_head_starts (c : N) (r : pystr) :
  c = 45 \/ is_digit c = true -> starts_value (c :: r) = true.
Proof.
  intros [-> | Hd]; [reflexivity |].
  unfold is_digit in Hd. apply andb_prop in Hd as [H1 H2].
  apply N.leb_le in H1, H2. unfold starts_value, is_ws.
  rewrite !(proj2 (N.eqb_neq c _)) by lia. reflexivity.
Qed.

(** A number is scanned as a number by [scan_once]. *)
Lemma scan_once_number (f : nat) (s : pystr) (res : pyval * pystr) :
  scan_number float_parse s = Some res ->
  scan_once float_parse (S f) s = Some res.
Proof.
  intros H. destruct (scan_number_head s res H) as (c & r & -> & [-> | Hd]).
  - cbn [scan_once N.eqb Pos.eqb after text_null text_true text_false].
    rewrite H. reflexivity.
  - unfold is_digit in Hd. apply andb_prop in Hd as [H1 H2].
    apply N.leb_le in H1, H2.
    cbn [scan_once after text_null text_true text_false].
    rewrite !(proj2 (N.eqb_neq c _)) by lia.
    rewrite !(proj2 (N.eqb_neq _ c)) by lia.
    rewrite H. reflexivity.
Qed.

End Numbers.

(** *** Values *)

Lemma starts_value_skip (t s : pystr) :
  starts_value t = true -> skip_ws (t ++ s) = t ++ s.
Proof.
  destruct t as [| c t]; [discriminate |]. cbn. intros H.
  apply andb_prop in H as [Hws _]. apply negb_true_iff in Hws. now rewrite Hws.
Qed.

Lemma starts_value_head (t s : pystr) :
  starts_value t = true -> head_is 93 (t ++ s) = false.
Proof.
  destruct t as [| c t]; [discriminate |]. cbn. intros H.
  apply andb_prop in H as [_ Hclose]. now apply negb_true_iff in Hclose.
Qed.

Lemma starts_value_length (t : pystr) :
  starts_value t = true -> (1 <= length t)%nat.
Proof. destruct t; [discriminate |]. cbn. lia. Qed.

Lemma encode_seq_starts {A} (enc : A -> pystr) (sep : pystr) (x : A) (xs : list A) :
  starts_value (enc x) = true -> starts_value (encode_seq enc sep (x :: xs)) = true.
Proof.
  intros H. cbn. destruct xs; [exact H |].
  destruct (enc x); [discriminate H | exact H].
Qed.

Lemma value_ends_close (w rest : pystr) (c : N) :
  List.forallb is_ws w = true ->
  c = 93 \/ c = 125 ->
  value_ends (w ++ c :: rest) = true /\ skip_ws (w ++ c :: rest) = c :: rest.
Proof.
  intros Hw Hc. split.
  - destruct w as [| b w]; cbn.
    + destruct Hc as [-> | ->]; reflexivity.
    + cbn in Hw. apply andb_prop in Hw as [Hb _]. rewrite Hb.
      now rewrite !orb_true_r.
  - rewrite (skip_ws_blanks w _ Hw). destruct Hc as [-> | ->]; reflexivity.
Qed.

Lemma floats_of_item (P : spec_float -> Prop) (xs : list pyval) (y : pyval) :
  List.Forall P (floats (PyList xs)) -> In y xs -> List.Forall P (floats y).
Proof.
  cbn [floats]. rewrite !List.Forall_forall. intros Hall Hin x Hx.
  apply Hall, in_concat. exists (floats y). split; [| exact Hx].
  apply in_map_iff. now exists y.
Qed.

Lemma floats_of_member (P : spec_float -> Prop) (items : list (pystr * pyval))
    (kv : pystr * pyval) :
  List.Forall P (floats (PyDict items)) -> In kv items -> List.Forall P (floats kv.2).
Proof.
  cbn [floats]. rewrite !List.Forall_forall. intros Hall Hin x Hx.
  apply Hall, in_concat. exists (floats kv.2). split; [| exact Hx].
  apply in_map_iff. now exists kv.
Qed.

Lemma dict_set_fresh (k : pystr) (v : pyval) (d : pydict) :
  ~ In k (map fst d) -> dict_set k v d = d ++ [(k, v)].
Proof.
  induction d as [| [k' v'] d IH]; [reflexivity |].
  cbn. intros Hfresh.
  rewrite bool_decide_eq_false_2 by (intros ->; apply Hfresh; now left).
  rewrite IH; [reflexivity |]. intros Hin. apply Hfresh. now right.
Qed.

Lemma dict_of_pairs_distinct (items : list (pystr * pyval)) :
  NoDup (map fst items) -> dict_of_pairs items = items.
Proof.
  unfold dict_of_pairs.
  assert (Hgen : forall ps acc,
             NoDup (map fst (acc ++ ps)) ->
             fold_left (fun d (kv : pystr * pyval) => dict_set kv.1 kv.2 d) ps acc
             = acc ++ ps).
  { induction ps as [| [k v] ps IH]; intros acc Hnodup; [now rewrite app_nil_r |].
    cbn [fold_left fst snd]. rewrite dict_set_fresh.
    - rewrite IH; rewrite <- app_assoc; [reflexivity | exact Hnodup].
    - rewrite map_app in Hnodup. cbn [map fst] in Hnodup.
      apply NoDup_app in Hnodup as (_ & Hapart & _).
      intros Hin. apply list_elem_of_In in Hin.
      apply (Hapart k Hin). now left. }
  intros Hnodup. apply (Hgen items []). exact Hnodup.
Qed.

Section RoundTrip.

Variable float_repr : spec_float -> pystr.
Variable float_parse : pystr -> spec_float.
Variable indent : option nat.

Lemma encode_starts (v : pyval) (level : nat) :
  List.Forall (float_reads_back float_repr float_parse) (floats v) ->
  starts_value (encode float_repr indent level v) = true.
Proof.
  intros Hfloats.
  destruct v as [| [|] | n | x | s | [| y xs] | [| kv items]]; try reflexivity.
  - cbn [encode]. destruct n as [| p | p].
    + reflexivity.
    + rewrite str_of_Z_positive.
      destruct (pos_chars_shape p) as (c & ds & -> & Hc & _).
      apply number_head_starts. now right.
    + rewrite str_of_Z_negative. reflexivity.
  - cbn [encode floats] in *. apply List.Forall_inv in Hfloats.
    unfold float_reads_back in Hfloats.
    destruct x as [sign | [|] | | sign m e]; try reflexivity; try contradiction.
    + destruct (scan_number_head _ _ _ Hfloats) as (c & r & Heq & Hhead).
      cbn [float_text]. rewrite Heq. now apply number_head_starts.
    + destruct (scan_number_head _ _ _ Hfloats) as (c & r & Heq & Hhead).
      cbn [float_text]. rewrite Heq. now apply number_head_starts.
Qed.

Lemma scan_items_seq (enc : pyval -> pystr) (xs : list pyval) :
  forall (x : pyval) (fuel : nat) (w w0 rest : pystr),
    List.forallb is_ws w = true ->
    List.forallb is_ws w0 = true ->
    (forall y, In y (x :: xs) -> starts_value (enc y) = true) ->
    (forall y f, In y (x :: xs) -> (2 * length (enc y) <= f)%nat -> (f < fuel)%nat ->
                 reads float_parse f enc y) ->
    (2 * length (encode_seq enc (44%N :: w) (x :: xs)) + 1 <= fuel)%nat ->
    scan_items float_parse fuel (encode_seq enc (44%N :: w) (x :: xs) ++ w0 ++ 93 :: rest)
    = Some (x :: xs, rest).
Proof.
  induction xs as [| y ys IH]; intros x fuel w w0 rest Hw Hw0 Hstarts Hreads Hfuel.
  - cbn [encode_seq] in *. destruct fuel as [| f]; [lia |].
    cbn [scan_items].
    destruct (value_ends_close w0 rest 93 Hw0 (or_introl eq_refl)) as [Hends Hskip].
    rewrite (Hreads x f (or_introl eq_refl) ltac:(lia) ltac:(lia) _ Hends).
    rewrite Hskip. reflexivity.
  - change (encode_seq enc (44%N :: w) (x :: y :: ys))
      with (enc x ++ (44%N :: w) ++ encode_seq enc (44%N :: w) (y :: ys)) in *.
    rewrite !length_app in Hfuel. cbn [length] in Hfuel.
    destruct fuel as [| f]; [lia |].
    cbn [scan_items]. rewrite <- !app_assoc.
    rewrite (Hreads x f (or_introl eq_refl) ltac:(lia) ltac:(lia)) by reflexivity.
    cbn [app skip_ws is_ws N.eqb Pos.eqb orb].
    rewrite (skip_ws_blanks w _ Hw).
    rewrite starts_value_skip
      by (apply encode_seq_starts, Hstarts; right; now left).
    rewrite (IH y f w w0 rest Hw Hw0).
    + reflexivity.
    + intros z Hz. apply Hstarts. now right.
    + intros z g Hz Hlen Hlt. apply Hreads; [now right | exact Hlen | lia].
    + lia.
Qed.

Lemma scan_members_seq (enc : pyval -> pystr) (items : list (pystr * pyval)) :
  forall (kv : pystr * pyval) (fuel : nat) (w w0 rest : pystr),
    List.forallb is_ws w = true ->
    List.forallb is_ws w0 = true ->
    (forall y, In y (kv :: items) -> starts_value (enc y.2) = true) ->
    (forall y f, In y (kv :: items) -> (2 * length (enc y.2) <= f)%nat ->
                 (f < fuel)%nat -> reads float_parse f enc y.2) ->
    (2 * length (encode_seq (encode_member enc) (44%N :: w) (kv :: items)) + 1 <= fuel)%nat ->
    scan_members float_parse fuel
      (encode_seq (encode_member enc) (44%N :: w) (kv :: items) ++ w0 ++ 125 :: rest)
    = Some (kv :: items, rest).
Proof.
  induction items as [| y ys IH]; intros [k v] fuel w w0 rest Hw Hw0 Hstarts Hreads Hfuel.
  - cbn [encode_seq] in *. unfold encode_member, encode_string, key_separator in *.
    cbn [fst snd] in *.
    rewrite !length_app in Hfuel. cbn [length] in Hfuel.
    destruct fuel as [| f]; [lia |].
    cbn [scan_members app]. rewrite <- !app_assoc. cbn [app].
    rewrite scanstring_encode.
    cbn [skip_ws is_ws N.eqb Pos.eqb orb].
    rewrite (starts_value_skip (enc v)) by (apply (Hstarts (k, v)); now left).
    destruct (value_ends_close w0 rest 125 Hw0 (or_intror eq_refl)) as [Hends Hskip].
    pose proof (Hreads (k, v) f (or_introl eq_refl) ltac:(cbn; lia) ltac:(lia) _ Hends)
      as Hvalue.
    cbn [snd] in Hvalue. rewrite Hvalue, Hskip. reflexivity.
  - change (encode_seq (encode_member enc) (44%N :: w) ((k, v) :: y :: ys))
      with (encode_member enc (k, v) ++ (44%N :: w)
              ++ encode_seq (encode_member enc) (44%N :: w) (y :: ys)) in *.
    unfold encode_member at 1, encode_string, key_separator.
    unfold encode_member at 1, encode_string, key_separator in Hfuel.
    cbn [fst snd] in *.
    rewrite !length_app in Hfuel. cbn [length] in Hfuel.
    rewrite !length_app in Hfuel. cbn [length] in Hfuel.
    destruct fuel as [| f]; [lia |].
    cbn [scan_members app]. rewrite <- !app_assoc. cbn [app].
    rewrite scanstring_encode.
    cbn [skip_ws is_ws N.eqb Pos.eqb orb].
    rewrite (starts_value_skip (enc v)) by (apply (Hstarts (k, v)); now left).
    pose proof (Hreads (k, v) f (or_introl eq_refl) ltac:(cbn; lia) ltac:(lia)) as Hvalue.
    cbn [snd] in Hvalue. rewrite Hvalue by reflexivity.
    cbn [skip_ws is_ws N.eqb Pos.eqb orb]. rewrite <- ?app_assoc.
    rewrite (skip_ws_blanks w _ Hw).
    assert (Hnext : starts_value
                      (encode_seq (encode_member enc) (44%N :: w) (y :: ys)) = true).
    { apply encode_seq_starts. reflexivity. }
    rewrite (starts_value_skip _ _ Hnext).
    rewrite (IH y f w w0 rest Hw Hw0).
    + reflexivity.
    + intros z Hz. apply Hstarts. now right.
    + intros z g Hz Hlen Hlt. apply Hreads; [now right | exact Hlen | lia].
    + lia.
Qed.

Lemma encode_list (level : nat) (x : pyval) (xs : list pyval) :
  encode float_repr indent level (PyList (x :: xs))
  = [91] ++ newline_indent indent (S level)
      ++ encode_seq (encode float_repr indent (S level))
           (item_separator indent ++ newline_indent indent (S level)) (x :: xs)
      ++ newline_indent indent level ++ [93].
Proof. reflexivity. Qed.

Lemma encode_dict (level : nat) (kv : pystr * pyval) (items : list (pystr * pyval)) :
  encode float_repr indent level (PyDict (kv :: items))
  = [123] ++ newline_indent indent (S level)
      ++ encode_seq (encode_member (encode float_repr indent (S level)))
           (item_separator indent ++ newline_indent indent (S level)) (kv :: items)
      ++ newline_indent indent level ++ [125].
Proof. reflexivity. Qed.

(** Enough fuel reads every value back from its text. *)
Lemma scan_once_encode (fuel : nat) :
  forall (v : pyval) (level : nat) (rest : pystr),
    distinct_keys v = true ->
    List.Forall (float_reads_back float_repr float_parse) (floats v) ->
    value_ends rest = true ->
    (2 * length (encode float_repr indent level v) <= fuel)%nat ->
    scan_once float_parse fuel (encode float_repr indent level v ++ rest)
    = Some (v, rest).
Proof.
  induction fuel as [fuel IH] using lt_wf_ind.
  intros v level rest Hkeys Hfloats Hends Hfuel.
  pose proof (starts_value_length _ (encode_starts v level Hfloats)) as Hlen.
  destruct fuel as [| f]; [lia |].
  destruct v as [| [|] | n | x | s | [| y xs] | [| kv items]]; try reflexivity.
  - apply scan_once_number. cbn [encode]. now apply scan_number_int.
  - cbn [encode floats] in *. apply List.Forall_inv in Hfloats.
    unfold float_reads_back in Hfloats.
    destruct x as [sign | [|] | | sign m e]; try reflexivity; try contradiction.
    + apply scan_once_number. cbn [float_text].
      apply (scan_number_app _ _ rest [] _ Hends Hfloats).
    + apply scan_once_number. cbn [float_text].
      apply (scan_number_app _ _ rest [] _ Hends Hfloats).
  - cbn [encode]. unfold encode_string. cbn [app scan_once N.eqb Pos.eqb].
    rewrite <- app_assoc. cbn [app]. now rewrite scanstring_encode.
  - rewrite encode_list in Hfuel |- *.
    destruct (separator_shape indent (S level)) as (w & Hsep & Hw).
    rewrite Hsep in Hfuel |- *.
    pose proof (newline_indent_blank indent (S level)) as Hopen.
    pose proof (newline_indent_blank indent level) as Hclose.
    rewrite !length_app in Hfuel. cbn [length] in Hfuel.
    cbn [app scan_once N.eqb Pos.eqb]. cbv zeta.
    rewrite <- !app_assoc. rewrite (skip_ws_blanks _ _ Hopen).
    assert (Hstart : forall z, In z (y :: xs) ->
                starts_value (encode float_repr indent (S level) z) = true).
    { intros z Hz. apply encode_starts. now apply (floats_of_item _ (y :: xs)). }
    pose proof (encode_seq_starts (encode float_repr indent (S level)) (44%N :: w) y xs
                  (Hstart y (or_introl eq_refl))) as Hseq.
    rewrite (starts_value_skip _ _ Hseq), (starts_value_head _ _ Hseq).
    cbn [app]. rewrite (scan_items_seq _ xs y f w _ rest Hw Hclose Hstart).
    + reflexivity.
    + intros z g Hz Hlen' Hlt rest' Hends'. apply IH; try assumption; [lia | |].
      * cbn [distinct_keys] in Hkeys.
        rewrite List.forallb_forall in Hkeys. now apply Hkeys.
      * now apply (floats_of_item _ (y :: xs)).
    + lia.
  - rewrite encode_dict in Hfuel |- *.
    destruct (separator_shape indent (S level)) as (w & Hsep & Hw).
    rewrite Hsep in Hfuel |- *.
    pose proof (newline_indent_blank indent (S level)) as Hopen.
    pose proof (newline_indent_blank indent level) as Hclose.
    rewrite !length_app in Hfuel. cbn [length] in Hfuel.
    cbn [app scan_once N.eqb Pos.eqb]. cbv zeta.
    rewrite <- !app_assoc. rewrite (skip_ws_blanks _ _ Hopen).
    cbn [distinct_keys] in Hkeys. apply andb_prop in Hkeys as [Hnodup Hkeys].
    apply bool_decide_eq_true_1 in Hnodup.
    assert (Hstart : forall z, In z (kv :: items) ->
                starts_value (encode float_repr indent (S level) z.2) = true).
    { intros z Hz. apply encode_starts. now apply (floats_of_member _ (kv :: items)). }
    assert (Hseq : starts_value
                     (encode_seq (encode_member (encode float_repr indent (S level)))
                        (44%N :: w) (kv :: items)) = true).
    { apply encode_seq_starts. reflexivity. }
    rewrite (starts_value_skip _ _ Hseq).
    assert (Hopening : forall t,
               head_is 125
                 (encode_seq (encode_member (encode float_repr indent (S level)))
                    (44%N :: w) (kv :: items) ++ t) = false).
    { intros t. cbn [encode_seq]. destruct items; reflexivity. }
    rewrite Hopening.
    cbn [app]. rewrite (scan_members_seq _ items kv f w _ rest Hw Hclose Hstart).
    + now rewrite (dict_of_pairs_distinct _ Hnodup).
    + intros z g Hz Hlen' Hlt rest' Hends'. apply IH; try assumption; [lia | |].
      * rewrite List.forallb_forall in Hkeys. now apply Hkeys.
      * now apply (floats_of_member _ (kv :: items)).
    + lia.
Qed.

Lemma loads_dumps (v : pyval) :
  distinct_keys v = true ->
  List.Forall (float_reads_back float_repr float_parse) (floats v) ->
  loads float_parse (dumps float_repr indent v) = Some v.
Proof.
  intros Hkeys Hfloats. unfold loads, dumps.
  pose proof (encode_starts v 0 Hfloats) as Hstart.
  rewrite <- (app_nil_r (encode float_repr indent 0 v)) at 2.
  rewrite (starts_value_skip _ [] Hstart).
  rewrite scan_once_encode; [reflexivity | assumption .. | reflexivity | lia].
Qed.

End RoundTrip.

(** *** Equality of what was read *)

Lemma SFeqb_refl (x : spec_float) : x <> S754_nan -> SFeqb x x = true.
Proof.
  intros Hnan. unfold SFeqb, SFcompare.
  destruct x as [sign | sign | | sign m e]; [| | contradiction |].
  - reflexivity.
  - destruct sign; reflexivity.
  - destruct sign; rewrite Z.compare_refl, Pos.compare_cont_refl; reflexivity.
Qed.

Lemma list_eq_refl {A} (eq : A -> A -> bool) (xs : list A) :
  List.Forall (fun x => eq x x = true) xs -> list_eq eq xs xs = true.
Proof.
  induction 1 as [| x xs Hx _ IH]; [reflexivity |].
  cbn. now rewrite Hx, IH.
Qed.

Lemma dict_lookup_distinct (d : pydict) (k : pystr) (v : pyval) :
  NoDup (map fst d) -> In (k, v) d -> dict_lookup k d = Some v.
Proof.
  induction d as [| [k' v'] d IH]; [intros _ [] |].
  cbn [map fst dict_lookup]. intros Hnodup Hin.
  apply NoDup_cons in Hnodup as [Hfresh Hnodup].
  destruct Hin as [[= -> ->] | Hin].
  - now rewrite bool_decide_eq_true_2.
  - rewrite bool_decide_eq_false_2; [now apply IH |].
    intros ->. apply Hfresh, list_elem_of_In, in_map_iff. now exists (k', v).
Qed.

(** A value without a NaN is equal to itself. *)
Lemma py_eq_refl (v : pyval) :
  distinct_keys v = true ->
  List.Forall (fun x => x <> S754_nan) (floats v) ->
  py_eq v v = true.
Proof.
  induction v as [| b | n | x | s | xs IH | items IH] using pyval_nested_ind;
    intros Hkeys Hfloats.
  - reflexivity.
  - cbn. apply Z.eqb_refl.
  - cbn. apply Z.eqb_refl.
  - cbn. apply SFeqb_refl. now apply List.Forall_inv in Hfloats.
  - cbn. now apply bool_decide_eq_true_2.
  - cbn [py_eq]. apply list_eq_refl.
    rewrite List.Forall_forall in IH |- *. intros y Hy. apply (IH y Hy).
    + cbn [distinct_keys] in Hkeys. rewrite List.forallb_forall in Hkeys.
      now apply Hkeys.
    + now apply (floats_of_item _ xs).
  - cbn [py_eq]. rewrite Nat.eqb_refl. cbn [andb].
    cbn [distinct_keys] in Hkeys. apply andb_prop in Hkeys as [Hnodup Hkeys].
    apply bool_decide_eq_true_1 in Hnodup.
    rewrite List.forallb_forall in Hkeys |- *. intros [k v] Hin. cbn [fst snd].
    rewrite (dict_lookup_distinct items k v Hnodup Hin).
    rewrite List.Forall_forall in IH. apply (IH (k, v) Hin).
    + now apply (Hkeys (k, v)).
    + now apply (floats_of_member _ items (k, v)).
Qed.

Lemma reads_back_no_nan (float_repr : spec_float -> pystr)
    (float_parse : pystr -> spec_float) (x : spec_float) :
  float_reads_back float_repr float_parse x -> x <> S754_nan.
Proof. intros H ->. exact H. Qed.

End JsonFacts.

Example dumps_compact :
  Json.dumps Scenario.text_of_float None
    (PyList [PyInt 1; PyFloat Scenario.one_and_a_half; PyNone; PyList []])
  = u "[1, 1.5, null, []]".
Proof. vm_compute. reflexivity. Qed.

Example dumps_pretty :
  Json.dumps Scenario.text_of_float (Some 2%nat)
    (PyList [PyInt 1; PyList [PyBool false; PyInt (-2)]; PyDict []])
  = u "[
  1,
  [
    false,
    -2
  ],
  {}
]".
Proof. vm_compute. reflexivity. Qed.

Example loads_array :
  Json.loads Scenario.float_of_text (u " [1, 1.5 , null,true, NaN]
")
  = Some (PyList [ PyInt 1; PyFloat Scenario.one_and_a_half; PyNone; PyBool true;
                   PyFloat S754_nan ]).
Proof. vm_compute. reflexivity. Qed.

Example loads_extra_data : Json.loads Scenario.float_of_text (u "1 2") = None.
Proof. vm_compute. reflexivity. Qed.

Example loads_leading_zero : Json.loads Scenario.float_of_text (u "01") = None.
Proof. vm_compute. reflexivity. Qed.

(** C5, as read from the specification: whatever structure the command
    holds, the JSON text it renders, read again as JSON, gives a value equal
    to the structure.  It fails for a NaN, whatever the texts of the other
    floats are: [response.json()] accepts the token [NaN], the renderer
    writes it back as [NaN], the reader gives a NaN, and a NaN is equal to
    nothing, itself included. *)
Lemma nan_is_not_read_back_equal :
  ~ (exists (float_repr : spec_float -> pystr) (float_parse : pystr -> spec_float),
        forall (indent : option nat) (v : pyval),
          Json.distinct_keys v = true ->
          exists v',
            Json.loads float_parse (Json.dumps float_repr indent v) = Some v'
            /\ py_eq v' v = true).
Proof.
  intros (float_repr & float_parse & claim).
  destruct (claim None (PyFloat S754_nan) eq_refl) as (v' & Hloads & Heq).
  vm_compute in Hloads. injection Hloads as <-. discriminate Heq.
Qed.

(** C5 (amended): for every structure that holds no NaN, the JSON text the
    renderer produces, pretty ([indent=2]) or compact (no indent), parses
    back to the structure itself, which is equal to itself in Python's
    sense.  The texts of the finite floats are the runtime's: each float of
    the structure is taken to survive [repr] and [float], as Python documents
    for every float. *)
Theorem rendered_json_parses_back
    (float_repr : spec_float -> pystr) (float_parse : pystr -> spec_float)
    (indent : option nat) (v : pyval) :
  Json.distinct_keys v = true ->
  List.Forall (Json.float_reads_back float_repr float_parse) (Json.floats v) ->
  Json.loads float_parse (Json.dumps float_repr indent v) = Some v
  /\ py_eq v v = true.
Proof.
  intros Hkeys Hfloats. split.
  - now apply loads_dumps.
  - apply py_eq_refl; [exact Hkeys |].
    eapply List.Forall_impl; [| exact Hfloats].
    intros x. apply reads_back_no_nan.
Qed.

(** The structure of the scenario, rendered pretty and compact. *)
Lemma rendered_json_parses_back_witness :
  Json.loads Scenario.float_of_text
    (Json.dumps Scenario.text_of_float (Some 2%nat) Scenario.weighted)
  = Some Scenario.weighted
  /\ Json.loads Scenario.float_of_text
       (Json.dumps Scenario.text_of_float None Scenario.weighted)
     = Some Scenario.weighted.
Proof.
  assert (Hkeys : Json.distinct_keys Scenario.weighted = true)
    by (vm_compute; reflexivity).
  assert (Hfloats : List.Forall
                      (Json.float_reads_back Scenario.text_of_float
                         Scenario.float_of_text)
                      (Json.floats Scenario.weighted)).
  { repeat constructor. }
  split.
  - apply (rendered_json_parses_back Scenario.text_of_float Scenario.float_of_text
             (Some 2%nat) Scenario.weighted Hkeys Hfloats).
  - apply (rendered_json_parses_back Scenario.text_of_float Scenario.float_of_text
             None Scenario.weighted Hkeys Hfloats).
Defined.
